(** * Quantis: the asynchronous decision-analysis job orchestrator

    A shallow embedding of the Next.js API routes that create, resume,
    report and externally update an analysis job, of the hypothesis diff
    guard of the CFO assistant, and of the tab lifecycle of [TabsContext],
    followed by the properties the specification states about them;
    then of the routes, hooks and components around them (the listing,
    synchronous, chat and hypotheses routes, the download of the files,
    the polling hook, the history and the hypothesis bar), with the
    properties the code itself shows.

    The [analyses] table is a finite map from row id to row; a Supabase
    query is a function on that map.  An [await]ed background task is a
    list of writes applied in order; what the outside world answers (the
    AI service, the storage bucket, the id generator) is an explicit
    argument. *)

From stdpp Require Import gmap strings list sorting pretty.
From Stdlib Require Import ZArith Ascii PrimFloat.

Local Open Scope string_scope.
Local Open Scope Z_scope.
Local Set Warnings "-register-all,-clear-no-such-hyp".

(** ** JSON values and request bodies *)

(** What [request.json()] and [response.json()] return; a number is an
    IEEE double. *)
Inductive Json : Type :=
| JNull
| JBool (b : bool)
| JNum (x : float)
| JStr (s : string)
| JArr (items : list Json)
| JObj (fields : list (string * Json)).

(** A destructured body field is [undefined] ([None]) or a JSON value.
    [truthy] is JavaScript's ToBoolean on it. *)
Definition truthy (v : option Json) : bool :=
  match v with
  | None | Some JNull => false
  | Some (JBool b) => b
  | Some (JNum x) => negb (PrimFloat.eqb x 0) && negb (PrimFloat.is_nan x)
  | Some (JStr s) => negb (bool_decide (s = ""))
  | Some (JArr _) | Some (JObj _) => true
  end.

(** ** The [analyses] table *)

(** [AnalysisStep] of the progress hook. *)
Record AnalysisStep : Type := mkStep {
  step_name : string;
  step_label : string;
  step_status : string;
  step_message : option string;
}.

(** [MissingData] of the progress hook. *)
Record MissingData : Type := mkMissing {
  md_id : string;
  md_type : string;
  md_description : string;
  md_required : bool;
}.

(** One row of [analyses] (migrations.sql and
    add-analysis-status-migration.sql).  [created_at] is the instant the
    row was inserted; [updated_at], which a trigger refreshes on every
    update, is left out. *)
Record Analysis : Type := mkAnalysis {
  user_id : string;
  project_id : string;
  question : string;
  file_ids : list string;
  status : string;
  current_step : option string;
  progress : Z;
  steps : list AnalysisStep;
  missing_data : list MissingData;
  partial_result : Json;
  result : Json;
  created_at : Z;
}.

(** The object handed to [.update(...)]: a column is written exactly when
    the object has the key. *)
Record Update : Type := mkUpdate {
  upd_status : option string;
  upd_current_step : option (option string);
  upd_progress : option Z;
  upd_steps : option (list AnalysisStep);
  upd_missing_data : option (list MissingData);
  upd_result : option Json;
}.

Definition apply_update (a : Analysis) (u : Update) : Analysis :=
  {| user_id := user_id a;
     project_id := project_id a;
     question := question a;
     file_ids := file_ids a;
     status := default (status a) (upd_status u);
     current_step := default (current_step a) (upd_current_step u);
     progress := default (progress a) (upd_progress u);
     steps := default (steps a) (upd_steps u);
     missing_data := default (missing_data a) (upd_missing_data u);
     partial_result := partial_result a;
     result := default (result a) (upd_result u);
     created_at := created_at a |}.

(** The two CHECK constraints of add-analysis-status-migration.sql. *)
Definition status_values : list string :=
  ["pending"; "in_progress"; "waiting_for_data"; "completed"; "error"].

Definition check_row (a : Analysis) : bool :=
  bool_decide (status a ∈ status_values)
  && (0 <=? progress a) && (progress a <=? 100).

(** [.eq('user_id', uid)] when the query has that filter. *)
Definition owned_by (owner : option string) (a : Analysis) : bool :=
  match owner with
  | None => true
  | Some uid => bool_decide (user_id a = uid)
  end.

(** [supabase.from('analyses').select(...).eq('id', id).eq('user_id', uid).single()]:
    the row, or an error when no row matches. *)
Definition select_single (tbl : gmap string Analysis) (id uid : string)
  : option Analysis :=
  match tbl !! id with
  | Some a => if bool_decide (user_id a = uid) then Some a else None
  | None => None
  end.

(** [supabase.from('analyses').update(u).eq('id', id)], with
    [.eq('user_id', uid)] when [owner = Some uid].  [None] is the
    [error] of the query (a violated CHECK); an update that matches no
    row succeeds and changes nothing. *)
Definition db_update (tbl : gmap string Analysis) (id : string)
    (owner : option string) (u : Update) : option (gmap string Analysis) :=
  match tbl !! id with
  | Some a =>
      if owned_by owner a then
        let a' := apply_update a u in
        if check_row a' then Some (<[id := a']> tbl) else None
      else Some tbl
  | None => Some tbl
  end.

(** A write whose [error] is only logged (or not looked at): the task goes
    on with the table as the database left it. *)
Definition write (tbl : gmap string Analysis) (id : string) (u : Update)
  : gmap string Analysis :=
  default tbl (db_update tbl id None u).

Definition run_writes (id : string) (ws : list Update)
    (tbl : gmap string Analysis) : gmap string Analysis :=
  foldl (λ t u, write t id u) tbl ws.

(** The table after each write of a task, in order. *)
Fixpoint trace (id : string) (ws : list Update) (tbl : gmap string Analysis)
  : list (gmap string Analysis) :=
  match ws with
  | [] => []
  | u :: ws' => let t := write tbl id u in t :: trace id ws' t
  end.

(** The same writes seen from the one row they name: a write that the
    CHECK constraints refuse leaves the row as it was. *)
Definition write_row (a : Analysis) (u : Update) : Analysis :=
  if check_row (apply_update a u) then apply_update a u else a.

Definition row_after (a : Analysis) (ws : list Update) : Analysis :=
  foldl write_row a ws.

Fixpoint row_trace (a : Analysis) (ws : list Update) : list Analysis :=
  match ws with
  | [] => []
  | u :: ws' => let a' := write_row a u in a' :: row_trace a' ws'
  end.

(** The successive states of the row [id]: before the writes, then after
    each of them. *)
Definition history (id : string) (ws : list Update)
    (tbl : gmap string Analysis) : list Analysis :=
  omap (λ t : gmap string Analysis, t !! id) (tbl :: trace id ws tbl).

(** From one state of a row to the next, progress does not go down,
    unless the next state is the error state. *)
Fixpoint nondecreasing_until_error (rows : list Analysis) : Prop :=
  match rows with
  | x :: (y :: _) as rest =>
      (status y = "error" ∨ progress x ≤ progress y)
      ∧ nondecreasing_until_error rest
  | _ => True
  end.

(** ** HTTP responses *)

Record StatusReport : Type := mkReport {
  rep_analysis_id : string;
  rep_status : string;
  rep_current_step : option string;
  rep_progress : Z;
  rep_steps : list AnalysisStep;
  rep_missing_data : list MissingData;
  rep_partial_result : Json;
  rep_result : Json;
  rep_question : string;
}.

Inductive Body : Type :=
| ErrorBody (error : string)
| LaunchBody (analysis_id : string) (st : string) (step : string)
    (prog : Z) (init_steps : list AnalysisStep)
| ContinueBody (analysis_id : string) (st : string)
| StatusBody (r : StatusReport)
| SuccessBody.

Record Response : Type := mkResponse {
  http_status : Z;
  body : Body;
}.

(** [requireAuth()] returns the user or the response to send back. *)
Inductive AuthResult : Type :=
| AuthUser (uid : string)
| AuthResponse (r : Response).

(** ** The AI service *)

Record FileData : Type := mkFileData {
  fd_file_id : string;
  fd_content_base64 : string;
}.

(** The JSON body posted to [/api/decisions/analyze/stream] of the Python
    backend; a key whose value is [undefined] is dropped by
    [JSON.stringify]. *)
Record AnalyzeRequest : Type := mkRequest {
  req_question : string;
  req_file_ids : option (list string);
  req_files_data : option (list FileData);
  req_analysis_id : string;
  req_update_status_url : option string;
  req_provided_data : option Json;
}.

(** What the [fetch] of the AI service does: it throws, or answers with
    [response.ok] and a body that [response.json()] parses or not. *)
Inductive FetchOutcome : Type :=
| FetchThrows
| FetchNotOk
| FetchOkMalformed
| FetchOk (report : Json).

Definition nonempty_or_undefined {A} (l : list A) : option (list A) :=
  match l with [] => None | _ => Some l end.

(** ** GET /api/decisions/analyze/[id]/status *)

Module Status.

Definition not_found : Response :=
  mkResponse 404 (ErrorBody "Analysis not found or access denied").

Definition GET (auth : AuthResult) (analysisId : string)
    (tbl : gmap string Analysis) : Response :=
  match auth with
  | AuthResponse r => r
  | AuthUser uid =>
      if bool_decide (analysisId = "") then
        mkResponse 400 (ErrorBody "Analysis ID is required")
      else
        match select_single tbl analysisId uid with
        | None => not_found
        | Some analysis =>
            mkResponse 200 (StatusBody
              {| rep_analysis_id := analysisId;
                 rep_status :=
                   if bool_decide (status analysis = "") then "pending"
                   else status analysis;
                 rep_current_step :=
                   match current_step analysis with
                   | Some "" => None
                   | step => step
                   end;
                 rep_progress := progress analysis;
                 rep_steps := steps analysis;
                 rep_missing_data := missing_data analysis;
                 rep_partial_result :=
                   if truthy (Some (partial_result analysis))
                   then partial_result analysis else JNull;
                 rep_result :=
                   if bool_decide (status analysis = "completed")
                   then result analysis else JNull;
                 rep_question := question analysis |})
        end
  end.

End Status.

(** ** POST /api/decisions/analyze/[id]/update-status *)

Module UpdateStatus.

(** What the handler destructures from the request body, each field
    absent ([undefined]) or of the type its column takes; [message] is
    read and never used.  A JSON [null], which the handler would copy
    as it copies a value and which the nullable columns accept, is not
    among the bodies described here. *)
Record Fields : Type := mkFields {
  f_status : option string;
  f_current_step : option (option string);
  f_progress : option Z;
  f_steps : option (list AnalysisStep);
  f_message : option string;
  f_missing_data : option (list MissingData);
}.

Definition updateData (b : Fields) : Update :=
  {| upd_status := f_status b;
     upd_current_step := f_current_step b;
     upd_progress := f_progress b;
     upd_steps := f_steps b;
     upd_missing_data := f_missing_data b;
     upd_result := None |}.

Definition failed : Response :=
  mkResponse 500 (ErrorBody "Failed to update analysis status").

(** [body] is [None] when [request.json()] throws or returns [null],
    which cannot be destructured: the outer [catch] answers. *)
Definition POST (auth : AuthResult) (analysisId : string) (body : option Fields)
    (tbl : gmap string Analysis) : Response * gmap string Analysis :=
  match auth with
  | AuthResponse r => (r, tbl)
  | AuthUser uid =>
      if bool_decide (analysisId = "") then
        (mkResponse 400 (ErrorBody "Analysis ID is required"), tbl)
      else
        match body with
        | None => (failed, tbl)
        | Some b =>
            match db_update tbl analysisId (Some uid) (updateData b) with
            | None => (failed, tbl)
            | Some tbl' => (mkResponse 200 SuccessBody, tbl')
            end
        end
  end.

End UpdateStatus.

(** The write both routes issue when the background task fails. *)
Definition error_update : Update :=
  {| upd_status := Some "error";
     upd_current_step := None;
     upd_progress := Some 0;
     upd_steps := None;
     upd_missing_data := None;
     upd_result := None |}.

Definition rejects (o : FetchOutcome) : bool :=
  match o with FetchOk _ => false | _ => true end.

(** ** POST /api/decisions/analyze/[id]/continue *)

Module Continue.

(** The arguments of the detached [launchAnalysisAsync] call. *)
Record Task : Type := mkTask {
  task_analysisId : string;
  task_question : string;
  task_fileIds : list string;
  task_providedData : option Json;
}.

Definition not_found : Response :=
  mkResponse 404 (ErrorBody "Analysis not found or access denied").

Definition bad_body : Response :=
  mkResponse 500 (ErrorBody "Failed to continue analysis").

(** What the handler destructures from the request body. *)
Record Fields : Type := mkFields { f_missing_data : option Json }.

(** The update of the route handler itself. *)
Definition resume_update : Update :=
  {| upd_status := Some "in_progress";
     upd_current_step := Some (Some "analyzing_structure");
     upd_progress := Some 20;
     upd_steps := None;
     upd_missing_data := Some [];
     upd_result := None |}.

(** The handler reads the body, reads the row with the caller's id,
    writes [resume_update], starts the task without awaiting it and
    answers.  Nothing in it reads the row's [status] or [missing_data],
    or looks inside the supplied [missing_data].  [body] is [None] when
    [request.json()] throws or returns [null]. *)
Definition POST (auth : AuthResult) (analysisId : string)
    (body : option Fields) (tbl : gmap string Analysis)
  : Response * gmap string Analysis * option Task :=
  match auth with
  | AuthResponse r => (r, tbl, None)
  | AuthUser uid =>
      if bool_decide (analysisId = "") then
        (mkResponse 400 (ErrorBody "Analysis ID is required"), tbl, None)
      else
        match body with
        | None => (bad_body, tbl, None)
        | Some b =>
            match select_single tbl analysisId uid with
            | None => (not_found, tbl, None)
            | Some analysis =>
                match db_update tbl analysisId None resume_update with
                | None =>
                    (mkResponse 500 (ErrorBody "Failed to update analysis"),
                     tbl, None)
                | Some tbl' =>
                    (mkResponse 200 (ContinueBody analysisId "in_progress"),
                     tbl',
                     Some (mkTask analysisId (question analysis)
                             (file_ids analysis) (f_missing_data b)))
                end
            end
        end
  end.

Definition start_update : Update :=
  {| upd_status := Some "in_progress";
     upd_current_step := Some (Some "analyzing_structure");
     upd_progress := Some 20;
     upd_steps := None;
     upd_missing_data := None;
     upd_result := None |}.

Definition completed_update (report : Json) : Update :=
  {| upd_status := Some "completed";
     upd_current_step := Some (Some "creating_recommendations");
     upd_progress := Some 100;
     upd_steps := None;
     upd_missing_data := None;
     upd_result := Some report |}.

Definition request (t : Task) : AnalyzeRequest :=
  {| req_question := task_question t;
     req_file_ids := nonempty_or_undefined (task_fileIds t);
     req_files_data := None;
     req_analysis_id := task_analysisId t;
     req_update_status_url := None;
     req_provided_data := task_providedData t |}.

(** [launchAnalysisAsync]: the request it sends to the AI service and
    its own writes to the row, in order, given what the service answers.
    Its [catch] block names [supabase], which is bound in [POST] and not
    in this function (the client here is [supabaseClient]): the block
    raises before it writes, so the only error write of the function is
    the one of the [!response.ok] branch. *)
Definition launchAnalysisAsync (t : Task) (o : FetchOutcome)
  : AnalyzeRequest * list Update :=
  (request t,
   start_update ::
   match o with
   | FetchThrows => []
   | FetchNotOk => [error_update]
   | FetchOkMalformed => []
   | FetchOk report => [completed_update report]
   end).

(** The writes of the task together with the one of the [.catch] the
    handler attaches to it. *)
Definition background (t : Task) (o : FetchOutcome) : list Update :=
  (launchAnalysisAsync t o).2 ++ (if rejects o then [error_update] else []).

(** The table once the task has settled. *)
Definition run (t : Task) (o : FetchOutcome) (tbl : gmap string Analysis)
  : gmap string Analysis :=
  run_writes (task_analysisId t) (background t o) tbl.

End Continue.

(** ** POST /api/decisions/analyze/stream *)

Module Stream.

Record Project : Type := mkProject { proj_user_id : string }.

Record FileRow : Type := mkFileRow {
  file_user_id : string;
  file_project_id : string;
}.

Record Task : Type := mkTask {
  task_analysisId : string;
  task_question : string;
  task_fileIds : list string;
}.

Definition pending_step (name label : string) : AnalysisStep :=
  mkStep name label "pending" None.

Definition initialSteps : list AnalysisStep :=
  [ pending_step "analyzing_question" "Analyse de la question";
    pending_step "checking_files" "Vérification des fichiers disponibles";
    pending_step "analyzing_structure" "Analyse de la structure des données";
    pending_step "calculating_metrics" "Calcul des métriques clés";
    pending_step "generating_scenarios" "Génération des scénarios";
    pending_step "creating_recommendations" "Création des recommandations" ].

(** What the handler destructures from the request body. *)
Record Fields : Type := mkFields {
  f_question : option Json;
  f_file_ids : option Json;
  f_project_id : option Json;
}.

(** What the handler makes of [question].  The logging line
    [question?.substring(0, 50)] comes first: on a value that is neither
    nullish nor a string it calls [undefined] and throws.  Then
    [!question || typeof question !== 'string'] rejects what is left
    that is not a non-empty string. *)
Inductive QuestionCheck : Type :=
| QuestionThrows
| QuestionRequired
| QuestionOk (q : string).

Definition check_question (question : option Json) : QuestionCheck :=
  match question with
  | None | Some JNull => QuestionRequired
  | Some (JStr s) =>
      if bool_decide (s = "") then QuestionRequired else QuestionOk s
  | Some _ => QuestionThrows
  end.

Definition failed_to_start : Response :=
  mkResponse 500 (ErrorBody "Failed to start analysis").

(** The project row with that id and the caller as owner. *)
Definition select_project (projects : gmap string Project)
    (project_id : option Json) (uid : string) : option string :=
  match project_id with
  | Some (JStr p) =>
      match projects !! p with
      | Some pr => if bool_decide (proj_user_id pr = uid) then Some p else None
      | None => None
      end
  | _ => None
  end.

Definition as_ids (v : Json) : option (list string) :=
  match v with
  | JArr items =>
      mapM (λ j, match j with JStr s => Some s | _ => None end) items
  | _ => None
  end.

Definition file_matches (files : gmap string FileRow) (uid p id : string)
  : bool :=
  match files !! id with
  | Some f =>
      bool_decide (file_user_id f = uid) && bool_decide (file_project_id f = p)
  | None => false
  end.

(** The ownership check on [file_ids]: made only for a non-empty
    array; [false] is the 403 answer. *)
Definition files_ok (files : gmap string FileRow) (uid p : string)
    (file_ids : option Json) : bool :=
  match file_ids with
  | Some (JArr ((_ :: _) as items)) =>
      match as_ids (JArr items) with
      | Some ids =>
          bool_decide (length (filter (λ id, file_matches files uid p id = true)
                                 (remove_dups ids)) = length ids)
      | None => false
      end
  | _ => true
  end.

(** [file_ids || []], as the [UUID[]] column takes it. *)
Definition file_ids_or_empty (file_ids : option Json) : option (list string) :=
  if truthy file_ids then
    match file_ids with Some v => as_ids v | None => None end
  else Some [].

Definition new_row (uid p q : string) (ids : list string) (now : Z)
  : Analysis :=
  {| user_id := uid;
     project_id := p;
     question := q;
     file_ids := ids;
     status := "pending";
     current_step := Some "analyzing_question";
     progress := 0;
     steps := initialSteps;
     missing_data := [];
     partial_result := JObj [];
     result := JObj [];
     created_at := now |}.

(** [new_id] is the primary key the database generates for the row and
    [now] its [created_at]; an insert on a key already present is the
    [saveError] case.  [body] is [None] when [request.json()] throws or
    returns [null]. *)
Definition POST (auth : AuthResult) (body : option Fields)
    (new_id : string) (now : Z)
    (projects : gmap string Project) (files : gmap string FileRow)
    (tbl : gmap string Analysis)
  : Response * gmap string Analysis * option Task :=
  match auth, body with
  | AuthResponse r, _ => (r, tbl, None)
  | AuthUser uid, None => (failed_to_start, tbl, None)
  | AuthUser uid, Some b =>
      match check_question (f_question b) with
      | QuestionThrows => (failed_to_start, tbl, None)
      | QuestionRequired =>
          (mkResponse 400 (ErrorBody "Question is required"), tbl, None)
      | QuestionOk q =>
          if negb (truthy (f_project_id b)) then
            (mkResponse 400 (ErrorBody "Project ID is required"), tbl, None)
          else
            match select_project projects (f_project_id b) uid with
            | None =>
                (mkResponse 403 (ErrorBody "Project not found or access denied"),
                 tbl, None)
            | Some p =>
                if negb (files_ok files uid p (f_file_ids b)) then
                  (mkResponse 403 (ErrorBody
                     "Some files not found, access denied, or files belong to different project"),
                   tbl, None)
                else
                  match file_ids_or_empty (f_file_ids b), tbl !! new_id with
                  | Some ids, None =>
                      (mkResponse 200
                         (LaunchBody new_id "pending" "analyzing_question" 0
                            initialSteps),
                       <[new_id := new_row uid p q ids now]> tbl,
                       Some (mkTask new_id q ids))
                  | _, _ =>
                      (mkResponse 500 (ErrorBody "Failed to create analysis"),
                       tbl, None)
                  end
            end
      end
  end.

Definition detailed_step (name label st message : string) : AnalysisStep :=
  mkStep name label st (Some message).

Definition steps : list AnalysisStep :=
  [ detailed_step "analyzing_question" "Analyse de la question" "in_progress"
      "Analyse de la question et extraction des paramètres clés...";
    detailed_step "checking_files" "Vérification des fichiers disponibles"
      "pending" "";
    detailed_step "analyzing_structure" "Analyse de la structure des données"
      "pending" "";
    detailed_step "calculating_metrics" "Calcul des métriques clés" "pending" "";
    detailed_step "generating_scenarios" "Génération des scénarios" "pending" "";
    detailed_step "creating_recommendations" "Création des recommandations"
      "pending" "" ].

(** [steps.map((s, i) => ({...s, status: i === k ? 'in_progress' :
    i < k ? 'completed' : 'pending', message: i === k ? msg : s.message}))] *)
Definition steps_at (k : nat) (msg : string) : list AnalysisStep :=
  imap (λ i s,
    mkStep (step_name s) (step_label s)
      (if bool_decide (i = k) then "in_progress"
       else if bool_decide (i < k)%nat then "completed" else "pending")
      (if bool_decide (i = k) then Some msg else step_message s)) steps.

(** [s.message || 'Terminé'] *)
Definition message_or_done (m : option string) : option string :=
  match m with
  | Some s => if bool_decide (s = "") then Some "Terminé" else Some s
  | None => Some "Terminé"
  end.

Definition steps_completed : list AnalysisStep :=
  (λ s, mkStep (step_name s) (step_label s) "completed"
          (message_or_done (step_message s))) <$> steps.

Definition started : Update :=
  {| upd_status := Some "in_progress";
     upd_current_step := Some (Some "analyzing_question");
     upd_progress := Some 5;
     upd_steps := Some steps;
     upd_missing_data := None;
     upd_result := None |}.

Definition checking_files : Update :=
  {| upd_status := None;
     upd_current_step := Some (Some "checking_files");
     upd_progress := Some 10;
     upd_steps :=
       Some (steps_at 1 "Téléchargement et vérification des fichiers...");
     upd_missing_data := None;
     upd_result := None |}.

Definition analyzing_structure : Update :=
  {| upd_status := None;
     upd_current_step := Some (Some "analyzing_structure");
     upd_progress := Some 20;
     upd_steps :=
       Some (steps_at 2 "Analyse de la structure des données et adaptation...");
     upd_missing_data := None;
     upd_result := None |}.

Definition completed : Update :=
  {| upd_status := Some "completed";
     upd_current_step := Some (Some "creating_recommendations");
     upd_progress := Some 100;
     upd_steps := Some steps_completed;
     upd_missing_data := None;
     upd_result := None |}.

Definition save_result (report : Json) : Update :=
  {| upd_status := None;
     upd_current_step := None;
     upd_progress := None;
     upd_steps := None;
     upd_missing_data := None;
     upd_result := Some report |}.

(** What the task finds outside: [NEXT_PUBLIC_APP_URL] or its default,
    what [downloadFilesForBackend] brings back from the storage bucket,
    and what the AI service answers. *)
Record Env : Type := mkEnv {
  app_url : string;
  filesData : list FileData;
  answer : FetchOutcome;
}.

Definition request (app_url : string) (t : Task) (filesData : list FileData)
  : AnalyzeRequest :=
  {| req_question := task_question t;
     req_file_ids := nonempty_or_undefined (task_fileIds t);
     req_files_data := nonempty_or_undefined filesData;
     req_analysis_id := task_analysisId t;
     req_update_status_url :=
       Some (app_url +:+ "/api/decisions/analyze/" +:+ task_analysisId t
             +:+ "/update-status");
     req_provided_data := None |}.

(** [launchAnalysisAsync]: the request it sends to the AI service and
    its writes to the row, in order: the three progress writes, then
    what the answer of the service leads to.  A failed answer is written
    once by the [!response.ok] branch and once by the [catch] block,
    which rethrows. *)
Definition launchAnalysisAsync (t : Task) (e : Env)
  : AnalyzeRequest * list Update :=
  (request (app_url e) t (filesData e),
   ([started; checking_files; analyzing_structure] ++
    match answer e with
    | FetchThrows => [error_update]
    | FetchNotOk => [error_update; error_update]
    | FetchOkMalformed => [error_update]
    | FetchOk report => [completed; save_result report]
    end)%list).

(** The writes of the task together with the one of the [.catch] the
    handler attaches to it. *)
Definition background (t : Task) (e : Env) : list Update :=
  (launchAnalysisAsync t e).2
  ++ (if rejects (answer e) then [error_update] else []).

(** The table once the task has settled. *)
Definition run (t : Task) (e : Env) (tbl : gmap string Analysis)
  : gmap string Analysis :=
  run_writes (task_analysisId t) (background t e) tbl.

End Stream.

(** ** Strings *)

(** [s.startsWith(pre)] *)
Fixpoint startsWith (pre s : string) : bool :=
  match pre, s with
  | EmptyString, _ => true
  | String a pre', String b s' => bool_decide (a = b) && startsWith pre' s'
  | String _ _, EmptyString => false
  end.

Fixpoint drop_chars (n : nat) (s : string) : string :=
  match n, s with
  | S n', String _ s' => drop_chars n' s'
  | _, _ => s
  end.

(** [s.replace(pat, '')]: the first occurrence of [pat] is removed. *)
Fixpoint remove_first (pat s : string) : string :=
  if startsWith pat s then drop_chars (String.length pat) s
  else match s with
       | EmptyString => EmptyString
       | String c s' => String c (remove_first pat s')
       end.

(** A string is the UTF-8 encoding of the JavaScript string, taken to
    be well-formed Unicode.  The white space and line terminators of
    ECMAScript, which [trim] strips, are then: in one byte U+0009 to
    U+000D and U+0020; in two bytes U+00A0; in three bytes U+1680,
    U+2000 to U+200A, U+2028, U+2029, U+202F, U+205F, U+3000 and
    U+FEFF. *)
Definition is_space (c : ascii) : bool :=
  let n := nat_of_ascii c in
  bool_decide (n = 32)%nat || (bool_decide (9 ≤ n)%nat && bool_decide (n ≤ 13)%nat).

Definition is_space2 (c1 c2 : ascii) : bool :=
  bool_decide (nat_of_ascii c1 = 194)%nat && bool_decide (nat_of_ascii c2 = 160)%nat.

Definition is_space3 (c1 c2 c3 : ascii) : bool :=
  let a := nat_of_ascii c1 in
  let b := nat_of_ascii c2 in
  let c := nat_of_ascii c3 in
  (bool_decide (a = 225)%nat && bool_decide (b = 154)%nat
   && bool_decide (c = 128)%nat)
  || (bool_decide (a = 226)%nat && bool_decide (b = 128)%nat
      && ((bool_decide (128 ≤ c)%nat && bool_decide (c ≤ 138)%nat)
          || bool_decide (c = 168)%nat || bool_decide (c = 169)%nat
          || bool_decide (c = 175)%nat))
  || (bool_decide (a = 226)%nat && bool_decide (b = 129)%nat
      && bool_decide (c = 159)%nat)
  || (bool_decide (a = 227)%nat && bool_decide (b = 128)%nat
      && bool_decide (c = 128)%nat)
  || (bool_decide (a = 239)%nat && bool_decide (b = 187)%nat
      && bool_decide (c = 191)%nat).

(** The bytes left once the white space at the front is gone. *)
Fixpoint drop_spaces (l : list ascii) : list ascii :=
  match l with
  | c1 :: l1 =>
      if is_space c1 then drop_spaces l1
      else
        match l1 with
        | c2 :: l2 =>
            if is_space2 c1 c2 then drop_spaces l2
            else
              match l2 with
              | c3 :: l3 => if is_space3 c1 c2 c3 then drop_spaces l3 else l
              | [] => l
              end
        | [] => l
        end
  | [] => []
  end.

(** The same from the end, on the reversed bytes. *)
Fixpoint drop_spaces_rev (l : list ascii) : list ascii :=
  match l with
  | c1 :: l1 =>
      if is_space c1 then drop_spaces_rev l1
      else
        match l1 with
        | c2 :: l2 =>
            if is_space2 c2 c1 then drop_spaces_rev l2
            else
              match l2 with
              | c3 :: l3 =>
                  if is_space3 c3 c2 c1 then drop_spaces_rev l3 else l
              | [] => l
              end
        | [] => l
        end
  | [] => []
  end.

(** [s.trim()] *)
Definition trim (s : string) : string :=
  String.string_of_list_ascii
    (rev (drop_spaces_rev (rev (drop_spaces (String.list_ascii_of_string s))))).

(** ** The hypothesis diff guard of [CFOAssistant] *)

Module CFOAssistant.

(** [value: string | number]; a number is an IEEE double. *)
Inductive Value : Type :=
| VNumber (x : float)
| VText (s : string).

Record HypothesisChip : Type := mkChip {
  hyp_id : string;
  hyp_label : string;
  hyp_value : Value;
  hyp_type : string;
}.

(** [a === b] on [string | number]. *)
Definition strict_eq (a b : Value) : bool :=
  match a, b with
  | VNumber x, VNumber y => PrimFloat.eqb x y
  | VText s, VText t => bool_decide (s = t)
  | _, _ => false
  end.

(** [l.some((x, index) => f(x, index))] *)
Definition some {A} (f : A → nat → bool) (l : list A) : bool :=
  existsb id (imap (λ index x, f x index) l).

(** The expression assigned to [hypothesesChanged]. *)
Definition hypothesesChanged (currentHypotheses newHypotheses : list HypothesisChip)
  : bool :=
  negb (bool_decide (length currentHypotheses = length newHypotheses))
  || some (λ hyp index,
       match newHypotheses !! index with
       | None => true
       | Some newHyp =>
           negb (bool_decide (hyp_id hyp = hyp_id newHyp))
           || negb (strict_eq (hyp_value hyp) (hyp_value newHyp))
       end) currentHypotheses.

Record Tab : Type := mkTab {
  tab_id : string;
  tab_hypothesis : option (list HypothesisChip);
}.

(** The JSON answer of [/api/decisions/chat]. *)
Record ChatResponse : Type := mkChat {
  chat_response : string;
  updated_hypotheses : option (list HypothesisChip);
  should_relaunch_analysis : bool;
}.

Inductive ChatOutcome : Type :=
| ChatFails (message : string)
| ChatOk (r : ChatResponse).

(** What the handler does to the outside: messages appended to the tab,
    the hypotheses replaced, requests sent. *)
Inductive Effect : Type :=
| AddChatMessage (tabId role content : string)
| FetchChat (analysisId message : string) (hypotheses : list HypothesisChip)
| UpdateTabHypothesis (tabId : string) (hypotheses : list HypothesisChip)
| FetchContinue (analysisId : string) (hypothesesData : gmap string Value).

Definition is_continue (e : Effect) : bool :=
  match e with FetchContinue _ _ => true | _ => false end.

(** [tab.id.startsWith('analysis-') ? tab.id.replace('analysis-', '') : null] *)
Definition analysisId (tab : Tab) : option string :=
  if startsWith "analysis-" (tab_id tab)
  then Some (remove_first "analysis-" (tab_id tab)) else None.

(** [forEach(hyp => hypothesesData[hyp.id] = hyp.value)] *)
Definition hypothesesData (hyps : list HypothesisChip) : gmap string Value :=
  foldl (λ m hyp, <[hyp_id hyp := hyp_value hyp]> m) ∅ hyps.

Definition changed_by (tab : Tab) (r : ChatResponse) : bool :=
  match updated_hypotheses r with
  | Some newHypotheses =>
      hypothesesChanged (default [] (tab_hypothesis tab)) newHypotheses
  | None => false
  end.

(** What follows a parsed chat answer (from [const chatResponse] to the
    end of the [try] block); [relaunch_ok] is [relaunchResponse.ok]. *)
Definition on_chat_response (tab : Tab) (id : string) (r : ChatResponse)
    (relaunch_ok : bool) : list Effect :=
  let hypothesesChanged := changed_by tab r in
  [AddChatMessage (tab_id tab) "assistant"
     (if bool_decide (chat_response r = "")
      then "Je n'ai pas pu générer de réponse." else chat_response r)]
  ++ match updated_hypotheses r with
     | Some newHypotheses =>
         if hypothesesChanged
         then [UpdateTabHypothesis (tab_id tab) newHypotheses] else []
     | None => []
     end
  ++ (if should_relaunch_analysis r && hypothesesChanged then
        [AddChatMessage (tab_id tab) "assistant"
           "🔄 Je vais relancer l'analyse avec les nouvelles hypothèses...";
         FetchContinue id
           (hypothesesData (default [] (updated_hypotheses r)))]
        ++ (if relaunch_ok then []
            else [AddChatMessage (tab_id tab) "assistant"
                    "❌ Erreur lors de la relance de l'analyse. Veuillez réessayer."])
      else []).

Definition handleSubmit (input : string) (isLoading : bool) (tab : Tab)
    (chat : ChatOutcome) (relaunch_ok : bool) : list Effect :=
  let message := trim input in
  if bool_decide (message = "") || isLoading then []
  else
    match analysisId tab with
    | Some (String _ _ as id) =>
        [AddChatMessage (tab_id tab) "user" message;
         AddChatMessage (tab_id tab) "assistant" "💭 Réflexion en cours...";
         FetchChat id message (default [] (tab_hypothesis tab))]
        ++ match chat with
           | ChatFails err =>
               [AddChatMessage (tab_id tab) "assistant" ("❌ Erreur: " +:+ err)]
           | ChatOk r => on_chat_response tab id r relaunch_ok
           end
    | _ =>
        [AddChatMessage (tab_id tab) "assistant"
           "❌ Cette analyse n'est pas encore disponible pour le chat. Veuillez attendre que l'analyse soit terminée."]
    end.

End CFOAssistant.

(** ** The formatter of [loadAnalyses] *)

(** The callback that [loadAnalyses] maps over the rows builds the text
    of a stored result.  Only whether it throws matters here: it runs
    inside the [try] of [loadAnalyses], whose [catch] logs and sets no
    state. *)
Module Formatter.

(** The value of a key in a parsed object: the one written last. *)
Fixpoint field (k : string) (fields : list (string * Json)) : option Json :=
  match fields with
  | [] => None
  | (k', v) :: rest =>
      match field k rest with
      | Some v' => Some v'
      | None => if bool_decide (k' = k) then Some v else None
      end
  end.

(** [v.k] for the keys the formatter reads, none of which a prototype
    has: [None] is [undefined]. *)
Definition get (k : string) (v : Json) : option Json :=
  match v with
  | JObj fields => field k fields
  | _ => None
  end.

Definition is_null (v : Json) : bool :=
  match v with JNull => true | _ => false end.

(** The values of [Object.entries] of an object, one per key. *)
Fixpoint values (fields : list (string * Json)) : list Json :=
  match fields with
  | [] => []
  | (k, v) :: rest =>
      if existsb (λ kv : string * Json, bool_decide (kv.1 = k)) rest
      then values rest else v :: values rest
  end.

(** Whether [String(v)], as a template literal applies it, throws: an
    object throws when it has a key [toString], whose value is no
    function, and an array when one of its elements does. *)
Fixpoint string_throws (v : Json) : bool :=
  match v with
  | JObj fields => bool_decide (is_Some (field "toString" fields))
  | JArr items => existsb string_throws items
  | _ => false
  end.

(** [`${v}`] throws; [undefined] is printed. *)
Definition shown_throws (v : option Json) : bool :=
  match v with
  | Some v => string_throws v
  | None => false
  end.

(** *** [Number(s) > 0] *)

Definition is_digit (c : ascii) : bool :=
  bool_decide (48 ≤ nat_of_ascii c)%nat && bool_decide (nat_of_ascii c ≤ 57)%nat.

Fixpoint span_digits (l : list ascii) : list ascii * list ascii :=
  match l with
  | c :: l' =>
      if is_digit c then let '(ds, rest) := span_digits l' in (c :: ds, rest)
      else ([], l)
  | [] => ([], [])
  end.

Definition number_of (ds : list ascii) : Z :=
  foldl (λ n c, 10 * n + (Z.of_nat (nat_of_ascii c) - 48)) 0 ds.

Definition is_char (c : ascii) (s : string) : bool :=
  bool_decide (String c EmptyString = s).

(** The value of an exponent part, 0 when there is none; [None] when
    what follows the mantissa is something else. *)
Definition exponent (l : list ascii) : option Z :=
  match l with
  | [] => Some 0
  | c :: rest =>
      if is_char c "e" || is_char c "E" then
        let '(sign, rest) :=
          match rest with
          | s :: rest' =>
              if is_char s "+" then (1, rest')
              else if is_char s "-" then (-1, rest')
              else (1, rest)
          | [] => (1, rest)
          end in
        match span_digits rest with
        | ((_ :: _) as ds, []) => Some (sign * number_of ds)
        | _ => None
        end
      else None
  end.

(** An unsigned decimal literal whose value rounds to a double above
    zero: its digits [m] are not all zero and [m * 10^e] is above
    [2^-1075], half the least positive double. *)
Definition decimal_positive (l : list ascii) : bool :=
  let '(int, rest) := span_digits l in
  let '(dot, frac, rest) :=
    match rest with
    | c :: rest' =>
        if is_char c "." then
          let '(frac, rest'') := span_digits rest' in (true, frac, rest'')
        else (false, [], rest)
    | [] => (false, [], rest)
    end in
  negb (bool_decide (int = []) && bool_decide (frac = []))
  && match exponent rest with
     | Some e =>
         let m := number_of (int ++ frac) in
         let e := e - Z.of_nat (length frac) in
         (0 <? m) && ((0 <=? e) || (10 ^ (- e) <? m * 2 ^ 1075))
     | None => false
     end.

Definition radix_digit (radix : nat) (c : ascii) : bool :=
  let n := nat_of_ascii c in
  match radix with
  | 16%nat =>
      is_digit c
      || (bool_decide (65 ≤ n)%nat && bool_decide (n ≤ 70)%nat)
      || (bool_decide (97 ≤ n)%nat && bool_decide (n ≤ 102)%nat)
  | _ => bool_decide (48 ≤ n)%nat && bool_decide (n < 48 + radix)%nat
  end.

(** The digits after [0x], [0o] or [0b]: at least one, all of the
    radix, not all zero. *)
Definition integer_positive (radix : nat) (l : list ascii) : bool :=
  negb (bool_decide (l = []))
  && forallb (radix_digit radix) l
  && existsb (λ c, negb (is_char c "0")) l.

Definition unsigned_positive (l : list ascii) : bool :=
  bool_decide (l = String.list_ascii_of_string "Infinity")
  || decimal_positive l.

(** [Number(s) > 0]: white space is stripped as by [trim]; a
    hexadecimal, octal or binary literal takes no sign. *)
Definition string_positive (s : string) : bool :=
  match String.list_ascii_of_string (trim s) with
  | c :: l =>
      if is_char c "-" then false
      else if is_char c "+" then unsigned_positive l
      else
        match l with
        | x :: l' =>
            if is_char c "0" && (is_char x "x" || is_char x "X")
            then integer_positive 16 l'
            else if is_char c "0" && (is_char x "o" || is_char x "O")
            then integer_positive 8 l'
            else if is_char c "0" && (is_char x "b" || is_char x "B")
            then integer_positive 2 l'
            else unsigned_positive (c :: l)
        | [] => unsigned_positive (c :: l)
        end
  | [] => false
  end.

(** [Number(String(v)) > 0] for a [v] on which [String] does not throw:
    an array of one element prints as the element does, an empty one
    and [null] in an array as the empty string. *)
Fixpoint text_positive (v : Json) : bool :=
  match v with
  | JNum x => PrimFloat.ltb 0 x
  | JStr s => string_positive s
  | JArr [e] => text_positive e
  | _ => false
  end.

(** [v > 0] is true or throws. *)
Definition positive_or_throws (v : Json) : bool :=
  match v with
  | JNull => false
  | JBool b => b
  | JNum x => PrimFloat.ltb 0 x
  | JStr s => string_positive s
  | JArr _ | JObj _ => string_throws v || text_positive v
  end.

(** [v.length > 0] is true or throws. *)
Definition has_items (v : Json) : bool :=
  match v with
  | JArr items => negb (bool_decide (items = []))
  | JStr s => negb (bool_decide (s = ""))
  | JObj fields =>
      match field "length" fields with
      | Some l => positive_or_throws l
      | None => false
      end
  | _ => false
  end.

(** *** The sections of the text *)

(** [if (v && v.length > 0) v.forEach(item => ...)]: only an array has
    a [forEach]. *)
Definition list_throws (item_throws : Json → bool) (v : option Json) : bool :=
  match v with
  | Some v =>
      truthy (Some v) && has_items v
      && match v with
         | JArr items => existsb item_throws items
         | _ => true
         end
  | None => false
  end.

Definition summary_throws (result : Json) : bool :=
  match get "decision_summary" result with
  | Some summary =>
      truthy (get "description" summary)
      && (shown_throws (get "description" summary)
          || shown_throws (get "importance" summary))
  | None => false
  end.

Definition metric_throws (metric : Json) : bool :=
  is_null metric
  || shown_throws (get "value" metric)
  || shown_throws (get "unit" metric)
  || shown_throws (get "period" metric).

(** [Object.entries(result.key_metrics).forEach(...)]: the entries of a
    string are its characters, a number or [true] has none. *)
Definition metrics_throw (v : option Json) : bool :=
  truthy v
  && match v with
     | Some (JObj fields) => existsb metric_throws (values fields)
     | Some (JArr items) => existsb metric_throws items
     | _ => false
     end.

Definition factor_throws (factor : Json) : bool :=
  is_null factor
  || shown_throws (get "number" factor)
  || shown_throws (get "factor" factor)
  || shown_throws (get "description" factor).

Definition scenario_throws (scenarios : Json) (k : string) : bool :=
  match get k scenarios with
  | Some scenario =>
      truthy (Some scenario) && shown_throws (get "description" scenario)
  | None => false
  end.

Definition scenarios_throw (v : option Json) : bool :=
  match v with
  | Some scenarios =>
      truthy v
      && (scenario_throws scenarios "optimistic"
          || scenario_throws scenarios "realistic"
          || scenario_throws scenarios "pessimistic")
  | None => false
  end.

(** [action.priority.toUpperCase()] needs a string. *)
Definition action_throws (action : Json) : bool :=
  match get "priority" action with
  | Some (JStr _) =>
      shown_throws (get "action" action)
      || shown_throws (get "impact" action)
      || shown_throws (get "timeline" action)
  | _ => true
  end.

(** The callback throws on a row with this [result]. *)
Definition throws (result : Json) : bool :=
  let result := if truthy (Some result) then result else JObj [] in
  summary_throws result
  || metrics_throw (get "key_metrics" result)
  || list_throws factor_throws (get "critical_factors" result)
  || scenarios_throw (get "scenarios" result)
  || list_throws action_throws (get "recommended_actions" result).

End Formatter.

(** ** The tab lifecycle of [TabsContext] *)

Module TabsContext.

(** A tab of the header; the fields that only feed the display (label,
    hypotheses, chart, chat history, report) are left out. *)
Record DecisionTab : Type := mkTab {
  tab_id : string;
  tab_query : string;
}.

(** The React state of [TabsProvider]. *)
Record State : Type := mkState {
  activeTabId : string;
  decisionTabs : list DecisionTab;
  lastProjectId : option string;
  closedTabs : gset string;
}.

(** What a run of [loadAnalyses] takes from React rather than from the
    state.  [loadAnalyses] is a [useCallback] on [user],
    [activeProjectId] and [supabase]: [lastProjectId] is no dependency,
    so the callback reads the value of the render that built it.  Its
    two updaters communicate through the local variable [mergedTabs],
    which the one handed to [setDecisionTabs] assigns and the one handed
    to [setActiveTabId] reads: React runs the first at the call when the
    provider has no update pending, and otherwise runs both at the next
    render in the order of the hooks, [activeTabId] first, which then
    reads the initial [[]].  Both are left open here: what is proved of
    a reload holds for every value of the two fields. *)
Record Callback : Type := mkCallback {
  cb_lastProjectId : option string;
  cb_eager : bool;
}.

(** The browser and the database around it.  A [localStorage] entry
    holds the JSON array of a [Set] of tab ids, kept here as the set. *)
Record World : Type := mkWorld {
  state : State;
  localStorage : gmap string (gset string);
  analyses : gmap string Analysis;
  callback : Callback;
}.

Definition storageKey (projectId : string) : string :=
  "closed_tabs_" +:+ projectId.

Definition tabId_of (analysis_id : string) : string :=
  "analysis-" +:+ analysis_id.

Definition saveClosedTabs (projectId : string) (closedIds : gset string)
    (ls : gmap string (gset string)) : gmap string (gset string) :=
  <[storageKey projectId := closedIds]> ls.

Definition newer (x y : string * Analysis) : Prop :=
  created_at y.2 ≤ created_at x.2.

#[global] Instance newer_dec x y : Decision (newer x y) :=
  decide (created_at y.2 ≤ created_at x.2).

(** [from('analyses').select('*').eq('user_id', u).eq('project_id', p)
    .order('created_at', {ascending: false})] *)
Definition select_project_analyses (tbl : gmap string Analysis)
    (u p : string) : list (string * Analysis) :=
  merge_sort newer
    (filter (λ r, user_id r.2 = u ∧ project_id r.2 = p) (map_to_list tbl)).

Definition to_tab (r : string * Analysis) : DecisionTab :=
  mkTab (tabId_of r.1) (question r.2).

Definition has_id (id : string) (tabs : list DecisionTab) : bool :=
  existsb (λ t, bool_decide (tab_id t = id)) tabs.

(** [merged.reduce((acc, tab) => { if (!acc.find(t => t.id === tab.id))
    acc.push(tab); return acc; }, [])] *)
Definition dedupe (merged : list DecisionTab) : list DecisionTab :=
  foldl (λ acc tab, if has_id (tab_id tab) acc then acc else (acc ++ [tab])%list)
    [] merged.

(** The rows a reload turns into tabs: those of the user and project
    whose tab is not in the closed set read afresh from [localStorage]. *)
Definition open_rows (u p : string) (w : World) : list (string * Analysis) :=
  let closedTabsForProject := default ∅ (localStorage w !! storageKey p) in
  filter (λ r, tabId_of r.1 ∉ closedTabsForProject)
    (select_project_analyses (analyses w) u p).

(** The formatter accepts every row the reload maps over. *)
Definition formats (u p : string) (w : World) : bool :=
  forallb (λ r : string * Analysis, negb (Formatter.throws (result r.2)))
    (open_rows u p w).

(** [loadAnalyses]: the stored rows of the project, minus the closed
    ones, behind the temporary tabs that are kept.  When the formatter
    throws on a row, the [catch] logs the error and no state is set. *)
Definition loadAnalyses (user activeProjectId : option string) (w : World)
  : World :=
  let st := state w in
  match user, activeProjectId with
  | Some u, Some p =>
      if formats u p w then
        let tabs := to_tab <$> open_rows u p w in
        let projectChanged :=
          match cb_lastProjectId (callback w) with
          | Some l => negb (bool_decide (l = p))
          | None => false
          end in
        let activeTempTabs :=
          if projectChanged then []
          else filter (λ t, startsWith "decision-" (tab_id t) = true
                            ∧ has_id (tab_id t) tabs = false)
                 (decisionTabs st) in
        let mergedTabs := dedupe (activeTempTabs ++ tabs) in
        let seen := if cb_eager (callback w) then mergedTabs else [] in
        mkWorld
          {| activeTabId :=
               if negb (bool_decide (activeTabId st = "dashboard"))
                  && negb (has_id (activeTabId st) seen)
               then "dashboard" else activeTabId st;
             decisionTabs := mergedTabs;
             lastProjectId := Some p;
             closedTabs := closedTabs st |}
          (localStorage w) (analyses w) (callback w)
      else w
  | _, _ =>
      mkWorld
        {| activeTabId := activeTabId st;
           decisionTabs := [];
           lastProjectId := lastProjectId st;
           closedTabs := closedTabs st |}
        (localStorage w) (analyses w) (callback w)
  end.

Definition closeTab (activeProjectId : option string) (tabId : string)
    (w : World) : World :=
  let st := state w in
  let '(closed, ls) :=
    match activeProjectId with
    | Some p =>
        if startsWith "analysis-" tabId then
          let newClosed := closedTabs st ∪ {[tabId]} in
          (newClosed, saveClosedTabs p newClosed (localStorage w))
        else (closedTabs st, localStorage w)
    | None => (closedTabs st, localStorage w)
    end in
  mkWorld
    {| activeTabId :=
         if bool_decide (activeTabId st = tabId) then "dashboard"
         else activeTabId st;
       decisionTabs := filter (λ tab, tab_id tab ≠ tabId) (decisionTabs st);
       lastProjectId := lastProjectId st;
       closedTabs := closed |}
    ls (analyses w) (callback w).

(** The state updates of [reopenTab] take effect before the reload it
    starts gets its rows back. *)
Definition reopenTab (user activeProjectId : option string) (tabId : string)
    (w : World) : World :=
  let st := state w in
  match activeProjectId with
  | Some p =>
      let newClosed := closedTabs st ∖ {[tabId]} in
      loadAnalyses user activeProjectId
        (mkWorld
           {| activeTabId := tabId;
              decisionTabs := decisionTabs st;
              lastProjectId := lastProjectId st;
              closedTabs := newClosed |}
           (saveClosedTabs p newClosed (localStorage w))
           (analyses w) (callback w))
  | None => w
  end.

(** [from('analyses').delete().eq('id', id).eq('user_id', u)] *)
Definition db_delete (tbl : gmap string Analysis) (id u : string)
  : gmap string Analysis :=
  match tbl !! id with
  | Some a => if bool_decide (user_id a = u) then delete id tbl else tbl
  | None => tbl
  end.

Definition permanentlyDeleteTab (user activeProjectId : option string)
    (tabId : string) (w : World) : World :=
  let st := state w in
  let analysisId := remove_first "analysis-" tabId in
  match user with
  | Some u =>
      if bool_decide (analysisId = "") then w
      else
        let tbl := db_delete (analyses w) analysisId u in
        match activeProjectId with
        | Some p =>
            let newClosed := closedTabs st ∖ {[tabId]} in
            mkWorld
              {| activeTabId := activeTabId st;
                 decisionTabs := decisionTabs st;
                 lastProjectId := lastProjectId st;
                 closedTabs := newClosed |}
              (saveClosedTabs p newClosed (localStorage w)) tbl (callback w)
        | None => mkWorld st (localStorage w) tbl (callback w)
        end
  | None => w
  end.

(** The ids shown in the header. *)
Definition active_listing (w : World) : list string :=
  tab_id <$> decisionTabs (state w).

(** The closed set of a project as the next reload will read it. *)
Definition stored_closed (p : string) (w : World) : gset string :=
  default ∅ (localStorage w !! storageKey p).


End TabsContext.

(** ** Sample rows *)

Module Samples.

Definition salary : MissingData :=
  mkMissing "salary" "number" "Salaire brut annuel" true.

Definition job (st : string) (step : string) (prog : Z)
    (md : list MissingData) (res : Json) (created : Z) : Analysis :=
  {| user_id := "u1";
     project_id := "p1";
     question := "Can I hire at 60000?";
     file_ids := ["f1"; "f2"];
     status := st;
     current_step := Some step;
     progress := prog;
     steps := Stream.initialSteps;
     missing_data := md;
     partial_result := JObj [];
     result := res;
     created_at := created |}.

Definition waiting_job : Analysis :=
  job "waiting_for_data" "analyzing_structure" 20 [salary] (JObj []) 1.

Definition completed_job : Analysis :=
  job "completed" "creating_recommendations" 100 []
    (JObj [("verdict", JStr "go")]) 2.

Definition running_job : Analysis :=
  job "in_progress" "analyzing_structure" 20 [] (JObj []) 3.

Definition pending_job : Analysis :=
  job "pending" "analyzing_question" 0 [] (JObj []) 4.

Definition table : gmap string Analysis :=
  <["a1" := waiting_job]> (<["a2" := completed_job]> (<["a3" := running_job]> ∅)).

Definition projects : gmap string Stream.Project :=
  <["p1" := Stream.mkProject "u1"]> (<["p2" := Stream.mkProject "u2"]> ∅).

Definition files : gmap string Stream.FileRow :=
  <["f1" := Stream.mkFileRow "u1" "p1"]>
    (<["f2" := Stream.mkFileRow "u1" "p1"]> ∅).

Definition chip (id : string) (v : CFOAssistant.Value) : CFOAssistant.HypothesisChip :=
  CFOAssistant.mkChip id id v "number".

Definition hypotheses : list CFOAssistant.HypothesisChip :=
  [chip "salary" (CFOAssistant.VNumber 60000); chip "charges" (CFOAssistant.VNumber 42)].

Definition hypotheses' : list CFOAssistant.HypothesisChip :=
  [chip "salary" (CFOAssistant.VNumber 55000); chip "charges" (CFOAssistant.VNumber 42)].

Definition world : TabsContext.World :=
  TabsContext.mkWorld
    {| TabsContext.activeTabId := "analysis-a2";
       TabsContext.decisionTabs :=
         [TabsContext.mkTab "analysis-a2" "Can I hire at 60000?";
          TabsContext.mkTab "decision-17" "Et le stock ?"];
       TabsContext.lastProjectId := Some "p1";
       TabsContext.closedTabs := ∅ |}
    ∅ table (TabsContext.mkCallback (Some "p1") true).

Definition env (o : FetchOutcome) : Stream.Env :=
  Stream.mkEnv "http://localhost:3000" [] o.

Definition launch_task (id : string) : Stream.Task :=
  Stream.mkTask id "Can I hire at 60000?" ["f1"; "f2"].

Definition resume_task (id : string) : Continue.Task :=
  Continue.mkTask id "Can I hire at 60000?" ["f1"; "f2"] None.

Definition hire : option Json := Some (JStr "Can I hire at 60000?").

Definition two_files : option Json := Some (JArr [JStr "f1"; JStr "f2"]).

End Samples.

(** ** The other operations of [TabsProvider] *)

Module TabsProvider.
Import TabsContext.

(** The effect that runs when the active project changes: the closed
    set of the state is read back from [localStorage]. *)
Definition loadClosedTabs (activeProjectId : option string) (w : World)
  : World :=
  let st := state w in
  mkWorld
    {| activeTabId := activeTabId st;
       decisionTabs := decisionTabs st;
       lastProjectId := lastProjectId st;
       closedTabs :=
         match activeProjectId with
         | Some (String _ _ as p) =>
             default ∅ (localStorage w !! storageKey p)
         | _ => ∅
         end |}
    (localStorage w) (analyses w) (callback w).

(** [getClosedTabsForProject]: the rows of the user and the project
    whose tab id is in the stored closed set, newest first. *)
Definition getClosedTabsForProject (user : option string) (projectId : string)
    (w : World) : list DecisionTab :=
  match user with
  | Some u =>
      if bool_decide (projectId = "") then []
      else
        let closedIds := default ∅ (localStorage w !! storageKey projectId) in
        to_tab <$> filter (λ r, tabId_of r.1 ∈ closedIds)
                     (select_project_analyses (analyses w) u projectId)
  | None => []
  end.

(** [createDecisionTab]: without an active project the user is only
    alerted; otherwise a temporary tab named after the clock is appended
    and made active. *)
Definition createDecisionTab (activeProjectId : option string)
    (query : string) (now : Z) (w : World) : World :=
  let st := state w in
  match activeProjectId with
  | Some (String _ _) =>
      let id := "decision-" +:+ pretty now in
      mkWorld
        {| activeTabId := id;
           decisionTabs := decisionTabs st ++ [mkTab id query];
           lastProjectId := lastProjectId st;
           closedTabs := closedTabs st |}
        (localStorage w) (analyses w) (callback w)
  | _ => w
  end.

(** [updateTabWithAnalysisId]: the temporary tab takes the id of the
    stored analysis, and the active tab follows it. *)
Definition updateTabWithAnalysisId (tempTabId analysisId : string) (w : World)
  : World :=
  let st := state w in
  mkWorld
    {| activeTabId :=
         if bool_decide (activeTabId st = tempTabId) then tabId_of analysisId
         else activeTabId st;
       decisionTabs :=
         (λ tab, if bool_decide (tab_id tab = tempTabId)
                 then mkTab (tabId_of analysisId) (tab_query tab) else tab)
         <$> decisionTabs st;
       lastProjectId := lastProjectId st;
       closedTabs := closedTabs st |}
    (localStorage w) (analyses w) (callback w).

(** The active tab is the dashboard or one of the tabs shown. *)
Definition active_tab_shown (w : World) : Prop :=
  activeTabId (state w) = "dashboard"
  ∨ activeTabId (state w) ∈ active_listing w.

(** The closed set of the state is the one stored for the project. *)
Definition closed_in_sync (p : string) (w : World) : Prop :=
  closedTabs (state w) = stored_closed p w.

End TabsProvider.

(** ** [HistoryModal] *)

Module HistoryModal.
Import TabsContext.

(** [loadClosedTabs]: the list shown by the modal; it is left as it was
    without an active project. *)
Definition loadClosedTabs (user activeProjectId : option string) (w : World)
    (closedTabs : list DecisionTab) : list DecisionTab :=
  match activeProjectId with
  | Some p =>
      if bool_decide (p = "") then closedTabs
      else TabsProvider.getClosedTabsForProject user p w
  | None => closedTabs
  end.

(** [handleDelete] once the user has confirmed: the analysis is deleted
    for good, then the list of closed tabs is loaded again. *)
Definition handleDelete (user activeProjectId : option string) (tabId : string)
    (w : World) (closedTabs : list DecisionTab) : World * list DecisionTab :=
  let w' := permanentlyDeleteTab user activeProjectId tabId w in
  (w', loadClosedTabs user activeProjectId w' closedTabs).

End HistoryModal.

(** ** The polling hook [useAnalysisProgress] *)

Module AnalysisProgress.

Definition MAX_POLLING_TIME : Z := 300000.

(** The state and the refs of the hook; [pollingInterval] tells whether
    an interval is installed. *)
Record Hook : Type := mkHook {
  status : option StatusReport;
  isLoading : bool;
  error : option string;
  pollingInterval : bool;
  startTime : option Z;
  isPolling : bool;
}.

(** What the [fetch] of the status route brings back: it throws, it
    answers not-OK with an error body that parses or not, or it answers
    OK with a status report. *)
Inductive Fetched : Type :=
| FetchFailed (message : string)
| NotOk (errorData : option (option string))
| Ok (data : StatusReport).

(** The message of the error thrown on a not-OK answer. *)
Definition not_ok_message (errorData : option (option string)) : string :=
  match errorData with
  | None => "Failed to fetch status"
  | Some (Some (String _ _ as e)) => e
  | Some _ => "Failed to fetch analysis status"
  end.

Definition clear (h : Hook) (loading : bool) (err : option string)
    (st : option StatusReport) : Hook :=
  {| status := st; isLoading := loading; error := err;
     pollingInterval := false; startTime := startTime h; isPolling := false |}.

(** [pollStatus] up to its [await]: nothing happens without an id or
    while a poll is in flight; otherwise the request leaves. *)
Definition pollStatus_begin (analysisId : option string) (h : Hook)
  : Hook * bool :=
  match analysisId with
  | Some (String _ _) =>
      if isPolling h then (h, false)
      else ({| status := status h; isLoading := true; error := None;
               pollingInterval := pollingInterval h;
               startTime := startTime h; isPolling := true |}, true)
  | _ => (h, false)
  end.

(** [pollStatus] from the answer on; [now] is [Date.now()] at that
    moment. *)
Definition pollStatus_end (f : Fetched) (now : Z) (h : Hook) : Hook :=
  match f with
  | FetchFailed message => clear h false (Some message) (status h)
  | NotOk errorData =>
      clear h false (Some (not_ok_message errorData)) (status h)
  | Ok data =>
      if bool_decide (rep_status data = "completed")
         || bool_decide (rep_status data = "error")
      then clear h false (error h) (Some data)
      else
        match startTime h with
        | Some t =>
            if negb (t =? 0) && (MAX_POLLING_TIME <? now - t) then
              clear h false
                (Some "Analysis timeout: The analysis is taking longer than expected.")
                (Some data)
            else
              {| status := Some data; isLoading := isLoading h;
                 error := error h; pollingInterval := pollingInterval h;
                 startTime := startTime h; isPolling := false |}
        | None =>
            {| status := Some data; isLoading := isLoading h;
               error := error h; pollingInterval := pollingInterval h;
               startTime := startTime h; isPolling := false |}
        end
  end.

(** A whole poll, when nothing else runs between the request and the
    answer. *)
Definition pollStatus (analysisId : option string) (f : Fetched) (now : Z)
    (h : Hook) : Hook :=
  let '(h', sent) := pollStatus_begin analysisId h in
  if sent then pollStatus_end f now h' else h'.

(** [startPolling] up to and including its first request: the clock is
    reset and the interval installed. *)
Definition startPolling (analysisId : option string) (now : Z) (h : Hook)
  : Hook * bool :=
  match analysisId with
  | Some (String _ _) =>
      let '(h', sent) :=
        pollStatus_begin analysisId
          {| status := status h; isLoading := isLoading h; error := error h;
             pollingInterval := false; startTime := Some now;
             isPolling := isPolling h |} in
      ({| status := status h'; isLoading := isLoading h'; error := error h';
          pollingInterval := true; startTime := startTime h';
          isPolling := isPolling h' |}, sent)
  | _ => (h, false)
  end.

Definition stopPolling (h : Hook) : Hook :=
  {| status := status h; isLoading := false; error := error h;
     pollingInterval := false; startTime := startTime h; isPolling := false |}.

(** The two states of a job on which the hook stops polling. *)
Definition terminal (data : StatusReport) : Prop :=
  rep_status data = "completed" ∨ rep_status data = "error".

(** What the hook reads in the answer of the status route. *)
Definition fetched (r : Response) : option Fetched :=
  match body r with
  | StatusBody data =>
      if (200 <=? http_status r) && (http_status r <=? 299)
      then Some (Ok data) else None
  | ErrorBody e =>
      if (200 <=? http_status r) && (http_status r <=? 299)
      then None else Some (NotOk (Some (Some e)))
  | _ => None
  end.

End AnalysisProgress.

(** ** Invariants of the [analyses] table *)

(** The columns that no [.update(...)] of the application names. *)
Definition same_identity (a a' : Analysis) : Prop :=
  user_id a' = user_id a ∧ project_id a' = project_id a
  ∧ question a' = question a ∧ file_ids a' = file_ids a
  ∧ partial_result a' = partial_result a ∧ created_at a' = created_at a.

(** No row is deleted and no row changes hands. *)
Definition rows_kept (tbl tbl' : gmap string Analysis) : Prop :=
  ∀ id a, tbl !! id = Some a →
    ∃ a', tbl' !! id = Some a' ∧ same_identity a a'.

(** ** GET /api/analyses *)

Module Analyses.

(** The answer is an error response or the body [{analyses: data}];
    [projectId] is [searchParams.get('project_id')]. *)
Definition GET (auth : AuthResult) (projectId : option string)
    (projects : gmap string Stream.Project) (tbl : gmap string Analysis)
  : Response + list (string * Analysis) :=
  match auth with
  | AuthResponse r => inl r
  | AuthUser uid =>
      match projectId with
      | Some (String _ _ as p) =>
          match Stream.select_project projects (Some (JStr p)) uid with
          | None =>
              inl (mkResponse 403 (ErrorBody "Project not found or access denied"))
          | Some _ => inr (TabsContext.select_project_analyses tbl uid p)
          end
      | _ => inl (mkResponse 400 (ErrorBody "Project ID is required"))
      end
  end.

End Analyses.

(** ** POST /api/decisions/analyze *)

Module Analyze.

(** What the [fetch] of the AI service does: it throws, it answers
    not-OK with a status, or it answers OK with a body that parses or
    not. *)
Inductive Backend : Type :=
| Throws
| NotOk (status : Z)
| Malformed
| Parsed (result : Json).

(** The JSON body posted to [/api/decisions/analyze] of the Python
    backend. *)
Record Request : Type := mkRequest {
  req_question : string;
  req_file_ids : option Json;
}.

(** An error response, or the result of the service: [result] as it is
    when the row could not be saved, and [{...result, analysis_id}]
    when it was. *)
Inductive Answer : Type :=
| Plain (r : Response)
| Result (result : Json) (analysis_id : option string).

Definition failed : Answer :=
  Plain (mkResponse 500 (ErrorBody "Failed to analyze decision")).

(** The row the insert creates: the five columns it names, the other
    columns at the defaults of the two migrations. *)
Definition saved_row (uid p q : string) (ids : list string) (result : Json)
    (now : Z) : Analysis :=
  {| user_id := uid;
     project_id := p;
     question := q;
     file_ids := ids;
     status := "pending";
     current_step := None;
     progress := 0;
     steps := [];
     missing_data := [];
     partial_result := JObj [];
     result := result;
     created_at := now |}.

(** The checks are those of the stream route; then the AI service is
    called and awaited, and its result is saved and returned.  [new_id]
    and [now] are as in [Stream.POST]. *)
Definition POST (auth : AuthResult) (body : option Stream.Fields)
    (new_id : string) (now : Z)
    (projects : gmap string Stream.Project)
    (files : gmap string Stream.FileRow)
    (tbl : gmap string Analysis) (backend : Backend)
  : Answer * gmap string Analysis * option Request :=
  match auth, body with
  | AuthResponse r, _ => (Plain r, tbl, None)
  | AuthUser uid, None => (failed, tbl, None)
  | AuthUser uid, Some b =>
      match Stream.check_question (Stream.f_question b) with
      | Stream.QuestionThrows => (failed, tbl, None)
      | Stream.QuestionRequired =>
          (Plain (mkResponse 400 (ErrorBody "Question is required")), tbl, None)
      | Stream.QuestionOk q =>
          if negb (truthy (Stream.f_project_id b)) then
            (Plain (mkResponse 400 (ErrorBody "Project ID is required")),
             tbl, None)
          else
            match Stream.select_project projects (Stream.f_project_id b) uid with
            | None =>
                (Plain (mkResponse 403
                          (ErrorBody "Project not found or access denied")),
                 tbl, None)
            | Some p =>
                if negb (Stream.files_ok files uid p (Stream.f_file_ids b)) then
                  (Plain (mkResponse 403 (ErrorBody
                     "Some files not found, access denied, or files belong to different project")),
                   tbl, None)
                else
                  let req :=
                    mkRequest q
                      (if truthy (Stream.f_file_ids b)
                       then Stream.f_file_ids b else None) in
                  match backend with
                  | Throws | Malformed => (failed, tbl, Some req)
                  | NotOk s =>
                      (Plain (mkResponse s (ErrorBody "Analysis failed")),
                       tbl, Some req)
                  | Parsed result =>
                      match Stream.file_ids_or_empty (Stream.f_file_ids b),
                            tbl !! new_id with
                      | Some ids, None =>
                          (Result result (Some new_id),
                           <[new_id := saved_row uid p q ids result now]> tbl,
                           Some req)
                      | _, _ => (Result result None, tbl, Some req)
                      end
                  end
            end
      end
  end.

End Analyze.

(** ** POST /api/decisions/chat *)

Module Chat.

(** What the handler destructures from the request body. *)
Record Fields : Type := mkFields {
  f_analysis_id : option Json;
  f_message : option Json;
  f_chat_history : option Json;
  f_hypotheses : option Json;
  f_should_update_hypotheses : option Json;
}.

(** [v || d] *)
Definition or_else (v : option Json) (d : Json) : Json :=
  match v with
  | Some j => if truthy v then j else d
  | None => d
  end.

(** The value [JSON.parse] keeps for a key: the one written last. *)
Fixpoint lookup_key (k : string) (fields : list (string * Json))
  : option Json :=
  match fields with
  | [] => None
  | (k', v) :: rest =>
      match lookup_key k rest with
      | Some v' => Some v'
      | None => if bool_decide (k' = k) then Some v else None
      end
  end.

(** [j.k] for one of the three keys the handler reads, on a parsed value
    other than [null]. *)
Definition get (k : string) (j : Json) : option Json :=
  match j with
  | JObj fields => lookup_key k fields
  | _ => None
  end.

(** The JSON body posted to [/api/decisions/chat] of the Python backend. *)
Record Request : Type := mkRequest {
  req_analysis_id : string;
  req_question : string;
  req_message : string;
  req_analysis_result : Json;
  req_chat_history : Json;
  req_hypotheses : Json;
  req_should_update_hypotheses : Json;
}.

Inductive Backend : Type :=
| Throws
| NotOk
| Malformed
| Parsed (chatResponse : Json).

Record Reply : Type := mkReply {
  response : Json;
  updated_hypotheses : Json;
  should_relaunch_analysis : Json;
}.

Inductive Answer : Type :=
| Plain (r : Response)
| Replied (r : Reply).

Definition internal_error : Answer :=
  Plain (mkResponse 500 (ErrorBody "Internal server error")).

Definition chat_failed : Answer :=
  Plain (mkResponse 500 (ErrorBody "Failed to get chat response")).

Definition not_found : Answer :=
  Plain (mkResponse 404 (ErrorBody "Analysis not found or access denied")).

(** The logging line [message?.substring(0, 50)] comes before the two
    checks and treats [message] as the stream route treats [question];
    a [null] answer of the service makes [chatResponse.response] throw
    inside the inner [try]. *)
Definition POST (auth : AuthResult) (body : option Fields)
    (tbl : gmap string Analysis) (backend : Backend)
  : Answer * option Request :=
  match auth, body with
  | AuthResponse r, _ => (Plain r, None)
  | AuthUser uid, None => (internal_error, None)
  | AuthUser uid, Some b =>
      match Stream.check_question (f_message b) with
      | Stream.QuestionThrows => (internal_error, None)
      | m =>
          match f_analysis_id b with
          | Some (JStr (String _ _ as id)) =>
              match m with
              | Stream.QuestionOk message =>
                  match select_single tbl id uid with
                  | None => (not_found, None)
                  | Some analysis =>
                      (match backend with
                       | Parsed JNull => chat_failed
                       | Parsed chatResponse =>
                           Replied
                             {| response :=
                                  or_else (get "response" chatResponse)
                                    (JStr "Je n'ai pas pu générer de réponse.");
                                updated_hypotheses :=
                                  or_else (get "updated_hypotheses" chatResponse)
                                    JNull;
                                should_relaunch_analysis :=
                                  or_else
                                    (get "should_relaunch_analysis" chatResponse)
                                    (JBool false) |}
                       | _ => chat_failed
                       end,
                       Some
                         {| req_analysis_id := id;
                            req_question := question analysis;
                            req_message := message;
                            req_analysis_result :=
                              or_else (Some (result analysis)) (JObj []);
                            req_chat_history :=
                              or_else (f_chat_history b) (JArr []);
                            req_hypotheses := or_else (f_hypotheses b) (JArr []);
                            req_should_update_hypotheses :=
                              or_else (f_should_update_hypotheses b)
                                (JBool false) |})
                  end
              | _ =>
                  (Plain (mkResponse 400 (ErrorBody "Message is required")), None)
              end
          | _ =>
              (Plain (mkResponse 400 (ErrorBody "Analysis ID is required")), None)
          end
      end
  end.

End Chat.

(** ** [downloadFilesForBackend] of the stream route *)

Module Download.

(** A row of [files] with the column the download reads. *)
Record StoredFile : Type := mkStored {
  sf_row : Stream.FileRow;
  sf_storage_path : string;
}.

(** [fileIds] empty: nothing is asked.  Otherwise the rows whose id is
    in [fileIds] are read, in the order the database gives them, and
    each one whose object the bucket holds is pushed; [bucket] gives
    for a storage path the base64 text of the object there. *)
Definition downloadFilesForBackend (fileIds : list string)
    (files : gmap string StoredFile) (bucket : gmap string string)
  : list FileData :=
  match fileIds with
  | [] => []
  | _ =>
      omap (λ r : string * StoredFile,
              mkFileData r.1 <$> bucket !! sf_storage_path r.2)
        (filter (λ r : string * StoredFile, r.1 ∈ fileIds) (map_to_list files))
  end.

(** The environment of the launch task when the files come from there. *)
Definition env (app_url : string) (t : Stream.Task)
    (files : gmap string StoredFile) (bucket : gmap string string)
    (o : FetchOutcome) : Stream.Env :=
  Stream.mkEnv app_url
    (downloadFilesForBackend (Stream.task_fileIds t) files bucket) o.

End Download.

(** ** [HypothesisBar] *)

Module HypothesisBar.
Import CFOAssistant.

(** [hypothesis.map(chip => chip.id === chipId ? {...chip, value: newValue} : chip)] *)
Definition updated (hypothesis : list HypothesisChip) (chipId : string)
    (newValue : Value) : list HypothesisChip :=
  (λ chip, if bool_decide (hyp_id chip = chipId)
           then mkChip (hyp_id chip) (hyp_label chip) newValue (hyp_type chip)
           else chip) <$> hypothesis.

(** [handleUpdate]: the tab takes the edited list, and the analysis is
    relaunched with it when the tab is the tab of a stored analysis. *)
Definition handleUpdate (tabId : string) (hypothesis : list HypothesisChip)
    (chipId : string) (newValue : Value) : list Effect :=
  let updated := updated hypothesis chipId newValue in
  UpdateTabHypothesis tabId updated ::
  match analysisId (mkTab tabId (Some hypothesis)) with
  | Some (String _ _ as id) => [FetchContinue id (hypothesesData updated)]
  | _ => []
  end.

End HypothesisBar.

(** ** POST /api/decisions/generate-hypotheses *)

Module GenerateHypotheses.

(** What the handler destructures from the request body. *)
Record Fields : Type := mkFields {
  f_analysis_id : option Json;
  f_question : option Json;
}.

(** The JSON body posted to [/api/decisions/generate-hypotheses] of the
    Python backend. *)
Record Request : Type := mkRequest {
  req_question : string;
  req_analysis_result : Json;
}.

Inductive Backend : Type :=
| Throws
| NotOk
| Malformed
| Parsed (hypothesesResponse : Json).

Inductive Answer : Type :=
| Plain (r : Response)
| Hypotheses (hypotheses : Json).

Definition internal_error : Answer :=
  Plain (mkResponse 500 (ErrorBody "Internal server error")).

Definition failed : Answer :=
  Plain (mkResponse 500 (ErrorBody "Failed to generate hypotheses")).

(** [analysisResult]: [null] unless [analysis_id] is given and the row
    is read; an id that is no string makes the query fail. *)
Definition analysisResult (analysis_id : option Json) (uid : string)
    (tbl : gmap string Analysis) : Json :=
  if truthy analysis_id then
    match analysis_id with
    | Some (JStr id) =>
        match select_single tbl id uid with
        | Some analysis => Chat.or_else (Some (result analysis)) (JObj [])
        | None => JNull
        end
    | _ => JNull
    end
  else JNull.

(** The question is checked as in the stream route; a [null] answer of
    the service makes [hypothesesResponse.hypotheses] throw inside the
    inner [try]. *)
Definition POST (auth : AuthResult) (body : option Fields)
    (tbl : gmap string Analysis) (backend : Backend)
  : Answer * option Request :=
  match auth, body with
  | AuthResponse r, _ => (Plain r, None)
  | AuthUser uid, None => (internal_error, None)
  | AuthUser uid, Some b =>
      match Stream.check_question (f_question b) with
      | Stream.QuestionThrows => (internal_error, None)
      | Stream.QuestionRequired =>
          (Plain (mkResponse 400 (ErrorBody "Question is required")), None)
      | Stream.QuestionOk question =>
          (match backend with
           | Parsed JNull => failed
           | Parsed hypothesesResponse =>
               Hypotheses
                 (Chat.or_else (Chat.get "hypotheses" hypothesesResponse)
                    (JArr []))
           | _ => failed
           end,
           Some (mkRequest question (analysisResult (f_analysis_id b) uid tbl)))
      end
  end.

End GenerateHypotheses.

(** ** Sample data, continued *)

Module Scenario.

(** The sample world once the tab of the waiting job has been closed. *)
Definition closed_world : TabsContext.World :=
  TabsContext.closeTab (Some "p1") "analysis-a1" Samples.world.

Definition report (st : string) : StatusReport :=
  {| rep_analysis_id := "a3";
     rep_status := st;
     rep_current_step := Some "analyzing_structure";
     rep_progress := 20;
     rep_steps := Stream.initialSteps;
     rep_missing_data := [];
     rep_partial_result := JObj [];
     rep_result := JNull;
     rep_question := "Can I hire at 60000?" |}.

(** A hook that has been polling since the instant 1000. *)
Definition hook : AnalysisProgress.Hook :=
  AnalysisProgress.mkHook None false None true (Some 1000) false.

Definition stored_files : gmap string Download.StoredFile :=
  <["f1" := Download.mkStored (Stream.mkFileRow "u1" "p1") "u1/p1/f1.csv"]>
    (<["f2" := Download.mkStored (Stream.mkFileRow "u1" "p1") "u1/p1/f2.csv"]> ∅).

(** The bucket has lost the object of [f2]. *)
Definition bucket : gmap string string :=
  <["u1/p1/f1.csv" := "YSxiCjEsMgo="]> ∅.

Definition launch_body : Stream.Fields :=
  Stream.mkFields Samples.hire Samples.two_files (Some (JStr "p1")).

Definition verdict : Json := JObj [("verdict", JStr "go")].

(** A result whose only recommended action has no [priority]. *)
Definition bare_action : Json :=
  JObj [("recommended_actions", JArr [JObj [("action", JStr "hire")]])].

Definition bare_action_job : Analysis :=
  Samples.job "completed" "creating_recommendations" 100 [] bare_action 5.

(** A session of [u1] in the project [p1]: the first load lists the
    three stored jobs; a question is asked and its temporary tab takes
    the id [a4] of the stored analysis when the launch answers; the job
    then completes with [bare_action] as result. *)
Definition bare_action_world : TabsContext.World :=
  let w0 :=
    TabsContext.mkWorld
      {| TabsContext.activeTabId := "dashboard";
         TabsContext.decisionTabs := [];
         TabsContext.lastProjectId := None;
         TabsContext.closedTabs := ∅ |}
      ∅ Samples.table (TabsContext.mkCallback None true) in
  let w1 := TabsContext.loadAnalyses (Some "u1") (Some "p1") w0 in
  let w2 := TabsProvider.createDecisionTab (Some "p1") "Can I hire at 60000?" 17 w1 in
  let w3 := TabsProvider.updateTabWithAnalysisId "decision-17" "a4" w2 in
  TabsContext.mkWorld (TabsContext.state w3) (TabsContext.localStorage w3)
    (<["a4" := bare_action_job]> (TabsContext.analyses w3))
    (TabsContext.callback w3).

End Scenario.

(** * Properties *)

(** ** Rows and writes *)

Lemma db_update_other tbl id owner u tbl' id' :
  db_update tbl id owner u = Some tbl' → id' ≠ id → tbl' !! id' = tbl !! id'.
Proof.
  unfold db_update. intros H Hne.
  destruct (tbl !! id) as [a|] eqn:Ha; [|by injection H as <-].
  destruct (owned_by owner a); [|by injection H as <-].
  destruct (check_row _); [|discriminate].
  injection H as <-. by rewrite lookup_insert_ne.
Qed.

Lemma db_update_foreign tbl id uid u a :
  tbl !! id = Some a → user_id a ≠ uid → db_update tbl id (Some uid) u = Some tbl.
Proof.
  intros Ha Hne. unfold db_update. rewrite Ha. simpl.
  by rewrite bool_decide_eq_false_2.
Qed.

Lemma write_lookup tbl id u a :
  tbl !! id = Some a → write tbl id u !! id = Some (write_row a u).
Proof.
  intros Ha. unfold write, db_update, write_row. rewrite Ha. simpl.
  destruct (check_row _); simpl; [apply lookup_insert_eq | done].
Qed.

Lemma write_other tbl id u id' :
  id' ≠ id → write tbl id u !! id' = tbl !! id'.
Proof.
  intros Hne. unfold write.
  destruct (db_update tbl id None u) as [t|] eqn:E; simpl; [|done].
  by eapply db_update_other.
Qed.

Lemma write_absent tbl id u :
  tbl !! id = None → write tbl id u = tbl.
Proof. intros Ha. unfold write, db_update. by rewrite Ha. Qed.

Lemma run_writes_lookup id ws : ∀ tbl a,
  tbl !! id = Some a → run_writes id ws tbl !! id = Some (row_after a ws).
Proof.
  induction ws as [|u ws IH]; intros tbl a Ha; [done|].
  simpl. apply IH. by apply write_lookup.
Qed.

Lemma run_writes_other id ws id' : ∀ tbl,
  id' ≠ id → run_writes id ws tbl !! id' = tbl !! id'.
Proof.
  induction ws as [|u ws IH]; intros tbl Hne; [done|].
  simpl. rewrite IH by done. by apply write_other.
Qed.

Lemma select_single_Some tbl id uid a :
  select_single tbl id uid = Some a ↔ tbl !! id = Some a ∧ user_id a = uid.
Proof.
  unfold select_single. destruct (tbl !! id) as [b|].
  - case_bool_decide; intuition congruence.
  - intuition congruence.
Qed.

Lemma select_single_foreign tbl id uid a :
  tbl !! id = Some a → user_id a ≠ uid → select_single tbl id uid = None.
Proof.
  intros Ha Hne. unfold select_single. rewrite Ha.
  by rewrite bool_decide_eq_false_2.
Qed.

Lemma check_row_resume a : check_row (apply_update a Continue.resume_update) = true.
Proof. reflexivity. Qed.

Lemma continue_owned uid id b tbl a :
  id ≠ "" → tbl !! id = Some a → user_id a = uid →
  Continue.POST (AuthUser uid) id (Some b) tbl
  = (mkResponse 200 (ContinueBody id "in_progress"),
     <[id := apply_update a Continue.resume_update]> tbl,
     Some (Continue.mkTask id (question a) (file_ids a)
             (Continue.f_missing_data b))).
Proof.
  intros Hid Ha Hu. unfold Continue.POST.
  rewrite bool_decide_eq_false_2 by done.
  rewrite (proj2 (select_single_Some tbl id uid a)) by done.
  unfold db_update. rewrite Ha. cbn [owned_by]. cbv zeta.
  by rewrite check_row_resume.
Qed.

Lemma continue_not_found uid id b tbl :
  id ≠ "" → select_single tbl id uid = None →
  Continue.POST (AuthUser uid) id (Some b) tbl = (Continue.not_found, tbl, None).
Proof.
  intros Hid Hs. unfold Continue.POST.
  rewrite bool_decide_eq_false_2 by done. by rewrite Hs.
Qed.

(** ** Resume *)

(** C1, as the code has it.  A resume by an authenticated caller, with a
    body that parses, is refused, with the table left as it was, exactly
    when no job with that id belongs to the caller; on a job of the
    caller it is applied whatever the job's status is, so no status
    makes it an invalid transition. *)
Theorem resume_applies_in_any_status (uid id : string) (b : Continue.Fields)
    (tbl : gmap string Analysis) :
  id ≠ "" →
  (select_single tbl id uid = None →
     Continue.POST (AuthUser uid) id (Some b) tbl
     = (Continue.not_found, tbl, None))
  ∧ (∀ a, select_single tbl id uid = Some a →
       ∃ tbl' t,
         Continue.POST (AuthUser uid) id (Some b) tbl
         = (mkResponse 200 (ContinueBody id "in_progress"), tbl', Some t)
         ∧ tbl' !! id = Some (apply_update a Continue.resume_update)
         ∧ status (apply_update a Continue.resume_update) = "in_progress"
         ∧ ∀ id', id' ≠ id → tbl' !! id' = tbl !! id').
Proof.
  intros Hid. split.
  - by apply continue_not_found.
  - intros a [Ha Hu]%select_single_Some.
    eexists _, _. split; [by apply continue_owned|].
    split; [apply lookup_insert_eq|]. split; [done|].
    intros id' Hne. by rewrite lookup_insert_ne.
Qed.

Lemma resume_applies_in_any_status_witness :
  "a2" ≠ "" ∧
  ∃ tbl' t,
    Continue.POST (AuthUser "u1") "a2" (Some (Continue.mkFields None))
      Samples.table
    = (mkResponse 200 (ContinueBody "a2" "in_progress"), tbl', Some t)
    ∧ tbl' !! "a2" = Some (apply_update Samples.completed_job Continue.resume_update).
Proof.
  split; [done|].
  destruct (resume_applies_in_any_status "u1" "a2" (Continue.mkFields None)
              Samples.table) as [_ H]; [done|].
  destruct (H Samples.completed_job) as (tbl' & t & H1 & H2 & _); [reflexivity|].
  by exists tbl', t.
Defined.

(** C1 as stated fails: a completed job of the caller is resumed. *)
Lemma resume_of_completed_job_is_applied :
  let r := Continue.POST (AuthUser "u1") "a2"
             (Some (Continue.mkFields (Some (JObj [])))) Samples.table in
  status <$> Samples.table !! "a2" = Some "completed"
  ∧ http_status r.1.1 = 200
  ∧ status <$> r.1.2 !! "a2" = Some "in_progress"
  ∧ progress <$> r.1.2 !! "a2" = Some 20.
Proof. vm_compute. done. Qed.

(** C2, as the code has it.  The handler never looks inside the supplied
    mapping nor at the row's [missing_data]: two resumes that differ only
    in the mapping get the same answer and leave the same table; the
    mapping is handed on unchanged to the AI service; and a job of the
    caller is resumed, its [missing_data] emptied, whatever the mapping
    covers. *)
Theorem resume_does_not_check_supplied_data (auth : AuthResult) (id : string)
    (b b' : Continue.Fields) (tbl : gmap string Analysis) :
  (Continue.POST auth id (Some b) tbl).1 = (Continue.POST auth id (Some b') tbl).1
  ∧ (∀ t, (Continue.POST auth id (Some b) tbl).2 = Some t →
       req_provided_data (Continue.request t) = Continue.f_missing_data b)
  ∧ (∀ uid a, auth = AuthUser uid → id ≠ "" →
       tbl !! id = Some a → user_id a = uid →
       http_status (Continue.POST auth id (Some b) tbl).1.1 = 200
       ∧ missing_data <$> (Continue.POST auth id (Some b) tbl).1.2 !! id
         = Some []).
Proof.
  repeat split.
  - unfold Continue.POST. destruct auth as [uid|r]; [|done].
    case_bool_decide; [done|].
    destruct (select_single tbl id uid); [|done].
    by destruct (db_update tbl id None Continue.resume_update).
  - unfold Continue.POST. intros t. destruct auth as [uid|r]; [|done].
    case_bool_decide; [done|].
    destruct (select_single tbl id uid); [|done].
    destruct (db_update tbl id None Continue.resume_update); [|done].
    by intros [= <-].
  - subst auth. by erewrite continue_owned.
  - subst auth. erewrite continue_owned by done. simpl.
    by rewrite lookup_insert_eq.
Qed.

(** C2 as stated fails: the job waits for the required item [salary],
    the caller supplies the empty mapping, and the resume goes through. *)
Lemma resume_without_required_item_is_applied :
  let r := Continue.POST (AuthUser "u1") "a1"
             (Some (Continue.mkFields (Some (JObj [])))) Samples.table in
  missing_data <$> Samples.table !! "a1" = Some [Samples.salary]
  ∧ md_required Samples.salary = true
  ∧ http_status r.1.1 = 200
  ∧ missing_data <$> r.1.2 !! "a1" = Some []
  ∧ status <$> r.1.2 !! "a1" = Some "in_progress".
Proof. vm_compute. done. Qed.

(** C6.  A resume that succeeds leaves the row with an empty
    [missing_data], status [in_progress] and progress 20, every other
    column but [current_step] as it was, and starts the task that calls
    the AI service with the row's question and files and the supplied
    data. *)
Theorem resume_success (uid id : string) (body : option Continue.Fields)
    (tbl tbl' : gmap string Analysis) (resp : Response)
    (task : option Continue.Task) :
  Continue.POST (AuthUser uid) id body tbl = (resp, tbl', task) →
  http_status resp = 200 →
  ∃ b a a' t,
    body = Some b
    ∧ tbl !! id = Some a ∧ tbl' !! id = Some a' ∧ task = Some t
    ∧ missing_data a' = [] ∧ status a' = "in_progress" ∧ progress a' = 20
    ∧ question a' = question a ∧ file_ids a' = file_ids a
    ∧ user_id a' = user_id a ∧ project_id a' = project_id a
    ∧ steps a' = steps a ∧ result a' = result a
    ∧ (∀ o, (Continue.launchAnalysisAsync t o).1 = Continue.request t)
    ∧ Continue.request t
      = {| req_question := question a;
           req_file_ids := nonempty_or_undefined (file_ids a);
           req_files_data := None;
           req_analysis_id := id;
           req_update_status_url := None;
           req_provided_data := Continue.f_missing_data b |}.
Proof.
  unfold Continue.POST. case_bool_decide as Hid.
  { intros [= <- <- <-]. done. }
  destruct body as [b|].
  2:{ intros [= <- <- <-]. done. }
  destruct (select_single tbl id uid) as [a|] eqn:Hsel.
  2:{ intros [= <- <- <-]. done. }
  apply select_single_Some in Hsel as [Ha Hu].
  unfold db_update. rewrite Ha. cbn [owned_by]. cbv zeta.
  rewrite check_row_resume. intros [= <- <- <-] _.
  eexists b, a, _, _. split; [done|]. split; [done|].
  split; [apply lookup_insert_eq|].
  by repeat split.
Qed.

Lemma resume_success_witness :
  ∃ b a a' t,
    Samples.table !! "a1" = Some a
    ∧ (Continue.POST (AuthUser "u1") "a1" (Some b) Samples.table).1.2 !! "a1"
      = Some a'
    ∧ missing_data a = [Samples.salary] ∧ missing_data a' = []
    ∧ status a' = "in_progress" ∧ progress a' = 20
    ∧ req_provided_data (Continue.request t)
      = Some (JObj [("salary", JNum 60000)]).
Proof.
  set (body := Some (Continue.mkFields (Some (JObj [("salary", JNum 60000)])))).
  destruct (Continue.POST (AuthUser "u1") "a1" body Samples.table)
    as [[resp tbl'] task] eqn:E.
  assert (Hresp : http_status resp = 200).
  { by apply (f_equal (λ r, http_status r.1.1)) in E. }
  destruct (resume_success "u1" "a1" body Samples.table tbl' resp task E Hresp)
    as (b & a & a' & t & Hb & Ha & Ha' & _ & Hm & Hs & Hp
        & _ & _ & _ & _ & _ & _ & _ & Hr).
  assert (a = Samples.waiting_job) as -> by (by injection Ha).
  assert (b = Continue.mkFields (Some (JObj [("salary", JNum 60000)]))) as ->
    by (by injection Hb).
  exists (Continue.mkFields (Some (JObj [("salary", JNum 60000)]))),
    Samples.waiting_job, a', t.
  fold body. rewrite E, Hr. done.
Defined.

(** ** External status updates *)

Lemma update_status_cases auth id b tbl :
  (UpdateStatus.POST auth id (Some b) tbl).2 = tbl
  ∨ ∃ a, tbl !! id = Some a
         ∧ (UpdateStatus.POST auth id (Some b) tbl).2
           = <[id := apply_update a (UpdateStatus.updateData b)]> tbl.
Proof.
  unfold UpdateStatus.POST. destruct auth as [uid|r]; [|by left].
  case_bool_decide; [by left|].
  unfold db_update. destruct (tbl !! id) as [a|] eqn:Ha; [|by left].
  destruct (owned_by _ a); [|by left]. cbv zeta.
  destruct (check_row _); [|by left].
  right. by exists a.
Qed.

(** C9.  Whatever the request, the update-status route leaves every other
    row as it was, creates and deletes none, and in the row it names
    leaves as it was every column the body does not name: the five
    columns it can write change only when the body has the key, and the
    remaining columns never change.  A body that does not parse changes
    nothing. *)
Theorem update_status_writes_named_fields_only (auth : AuthResult)
    (id : string) (b : UpdateStatus.Fields) (tbl : gmap string Analysis) :
  let tbl' := (UpdateStatus.POST auth id (Some b) tbl).2 in
  (UpdateStatus.POST auth id None tbl).2 = tbl
  ∧ (∀ id', id' ≠ id → tbl' !! id' = tbl !! id')
  ∧ (tbl !! id = None → tbl' !! id = None)
  ∧ (∀ a, tbl !! id = Some a →
       ∃ a', tbl' !! id = Some a'
         ∧ (a' = a ∨ a' = apply_update a (UpdateStatus.updateData b))
         ∧ (UpdateStatus.f_status b = None → status a' = status a)
         ∧ (UpdateStatus.f_current_step b = None →
              current_step a' = current_step a)
         ∧ (UpdateStatus.f_progress b = None → progress a' = progress a)
         ∧ (UpdateStatus.f_steps b = None → steps a' = steps a)
         ∧ (UpdateStatus.f_missing_data b = None →
              missing_data a' = missing_data a)
         ∧ user_id a' = user_id a ∧ project_id a' = project_id a
         ∧ question a' = question a ∧ file_ids a' = file_ids a
         ∧ partial_result a' = partial_result a ∧ result a' = result a
         ∧ created_at a' = created_at a).
Proof.
  intros tbl'. subst tbl'. split.
  { unfold UpdateStatus.POST. destruct auth; [|done]. by case_bool_decide. }
  destruct (update_status_cases auth id b tbl) as [->|(a0 & Ha0 & ->)].
  - split; [done|]. split; [done|]. intros a Ha. exists a.
    split; [done|]. split; [by left|]. by repeat split.
  - split; [intros id' Hne; by rewrite lookup_insert_ne|].
    split; [congruence|].
    intros a Ha. assert (a0 = a) as -> by congruence.
    eexists. split; [apply lookup_insert_eq|]. split; [by right|].
    destruct b as [s c pr st m md]. simpl.
    repeat split; by intros ->.
Qed.

(** A body naming [progress] alone rewrites that column and nothing else. *)
Example update_status_progress_only :
  (UpdateStatus.POST (AuthUser "u1") "a3"
     (Some (UpdateStatus.mkFields None None (Some 40) None (Some "note") None))
     Samples.table).2 !! "a3"
  = Some (Samples.job "in_progress" "analyzing_structure" 40 [] (JObj []) 3).
Proof. vm_compute. done. Qed.

(** ** Ownership *)

(** C10.  A caller who names a job that belongs to somebody else gets
    the not-found answer from the status and resume routes, and an
    update-status that matches no row (or, from the two POST routes, the
    answer to a body that does not parse); the table is the same
    afterwards and no background task is started.  A caller who is not
    authenticated gets the answer of the authentication helper and
    changes nothing either. *)
Theorem foreign_job_is_out_of_reach (uid id : string) (a : Analysis)
    (body : option Continue.Fields) (ubody : option UpdateStatus.Fields)
    (tbl : gmap string Analysis) :
  id ≠ "" → tbl !! id = Some a → user_id a ≠ uid →
  Status.GET (AuthUser uid) id tbl = Status.not_found
  ∧ Continue.POST (AuthUser uid) id body tbl
    = (match body with
       | Some _ => Continue.not_found
       | None => Continue.bad_body
       end, tbl, None)
  ∧ UpdateStatus.POST (AuthUser uid) id ubody tbl
    = (match ubody with
       | Some _ => mkResponse 200 SuccessBody
       | None => UpdateStatus.failed
       end, tbl)
  ∧ ∀ r, Status.GET (AuthResponse r) id tbl = r
         ∧ Continue.POST (AuthResponse r) id body tbl = (r, tbl, None)
         ∧ UpdateStatus.POST (AuthResponse r) id ubody tbl = (r, tbl).
Proof.
  intros Hid Ha Hne.
  pose proof (select_single_foreign _ _ _ _ Ha Hne) as Hsel.
  split; [|split; [|split]].
  - unfold Status.GET. rewrite bool_decide_eq_false_2 by done. by rewrite Hsel.
  - destruct body as [b|]; [by apply continue_not_found|].
    unfold Continue.POST. by rewrite bool_decide_eq_false_2 by done.
  - unfold UpdateStatus.POST. rewrite bool_decide_eq_false_2 by done.
    destruct ubody as [b|]; [|done].
    by rewrite (db_update_foreign _ _ _ _ _ Ha Hne).
  - done.
Qed.

Lemma foreign_job_is_out_of_reach_witness :
  Status.GET (AuthUser "u2") "a1" Samples.table = Status.not_found
  ∧ Continue.POST (AuthUser "u2") "a1"
      (Some (Continue.mkFields (Some (JObj [])))) Samples.table
    = (Continue.not_found, Samples.table, None)
  ∧ UpdateStatus.POST (AuthUser "u2") "a1"
      (Some (UpdateStatus.mkFields (Some "error") None (Some 0) None None None))
      Samples.table
    = (mkResponse 200 SuccessBody, Samples.table).
Proof.
  destruct (foreign_job_is_out_of_reach "u2" "a1" Samples.waiting_job
              (Some (Continue.mkFields (Some (JObj []))))
              (Some (UpdateStatus.mkFields (Some "error") None (Some 0)
                       None None None))
              Samples.table) as (H1 & H2 & H3 & _); [done|reflexivity|done|].
  by rewrite H1, H2, H3.
Defined.

(** ** Failure of the background task *)

Lemma history_rows id ws tbl a :
  tbl !! id = Some a → history id ws tbl = a :: row_trace a ws.
Proof.
  intros Ha. unfold history. simpl. rewrite Ha. f_equal.
  revert tbl a Ha. induction ws as [|u ws IH]; intros tbl a Ha; [done|].
  simpl. rewrite (write_lookup _ _ _ _ Ha). f_equal.
  apply IH. by apply write_lookup.
Qed.

(** A background task writes to the row it was started for and to no
    other. *)
Lemma background_touches_one_row st ct e tbl id' :
  (id' ≠ Stream.task_analysisId st →
     Stream.run st e tbl !! id' = tbl !! id')
  ∧ (id' ≠ Continue.task_analysisId ct →
     Continue.run ct (Stream.answer e) tbl !! id' = tbl !! id').
Proof. split; intros Hne; by apply run_writes_other. Qed.

(** C3, as the code has it.  When the call of the AI service throws,
    answers not-OK or answers with a body that does not parse, the job
    ends with status [error], its progress reset to 0, and its
    [current_step] still the step in which the service was called; this
    holds for a launch and for a resume.  Before the failure the progress
    was 20. *)
Theorem failure_sets_error_and_resets_progress (e : Stream.Env)
    (tbl : gmap string Analysis) :
  rejects (Stream.answer e) = true →
  (∀ t a, tbl !! Stream.task_analysisId t = Some a →
     ∃ a', Stream.run t e tbl !! Stream.task_analysisId t = Some a'
       ∧ status a' = "error" ∧ progress a' = 0
       ∧ current_step a' = Some "analyzing_structure"
       ∧ progress (row_after a (take 3 (Stream.launchAnalysisAsync t e).2)) = 20)
  ∧ (∀ t a, tbl !! Continue.task_analysisId t = Some a →
     ∃ a', Continue.run t (Stream.answer e) tbl !! Continue.task_analysisId t
           = Some a'
       ∧ status a' = "error" ∧ progress a' = 0
       ∧ current_step a' = Some "analyzing_structure"
       ∧ progress (row_after a
                     (take 1 (Continue.launchAnalysisAsync t (Stream.answer e)).2))
         = 20).
Proof.
  destruct e as [url fd o]. simpl. intros Ho. split.
  - intros t a Ha. eexists. split; [by apply run_writes_lookup|].
    unfold Stream.background. cbn [Stream.answer Stream.launchAnalysisAsync snd].
    destruct o; try discriminate; by vm_compute.
  - intros t a Ha. eexists. split; [by apply run_writes_lookup|].
    unfold Continue.background. cbn [Continue.launchAnalysisAsync snd].
    destruct o; try discriminate; by vm_compute.
Qed.

Lemma failure_sets_error_and_resets_progress_witness :
  ∃ a', Stream.run (Samples.launch_task "a3") (Samples.env FetchNotOk)
          Samples.table !! "a3" = Some a'
        ∧ status a' = "error" ∧ progress a' = 0
        ∧ current_step a' = Some "analyzing_structure".
Proof.
  destruct (failure_sets_error_and_resets_progress (Samples.env FetchNotOk)
              Samples.table eq_refl) as [H _].
  destruct (H (Samples.launch_task "a3") Samples.running_job eq_refl)
    as (a' & H1 & H2 & H3 & H4 & _).
  by exists a'.
Defined.

(** C3 as stated fails: the launch task had brought the job to progress
    20 when the AI service threw, and the job ends at progress 0. *)
Lemma failed_launch_loses_progress :
  let tbl := <["a4" := Samples.pending_job]> Samples.table in
  let t := Samples.launch_task "a4" in
  let e := Samples.env FetchThrows in
  progress <$> run_writes "a4" (take 3 (Stream.launchAnalysisAsync t e).2) tbl
               !! "a4" = Some 20
  ∧ progress <$> Stream.run t e tbl !! "a4" = Some 0
  ∧ status <$> Stream.run t e tbl !! "a4" = Some "error".
Proof. vm_compute. done. Qed.

(** ** Progress *)

(** C4, as the code has it.  The writes of a job's own background task
    never lower its progress before the job completes: a launched job
    goes through 5, 10, 20 and 100, a resumed one stays at 20 and then
    reaches 100.  The write of the error state is the exception on the
    task's side. *)
Theorem own_writes_keep_progress_nondecreasing (e : Stream.Env)
    (tbl : gmap string Analysis) :
  (∀ t a, tbl !! Stream.task_analysisId t = Some a → progress a ≤ 5 →
     nondecreasing_until_error
       (history (Stream.task_analysisId t) (Stream.background t e) tbl))
  ∧ (∀ t a, tbl !! Continue.task_analysisId t = Some a → progress a ≤ 20 →
     nondecreasing_until_error
       (history (Continue.task_analysisId t)
          (Continue.background t (Stream.answer e)) tbl))
  ∧ (∀ report, Stream.answer e = FetchOk report →
       (∀ t a, tbl !! Stream.task_analysisId t = Some a →
          progress <$> history (Stream.task_analysisId t)
                         (Stream.background t e) tbl
          = [progress a; 5; 10; 20; 100; 100])
       ∧ (∀ t a, tbl !! Continue.task_analysisId t = Some a →
            progress <$> history (Continue.task_analysisId t)
                           (Continue.background t (Stream.answer e)) tbl
            = [progress a; 20; 100])).
Proof.
  destruct e as [url fd o]. simpl. split; [|split].
  - intros t a Ha Hp. rewrite (history_rows _ _ _ _ Ha).
    unfold Stream.background. cbn [Stream.answer Stream.launchAnalysisAsync snd].
    destruct o; cbv -[Z.le]; repeat split;
      first [by left | right; exact Hp | right; lia].
  - intros t a Ha Hp. rewrite (history_rows _ _ _ _ Ha).
    unfold Continue.background. cbn [Continue.launchAnalysisAsync snd].
    destruct o; cbv -[Z.le]; repeat split;
      first [by left | right; exact Hp | right; lia].
  - intros report ->. split; intros t a Ha; by rewrite (history_rows _ _ _ _ Ha).
Qed.

Lemma own_writes_keep_progress_nondecreasing_witness :
  let tbl := <["a4" := Samples.pending_job]> Samples.table in
  progress <$> history "a4"
                 (Stream.background (Samples.launch_task "a4")
                    (Samples.env (FetchOk (JObj [])))) tbl
  = [0; 5; 10; 20; 100; 100]
  ∧ nondecreasing_until_error
      (history "a4"
         (Stream.background (Samples.launch_task "a4") (Samples.env FetchNotOk))
         tbl).
Proof.
  pose proof (lookup_insert_eq Samples.table "a4" Samples.pending_job) as Ha.
  destruct (own_writes_keep_progress_nondecreasing
              (Samples.env (FetchOk (JObj [])))
              (<["a4" := Samples.pending_job]> Samples.table)) as (_ & _ & H).
  destruct (own_writes_keep_progress_nondecreasing (Samples.env FetchNotOk)
              (<["a4" := Samples.pending_job]> Samples.table)) as (H' & _ & _).
  split.
  - exact (proj1 (H _ eq_refl) (Samples.launch_task "a4") _ Ha).
  - apply (H' (Samples.launch_task "a4") _ Ha). simpl. lia.
Defined.

(** C4 as stated fails: while the job is in progress at 20, an
    update-status request naming progress 3 is stored as it is. *)
Lemma external_update_lowers_progress :
  let r := UpdateStatus.POST (AuthUser "u1") "a3"
             (Some (UpdateStatus.mkFields None None (Some 3) None None None))
             Samples.table in
  status <$> Samples.table !! "a3" = Some "in_progress"
  ∧ progress <$> Samples.table !! "a3" = Some 20
  ∧ http_status r.1 = 200
  ∧ status <$> r.2 !! "a3" = Some "in_progress"
  ∧ progress <$> r.2 !! "a3" = Some 3.
Proof. vm_compute. done. Qed.

(** ** Launch *)

Lemma remove_dups_length_le (l : list string) :
  (length (remove_dups l) ≤ length l)%nat.
Proof.
  apply submseteq_length, NoDup_submseteq; [apply NoDup_remove_dups|].
  intros x. by rewrite elem_of_remove_dups.
Qed.

Lemma files_ok_ids files uid p v ids :
  Stream.files_ok files uid p v = true →
  Stream.file_ids_or_empty v = Some ids →
  NoDup ids ∧ ∀ id, id ∈ ids → Stream.file_matches files uid p id = true.
Proof.
  assert (Hnil : ids = [] →
            NoDup ids
            ∧ ∀ id, id ∈ ids → Stream.file_matches files uid p id = true).
  { intros ->. split; [constructor|by intros id ?%elem_of_nil]. }
  unfold Stream.files_ok, Stream.file_ids_or_empty.
  destruct v as [[| | | |[|j items]|]|]; cbn [truthy];
    try (intros _ Hi; apply Hnil; destruct (_ : bool) in Hi; simpl in Hi;
         congruence);
    try (intros _ Hi; apply Hnil; cbv in Hi; congruence).
  destruct (Stream.as_ids (JArr (j :: items))) as [ids0|] eqn:Hm; [|done].
  intros Hlen%bool_decide_eq_true [= ->]. clear Hnil.
  pose proof (remove_dups_length_le ids) as Hd.
  pose proof (length_filter
                (λ id, Stream.file_matches files uid p id = true)
                (remove_dups ids)) as Hf.
  assert (Hperm : remove_dups ids ≡ₚ ids).
  { apply submseteq_length_Permutation; [|lia].
    apply NoDup_submseteq; [apply NoDup_remove_dups|].
    intros x. by rewrite elem_of_remove_dups. }
  split; [rewrite <- Hperm; apply NoDup_remove_dups|].
  intros id Hin%elem_of_remove_dups.
  destruct (Stream.file_matches files uid p id) eqn:Hmatch; [done|].
  pose proof (length_filter_lt
                (λ id, Stream.file_matches files uid p id = true)
                (remove_dups ids) id Hin) as Hlt.
  cbv beta in Hlt. rewrite Hmatch in Hlt. specialize (Hlt ltac:(done)). lia.
Qed.

Lemma launch_cases (uid : string) (body : option Stream.Fields)
    (new_id : string) (now : Z) (projects : gmap string Stream.Project)
    (files : gmap string Stream.FileRow) (tbl : gmap string Analysis) :
  let r := Stream.POST (AuthUser uid) body new_id now projects files tbl in
  (Stream.check_question None = Stream.QuestionRequired
   ∧ Stream.check_question (Some JNull) = Stream.QuestionRequired
   ∧ Stream.check_question (Some (JStr "")) = Stream.QuestionRequired)
  ∧ (∀ b, body = Some b →
       Stream.check_question (Stream.f_question b) = Stream.QuestionRequired
       ∨ (∃ q, Stream.check_question (Stream.f_question b) = Stream.QuestionOk q)
         ∧ truthy (Stream.f_project_id b) = false →
       http_status r.1.1 = 400)
  ∧ (http_status r.1.1 ≠ 200 → r.1.2 = tbl ∧ r.2 = None)
  ∧ (∀ b q p ids,
       body = Some b →
       Stream.check_question (Stream.f_question b) = Stream.QuestionOk q →
       truthy (Stream.f_project_id b) = true →
       Stream.select_project projects (Stream.f_project_id b) uid = Some p →
       Stream.files_ok files uid p (Stream.f_file_ids b) = true →
       Stream.file_ids_or_empty (Stream.f_file_ids b) = Some ids →
       tbl !! new_id = None →
       r = (mkResponse 200
              (LaunchBody new_id "pending" "analyzing_question" 0
                 Stream.initialSteps),
            <[new_id := Stream.new_row uid p q ids now]> tbl,
            Some (Stream.mkTask new_id q ids))
       ∧ status (Stream.new_row uid p q ids now) = "pending"
       ∧ progress (Stream.new_row uid p q ids now) = 0
       ∧ r.1.2 !! new_id = Some (Stream.new_row uid p q ids now)).
Proof.
  intros r. subst r. split; [done|]. unfold Stream.POST.
  destruct body as [b|].
  2:{ split; [by intros b [=]|]. split; [done|]. by intros b q p ids [=]. }
  destruct (Stream.check_question (Stream.f_question b)) as [| |q] eqn:Hq.
  { split.
    - intros b' [= <-] [H|[[q' H] _]]; rewrite H in Hq; discriminate.
    - split; [done|]. intros b' q p ids [= <-] H. rewrite H in Hq. discriminate. }
  { split; [done|]. split; [done|].
    intros b' q p ids [= <-] H. rewrite H in Hq. discriminate. }
  destruct (truthy (Stream.f_project_id b)) eqn:Hp; simpl.
  2:{ split; [done|]. split; [done|].
      intros b' q' p ids [= <-] _ H. rewrite H in Hp. discriminate. }
  assert (Hno400 : ∀ b', Some b = Some b' →
            Stream.check_question (Stream.f_question b') = Stream.QuestionRequired
            ∨ (∃ q, Stream.check_question (Stream.f_question b')
                    = Stream.QuestionOk q)
              ∧ truthy (Stream.f_project_id b') = false → False).
  { intros b' [= <-] [H|[_ H]]; congruence. }
  destruct (Stream.select_project projects (Stream.f_project_id b) uid)
    as [p|] eqn:Hs.
  2:{ split; [intros b' Hb H; by destruct (Hno400 b' Hb H)|].
      split; [done|].
      intros b' q' p ids [= <-] _ _ H. rewrite H in Hs. discriminate. }
  destruct (Stream.files_ok files uid p (Stream.f_file_ids b)) eqn:Hf; simpl.
  2:{ split; [intros b' Hb H; by destruct (Hno400 b' Hb H)|].
      split; [done|].
      intros b' q' p' ids [= <-] _ _ H1 H2. congruence. }
  destruct (Stream.file_ids_or_empty (Stream.f_file_ids b)) as [ids|] eqn:Hi.
  2:{ split; [intros b' Hb H; by destruct (Hno400 b' Hb H)|].
      split; [done|].
      intros b' q' p' ids [= <-] _ _ _ _ H. congruence. }
  destruct (tbl !! new_id) as [old|] eqn:Hn.
  { split; [intros b' Hb H; by destruct (Hno400 b' Hb H)|].
    split; [done|]. intros b' q' p' ids' [= <-] _ _ _ _ _ H. congruence. }
  split; [intros b' Hb H; by destruct (Hno400 b' Hb H)|].
  split; [done|].
  intros b' q' p' ids' [= <-] H1 _ H2 _ H3 _.
  assert (q' = q) as -> by congruence.
  assert (p' = p) as -> by congruence.
  assert (ids' = ids) as -> by congruence.
  split; [done|]. split; [done|]. split; [done|].
  simpl. apply lookup_insert_eq.
Qed.

Lemma launch_forbidden (uid : string) (body : option Stream.Fields)
    (new_id : string) (now : Z) (projects : gmap string Stream.Project)
    (files : gmap string Stream.FileRow) (tbl : gmap string Analysis) :
  let r := Stream.POST (AuthUser uid) body new_id now projects files tbl in
  ∀ b q,
    body = Some b →
    Stream.check_question (Stream.f_question b) = Stream.QuestionOk q →
    truthy (Stream.f_project_id b) = true →
    (Stream.select_project projects (Stream.f_project_id b) uid = None →
       http_status r.1.1 = 403 ∧ r.1.2 = tbl ∧ r.2 = None)
    ∧ (∀ pid,
         Stream.f_project_id b = Some (JStr pid) →
         (∀ pr, projects !! pid = Some pr → Stream.proj_user_id pr ≠ uid) →
         http_status r.1.1 = 403 ∧ r.1.2 = tbl ∧ r.2 = None)
    ∧ (∀ p,
         Stream.select_project projects (Stream.f_project_id b) uid = Some p →
         Stream.files_ok files uid p (Stream.f_file_ids b) = false →
         http_status r.1.1 = 403 ∧ r.1.2 = tbl ∧ r.2 = None)
    ∧ (∀ p ids id,
         Stream.select_project projects (Stream.f_project_id b) uid = Some p →
         Stream.file_ids_or_empty (Stream.f_file_ids b) = Some ids →
         id ∈ ids →
         Stream.file_matches files uid p id = false →
         http_status r.1.1 = 403 ∧ r.1.2 = tbl ∧ r.2 = None)
    ∧ (∀ p ids,
         Stream.select_project projects (Stream.f_project_id b) uid = Some p →
         Stream.file_ids_or_empty (Stream.f_file_ids b) = Some ids →
         ¬ NoDup ids →
         http_status r.1.1 = 403 ∧ r.1.2 = tbl ∧ r.2 = None).
Proof.
  intros r b q -> Hq Hp.
  assert (Hnone : Stream.select_project projects (Stream.f_project_id b) uid
                  = None →
                  http_status r.1.1 = 403 ∧ r.1.2 = tbl ∧ r.2 = None).
  { intros Hs. subst r. unfold Stream.POST. by rewrite Hq, Hp, Hs. }
  assert (Hfiles : ∀ p,
            Stream.select_project projects (Stream.f_project_id b) uid = Some p →
            Stream.files_ok files uid p (Stream.f_file_ids b) = false →
            http_status r.1.1 = 403 ∧ r.1.2 = tbl ∧ r.2 = None).
  { intros p Hs Hf. subst r. unfold Stream.POST. by rewrite Hq, Hp, Hs, Hf. }
  split; [done|]. split; [|split; [done|split]].
  - intros pid Hpid Hown. apply Hnone. rewrite Hpid.
    unfold Stream.select_project.
    destruct (projects !! pid) as [pr|] eqn:Hpr; [|done].
    case_bool_decide as Hu; [|done]. by destruct (Hown pr).
  - intros p ids id Hs Hi Hin Hm. apply (Hfiles p Hs).
    destruct (Stream.files_ok files uid p (Stream.f_file_ids b)) eqn:Hf; [|done].
    destruct (files_ok_ids _ _ _ _ _ Hf Hi) as [_ Hall].
    rewrite (Hall id Hin) in Hm. discriminate.
  - intros p ids Hs Hi Hdup. apply (Hfiles p Hs).
    destruct (Stream.files_ok files uid p (Stream.f_file_ids b)) eqn:Hf; [|done].
    by destruct (files_ok_ids _ _ _ _ _ Hf Hi) as [Hnd _].
Qed.

(** C7, as the code has it.  A question that is missing or empty, and
    a project id that is missing or empty, are answered 400; every
    answer other than 200 leaves the table as it was and starts no
    task.  When the question is a non-empty string, the project belongs
    to the caller, the listed files belong to the caller and the
    project, and the database accepts the insert, the table gains the
    row of the new id, with status [pending] and progress 0, the answer
    carries that id, and the task is handed over without any of its
    writes made.  With a non-empty question and a project id present,
    the request is answered 403, the table left as it was and no task
    started, when the project check finds no project of the caller, in
    particular when the project named is unknown or of another owner,
    and when the file check fails, in particular when a listed file is
    unknown, of another owner or of another project, or is listed
    twice. *)
Theorem launch_contract (uid : string) (body : option Stream.Fields)
    (new_id : string) (now : Z) (projects : gmap string Stream.Project)
    (files : gmap string Stream.FileRow) (tbl : gmap string Analysis) :
  let r := Stream.POST (AuthUser uid) body new_id now projects files tbl in
  (Stream.check_question None = Stream.QuestionRequired
   ∧ Stream.check_question (Some JNull) = Stream.QuestionRequired
   ∧ Stream.check_question (Some (JStr "")) = Stream.QuestionRequired)
  ∧ (∀ b, body = Some b →
       Stream.check_question (Stream.f_question b) = Stream.QuestionRequired
       ∨ (∃ q, Stream.check_question (Stream.f_question b) = Stream.QuestionOk q)
         ∧ truthy (Stream.f_project_id b) = false →
       http_status r.1.1 = 400)
  ∧ (http_status r.1.1 ≠ 200 → r.1.2 = tbl ∧ r.2 = None)
  ∧ (∀ b q p ids,
       body = Some b →
       Stream.check_question (Stream.f_question b) = Stream.QuestionOk q →
       truthy (Stream.f_project_id b) = true →
       Stream.select_project projects (Stream.f_project_id b) uid = Some p →
       Stream.files_ok files uid p (Stream.f_file_ids b) = true →
       Stream.file_ids_or_empty (Stream.f_file_ids b) = Some ids →
       tbl !! new_id = None →
       r = (mkResponse 200
              (LaunchBody new_id "pending" "analyzing_question" 0
                 Stream.initialSteps),
            <[new_id := Stream.new_row uid p q ids now]> tbl,
            Some (Stream.mkTask new_id q ids))
       ∧ status (Stream.new_row uid p q ids now) = "pending"
       ∧ progress (Stream.new_row uid p q ids now) = 0
       ∧ r.1.2 !! new_id = Some (Stream.new_row uid p q ids now))
  ∧ (∀ b q,
       body = Some b →
       Stream.check_question (Stream.f_question b) = Stream.QuestionOk q →
       truthy (Stream.f_project_id b) = true →
       (Stream.select_project projects (Stream.f_project_id b) uid = None →
          http_status r.1.1 = 403 ∧ r.1.2 = tbl ∧ r.2 = None)
       ∧ (∀ pid,
            Stream.f_project_id b = Some (JStr pid) →
            (∀ pr, projects !! pid = Some pr → Stream.proj_user_id pr ≠ uid) →
            http_status r.1.1 = 403 ∧ r.1.2 = tbl ∧ r.2 = None)
       ∧ (∀ p,
            Stream.select_project projects (Stream.f_project_id b) uid = Some p →
            Stream.files_ok files uid p (Stream.f_file_ids b) = false →
            http_status r.1.1 = 403 ∧ r.1.2 = tbl ∧ r.2 = None)
       ∧ (∀ p ids id,
            Stream.select_project projects (Stream.f_project_id b) uid = Some p →
            Stream.file_ids_or_empty (Stream.f_file_ids b) = Some ids →
            id ∈ ids →
            Stream.file_matches files uid p id = false →
            http_status r.1.1 = 403 ∧ r.1.2 = tbl ∧ r.2 = None)
       ∧ (∀ p ids,
            Stream.select_project projects (Stream.f_project_id b) uid = Some p →
            Stream.file_ids_or_empty (Stream.f_file_ids b) = Some ids →
            ¬ NoDup ids →
            http_status r.1.1 = 403 ∧ r.1.2 = tbl ∧ r.2 = None)).
Proof.
  intros r.
  destruct (launch_cases uid body new_id now projects files tbl)
    as (H1 & H2 & H3 & H4).
  split; [exact H1|]. split; [exact H2|]. split; [exact H3|].
  split; [exact H4|].
  apply launch_forbidden.
Qed.

Lemma launch_contract_witness :
  let r := Stream.POST (AuthUser "u1")
             (Some (Stream.mkFields Samples.hire Samples.two_files
                      (Some (JStr "p1"))))
             "a9" 7 Samples.projects Samples.files Samples.table in
  r.1.1 = mkResponse 200
            (LaunchBody "a9" "pending" "analyzing_question" 0 Stream.initialSteps)
  ∧ status <$> r.1.2 !! "a9" = Some "pending"
  ∧ progress <$> r.1.2 !! "a9" = Some 0
  ∧ r.2 = Some (Stream.mkTask "a9" "Can I hire at 60000?" ["f1"; "f2"]).
Proof.
  destruct (launch_contract "u1"
              (Some (Stream.mkFields Samples.hire Samples.two_files
                       (Some (JStr "p1"))))
              "a9" 7 Samples.projects Samples.files Samples.table)
    as (_ & _ & _ & H & _).
  destruct (H _ "Can I hire at 60000?" "p1" ["f1"; "f2"] eq_refl)
    as (Hr & _ & _ & Hl); try reflexivity.
  cbv zeta. rewrite Hl. rewrite Hr. done.
Defined.

(** C7 as stated fails: with a non-empty question and a project id
    present, a project that belongs to another user is answered 403 and
    no row is created. *)
Lemma launch_on_foreign_project_creates_nothing :
  let r := Stream.POST (AuthUser "u1")
             (Some (Stream.mkFields Samples.hire None (Some (JStr "p2"))))
             "a9" 7 Samples.projects Samples.files Samples.table in
  Stream.check_question Samples.hire = Stream.QuestionOk "Can I hire at 60000?"
  ∧ truthy (Some (JStr "p2")) = true
  ∧ http_status r.1.1 = 403
  ∧ r.1.2 !! "a9" = None
  ∧ r.2 = None.
Proof. vm_compute. done. Qed.

(** ** The hypothesis diff guard *)

Lemma some_spec {A} (f : A → nat → bool) (l : list A) :
  CFOAssistant.some f l = true ↔ ∃ i x, l !! i = Some x ∧ f x i = true.
Proof.
  unfold CFOAssistant.some. rewrite existsb_exists. split.
  - intros (b & Hin & Hb). apply list_elem_of_In, list_elem_of_lookup in Hin.
    destruct Hin as [i Hi]. rewrite list_lookup_imap in Hi.
    destruct (l !! i) as [x|] eqn:Hx; [|done].
    injection Hi as <-. by exists i, x.
  - intros (i & x & Hx & Hf). exists true. split; [|done].
    apply list_elem_of_In, list_elem_of_lookup. exists i.
    rewrite list_lookup_imap, Hx. simpl. by rewrite Hf.
Qed.

Lemma no_continue_in_answer tab id r ok :
  CFOAssistant.changed_by tab r = false →
  existsb CFOAssistant.is_continue (CFOAssistant.on_chat_response tab id r ok)
  = false.
Proof.
  intros Hc. unfold CFOAssistant.on_chat_response. rewrite Hc.
  rewrite andb_false_r. simpl.
  by destruct (CFOAssistant.updated_hypotheses r).
Qed.

(** C5.  The guard answers "changed" exactly when the two sequences
    differ in length or, at some index, in the id or in the value (with
    the [!==] of JavaScript); and when it answers "unchanged" the
    submit handler sends no request to the continue route, whatever the
    chat answer asks for. *)
Theorem hypothesis_guard_spec
    (current proposed : list CFOAssistant.HypothesisChip) :
  (CFOAssistant.hypothesesChanged current proposed = true
   ↔ length current ≠ length proposed
     ∨ ∃ i c p, current !! i = Some c ∧ proposed !! i = Some p
         ∧ (CFOAssistant.hyp_id c ≠ CFOAssistant.hyp_id p
            ∨ CFOAssistant.strict_eq (CFOAssistant.hyp_value c)
                (CFOAssistant.hyp_value p) = false))
  ∧ (CFOAssistant.hypothesesChanged current proposed = false →
     ∀ input isLoading tab r ok,
       default [] (CFOAssistant.tab_hypothesis tab) = current →
       CFOAssistant.updated_hypotheses r = Some proposed →
       existsb CFOAssistant.is_continue
         (CFOAssistant.handleSubmit input isLoading tab
            (CFOAssistant.ChatOk r) ok)
       = false).
Proof.
  split.
  - unfold CFOAssistant.hypothesesChanged.
    rewrite orb_true_iff, negb_true_iff, bool_decide_eq_false, some_spec.
    split.
    + intros [Hl|(i & c & Hc & Hf)]; [by left|].
      destruct (decide (length current = length proposed)) as [Hl|Hl]; [|by left].
      right. destruct (proposed !! i) as [p|] eqn:Hp.
      * exists i, c, p. split; [done|]. split; [done|].
        apply orb_true_iff in Hf as [Hf|Hf].
        -- left. by apply negb_true_iff, bool_decide_eq_false in Hf.
        -- right. by apply negb_true_iff in Hf.
      * apply lookup_lt_Some in Hc. apply lookup_ge_None in Hp. lia.
    + intros [Hl|(i & c & p & Hc & Hp & Hd)]; [by left|].
      right. exists i, c. split; [done|]. rewrite Hp.
      apply orb_true_iff. destruct Hd as [Hd|Hd].
      * left. by apply negb_true_iff, bool_decide_eq_false.
      * right. by apply negb_true_iff.
  - intros Hg input isLoading tab r ok Ht Hu. unfold CFOAssistant.handleSubmit.
    destruct (_ || _); [done|].
    destruct (CFOAssistant.analysisId _) as [[|c aid]|]; [done| |done].
    simpl. apply no_continue_in_answer.
    unfold CFOAssistant.changed_by. by rewrite Hu, Ht.
Qed.

(** The same hypotheses proposed again: no relaunch; one value changed:
    the relaunch is sent with the proposed values. *)
Example identical_hypotheses_no_relaunch :
  CFOAssistant.hypothesesChanged Samples.hypotheses Samples.hypotheses = false
  ∧ CFOAssistant.handleSubmit "et si ?" false
      (CFOAssistant.mkTab "analysis-a2" (Some Samples.hypotheses))
      (CFOAssistant.ChatOk
         (CFOAssistant.mkChat "ok" (Some Samples.hypotheses) true)) true
    = [CFOAssistant.AddChatMessage "analysis-a2" "user" "et si ?";
       CFOAssistant.AddChatMessage "analysis-a2" "assistant"
         "💭 Réflexion en cours...";
       CFOAssistant.FetchChat "a2" "et si ?" Samples.hypotheses;
       CFOAssistant.AddChatMessage "analysis-a2" "assistant" "ok"].
Proof. vm_compute. done. Qed.

Example changed_hypotheses_relaunch :
  CFOAssistant.hypothesesChanged Samples.hypotheses Samples.hypotheses' = true
  ∧ existsb CFOAssistant.is_continue
      (CFOAssistant.handleSubmit " et si ? " false
         (CFOAssistant.mkTab "analysis-a2" (Some Samples.hypotheses))
         (CFOAssistant.ChatOk
            (CFOAssistant.mkChat "ok" (Some Samples.hypotheses') true)) true)
    = true.
Proof. vm_compute. done. Qed.

(** ** Tabs *)

Section tabs.
Import TabsContext.

Lemma startsWith_tabId id : startsWith "analysis-" (tabId_of id) = true.
Proof. reflexivity. Qed.

Lemma remove_first_tabId id : remove_first "analysis-" (tabId_of id) = id.
Proof. reflexivity. Qed.

Lemma tabId_inj id id' : tabId_of id = tabId_of id' → id = id'.
Proof. unfold tabId_of. simpl. by intros [=]. Qed.

Lemma tabId_not_temporary id : startsWith "decision-" (tabId_of id) = false.
Proof. reflexivity. Qed.

Lemma has_id_spec id tabs :
  has_id id tabs = true ↔ id ∈ tab_id <$> tabs.
Proof.
  unfold has_id. rewrite existsb_exists, list_elem_of_fmap. split.
  - intros (t & Hin & Ht). exists t. apply bool_decide_eq_true in Ht.
    split; [done|]. by apply list_elem_of_In.
  - intros (t & -> & Hin). exists t. split; [by apply list_elem_of_In|].
    by apply bool_decide_eq_true.
Qed.

Lemma dedupe_from_ids id l : ∀ acc,
  id ∈ tab_id <$> foldl (λ acc tab, if has_id (tab_id tab) acc then acc
                                    else (acc ++ [tab])%list) acc l
  ↔ id ∈ tab_id <$> acc ∨ id ∈ tab_id <$> l.
Proof.
  induction l as [|t l IH]; intros acc; simpl.
  - set_solver.
  - rewrite IH. destruct (has_id (tab_id t) acc) eqn:Hh.
    + apply has_id_spec in Hh. set_solver.
    + rewrite fmap_app. set_solver.
Qed.

Lemma dedupe_ids id l : id ∈ tab_id <$> dedupe l ↔ id ∈ tab_id <$> l.
Proof. unfold dedupe. rewrite dedupe_from_ids. set_solver. Qed.

Lemma select_project_analyses_spec tbl u p i a :
  (i, a) ∈ select_project_analyses tbl u p
  ↔ tbl !! i = Some a ∧ user_id a = u ∧ project_id a = p.
Proof.
  unfold select_project_analyses.
  rewrite merge_sort_Permutation, list_elem_of_filter, elem_of_map_to_list.
  simpl. tauto.
Qed.

Lemma open_rows_spec u p w i a :
  (i, a) ∈ open_rows u p w
  ↔ analyses w !! i = Some a ∧ user_id a = u ∧ project_id a = p
    ∧ tabId_of i ∉ stored_closed p w.
Proof.
  unfold open_rows. fold (stored_closed p w).
  rewrite list_elem_of_filter, select_project_analyses_spec. simpl. tauto.
Qed.

(** The reload goes through exactly when the formatter accepts the
    result of every row of the user and the project that is not closed. *)
Lemma formats_spec u p w :
  formats u p w = true
  ↔ ∀ i a, analyses w !! i = Some a → user_id a = u → project_id a = p →
           tabId_of i ∉ stored_closed p w →
           Formatter.throws (result a) = false.
Proof.
  unfold formats. rewrite forallb_forall. split.
  - intros H i a Ha Hu Hp Hc.
    apply negb_true_iff, (H (i, a)), list_elem_of_In, open_rows_spec. done.
  - intros H [i a] (Ha & Hu & Hp & Hc)%list_elem_of_In%open_rows_spec.
    apply negb_true_iff. simpl. by apply (H i a).
Qed.

(** When the formatter throws, the reload sets nothing. *)
Lemma loadAnalyses_abandoned u p w :
  formats u p w = false → loadAnalyses (Some u) (Some p) w = w.
Proof. intros H. unfold loadAnalyses. by rewrite H. Qed.

(** After a reload that goes through, the tab of a stored analysis is
    listed exactly when the analysis is a row of the user and the
    project and is not closed. *)
Lemma loadAnalyses_listing u p id w :
  formats u p w = true →
  tabId_of id ∈ active_listing (loadAnalyses (Some u) (Some p) w)
  ↔ (∃ a, analyses w !! id = Some a ∧ user_id a = u ∧ project_id a = p)
    ∧ tabId_of id ∉ stored_closed p w.
Proof.
  intros Hfmt. unfold active_listing, loadAnalyses. rewrite Hfmt.
  cbn [state decisionTabs].
  rewrite dedupe_ids, fmap_app, elem_of_app.
  assert (Htemp : ∀ (l : list DecisionTab) (P : DecisionTab → Prop)
                     `{!∀ t, Decision (P t)},
            tabId_of id ∈ tab_id <$>
              filter (λ t, startsWith "decision-" (tab_id t) = true ∧ P t) l
            → False).
  { intros l P ? (t & Ht & Hin)%list_elem_of_fmap.
    apply list_elem_of_filter in Hin as [[Hs _] _].
    rewrite <- Ht, tabId_not_temporary in Hs. discriminate. }
  split.
  - intros [Hin|Hin].
    { destruct (match cb_lastProjectId (callback w) with
                | Some l => negb (bool_decide (l = p)) | None => false end).
      - by apply elem_of_nil in Hin.
      - by apply Htemp in Hin. }
    apply list_elem_of_fmap in Hin as (t & Ht & Hin).
    apply list_elem_of_fmap in Hin as ([i a] & -> & Hin).
    apply open_rows_spec in Hin as (Ha & Hu & Hp & Hc). simpl in *.
    apply tabId_inj in Ht as <-. split; [by exists a|done].
  - intros [(a & Ha & Hu & Hp) Hc]. right.
    apply list_elem_of_fmap. exists (to_tab (id, a)). split; [done|].
    apply list_elem_of_fmap. exists (id, a). split; [done|].
    by apply open_rows_spec.
Qed.

Lemma stored_closed_save p X st ls tbl cb :
  stored_closed p (mkWorld st (saveClosedTabs p X ls) tbl cb) = X.
Proof.
  unfold stored_closed, saveClosedTabs. cbn [localStorage].
  by rewrite lookup_insert_eq.
Qed.


Lemma closeTab_fields p id w :
  let w' := closeTab (Some p) (tabId_of id) w in
  closedTabs (state w') = closedTabs (state w) ∪ {[tabId_of id]}
  ∧ stored_closed p w' = closedTabs (state w) ∪ {[tabId_of id]}
  ∧ analyses w' = analyses w
  ∧ decisionTabs (state w')
    = filter (λ tab, tab_id tab ≠ tabId_of id) (decisionTabs (state w)).
Proof.
  intros w'. subst w'. unfold closeTab. rewrite startsWith_tabId.
  cbn [state closedTabs analyses decisionTabs].
  by rewrite stored_closed_save.
Qed.


Lemma permanentlyDeleteTab_fields u p id a w :
  id ≠ "" → analyses w !! id = Some a → user_id a = u →
  let w' := permanentlyDeleteTab (Some u) (Some p) (tabId_of id) w in
  closedTabs (state w') = closedTabs (state w) ∖ {[tabId_of id]}
  ∧ stored_closed p w' = closedTabs (state w) ∖ {[tabId_of id]}
  ∧ analyses w' = delete id (analyses w).
Proof.
  intros Hid Ha Hu w'. subst w'. unfold permanentlyDeleteTab.
  rewrite remove_first_tabId. rewrite bool_decide_eq_false_2 by done.
  unfold db_delete. rewrite Ha. rewrite bool_decide_eq_true_2 by done.
  cbn [state closedTabs analyses].
  by rewrite stored_closed_save.
Qed.


End tabs.





(** Closing the completed job leaves the temporary tab in the header; a
    reload adds the two other jobs, newest first; reopening brings the
    job back at its place. *)
Example close_then_reopen :
  let closed := TabsContext.closeTab (Some "p1") "analysis-a2" Samples.world in
  TabsContext.active_listing closed = ["decision-17"]
  ∧ TabsContext.activeTabId (TabsContext.state closed) = "dashboard"
  ∧ TabsContext.active_listing
      (TabsContext.loadAnalyses (Some "u1") (Some "p1") closed)
    = ["decision-17"; "analysis-a3"; "analysis-a1"]
  ∧ TabsContext.active_listing
      (TabsContext.reopenTab (Some "u1") (Some "p1") "analysis-a2" closed)
    = ["decision-17"; "analysis-a3"; "analysis-a2"; "analysis-a1"].
Proof. vm_compute. done. Qed.

(** * Further properties of the code *)

(** ** More on tabs *)

Section tabs_more.
Import TabsContext TabsProvider.

Lemma dedupe_from_NoDup l : ∀ acc,
  NoDup (tab_id <$> acc) →
  NoDup (tab_id <$> foldl (λ acc tab, if has_id (tab_id tab) acc then acc
                                      else (acc ++ [tab])%list) acc l).
Proof.
  induction l as [|t l IH]; intros acc Hacc; simpl; [done|].
  apply IH. destruct (has_id (tab_id t) acc) eqn:Hh; [done|].
  rewrite fmap_app. simpl. apply NoDup_app. split; [done|].
  split; [|apply NoDup_singleton].
  intros x Hx ->%list_elem_of_singleton.
  apply has_id_spec in Hx. congruence.
Qed.

(** X1.  A reload that goes through shows tabs with pairwise distinct
    ids, whatever the tabs were before and whatever the table holds; a
    reload without user or project shows none; and since a reload that
    is abandoned leaves the tabs as they were, no reload makes two tabs
    share an id when none did before. *)
Theorem loadAnalyses_no_duplicate_tabs (user activeProjectId : option string)
    (w : World) :
  (∀ u p, user = Some u → activeProjectId = Some p → p ≠ "" →
          formats u p w = true →
          NoDup (active_listing (loadAnalyses user activeProjectId w)))
  ∧ (∀ u p, user = Some u → activeProjectId = Some p → p ≠ "" →
            formats u p w = false →
            loadAnalyses user activeProjectId w = w)
  ∧ (user = None ∨ activeProjectId = None →
     active_listing (loadAnalyses user activeProjectId w) = [])
  ∧ (NoDup (active_listing w) →
     NoDup (active_listing (loadAnalyses user activeProjectId w))).
Proof.
  assert (Hgo : ∀ u p, formats u p w = true →
            NoDup (active_listing (loadAnalyses (Some u) (Some p) w))).
  { intros u p Hfmt. unfold active_listing, loadAnalyses. rewrite Hfmt.
    cbn [state decisionTabs]. apply dedupe_from_NoDup, NoDup_nil_2. }
  split; [intros u p -> -> _; apply Hgo|].
  split; [intros u p -> -> _; apply loadAnalyses_abandoned|].
  split; [intros [-> | ->]; [done|by destruct user]|].
  intros Hnd. destruct user as [u|], activeProjectId as [p|];
    try apply NoDup_nil_2.
  destruct (formats u p w) eqn:Hfmt; [by apply Hgo|].
  by rewrite loadAnalyses_abandoned.
Qed.

Lemma temporary_is_not_stored t id :
  startsWith "decision-" t = true → t ≠ tabId_of id.
Proof. intros Ht ->. by rewrite tabId_not_temporary in Ht. Qed.

Lemma storageKey_inj p q : storageKey p = storageKey q → p = q.
Proof. unfold storageKey. simpl. by intros [=]. Qed.

Lemma stored_closed_other p q X st ls tbl cb :
  p ≠ q →
  stored_closed q (mkWorld st (saveClosedTabs p X ls) tbl cb)
  = default ∅ (ls !! storageKey q).
Proof.
  intros Hne. unfold stored_closed, saveClosedTabs. cbn [localStorage].
  rewrite lookup_insert_ne; [done|]. by intros ?%storageKey_inj.
Qed.

(** X2.  After a reload with a user and a project that goes through,
    and after a reopen whose reload goes through, the active tab is the
    dashboard or a tab that is shown.  A reload that is abandoned
    changes nothing, so a reopen whose reload is abandoned leaves the
    reopened tab active over the tabs shown before; a reload without
    user or project shows no tab and leaves the active tab as it was.
    Closing a tab, creating one and giving a temporary tab its stored id
    keep the active tab among the tabs shown. *)
Theorem active_tab_stays_shown (u p : string) (w : World) :
  p ≠ "" →
  (formats u p w = true →
     active_tab_shown (loadAnalyses (Some u) (Some p) w))
  ∧ (formats u p w = false → loadAnalyses (Some u) (Some p) w = w)
  ∧ (∀ t,
       let w' := reopenTab (Some u) (Some p) t w in
       let accepted :=
         ∀ i r, analyses w !! i = Some r → user_id r = u → project_id r = p →
                tabId_of i ∉ closedTabs (state w) ∖ {[t]} →
                Formatter.throws (result r) = false in
       (accepted → active_tab_shown w')
       ∧ (¬ accepted →
            activeTabId (state w') = t
            ∧ active_listing w' = active_listing w))
  ∧ (∀ user proj, user = None ∨ proj = None →
       active_listing (loadAnalyses user proj w) = []
       ∧ activeTabId (state (loadAnalyses user proj w))
         = activeTabId (state w))
  ∧ (active_tab_shown w →
     (∀ proj t, active_tab_shown (closeTab proj t w))
     ∧ (∀ proj q now, active_tab_shown (createDecisionTab proj q now w))
     ∧ (∀ temp id, temp ≠ "dashboard" →
          active_tab_shown (updateTabWithAnalysisId temp id w))).
Proof.
  intros _.
  assert (Hload : ∀ w', formats u p w' = true →
            active_tab_shown (loadAnalyses (Some u) (Some p) w')).
  { intros w' Hfmt. unfold active_tab_shown, active_listing, loadAnalyses.
    rewrite Hfmt. cbn [state activeTabId decisionTabs].
    case_bool_decide as Hd; simpl; [left; by rewrite Hd|].
    destruct (cb_eager (callback w')); [|by left].
    destruct (has_id _ _) eqn:Hh; simpl; [|by left].
    right. by apply has_id_spec. }
  split; [apply Hload|]. split; [apply loadAnalyses_abandoned|].
  split.
  { intros t w' accepted. subst w' accepted. unfold reopenTab.
    set (mid := mkWorld _ _ _ _).
    assert (Hs : stored_closed p mid = closedTabs (state w) ∖ {[t]})
      by apply stored_closed_save.
    assert (Hacc : formats u p mid = true
                   ↔ ∀ i r, analyses w !! i = Some r → user_id r = u →
                            project_id r = p →
                            tabId_of i ∉ closedTabs (state w) ∖ {[t]} →
                            Formatter.throws (result r) = false).
    { rewrite formats_spec, Hs. done. }
    split.
    - intros Hok%Hacc. by apply Hload.
    - intros Hno. rewrite loadAnalyses_abandoned; [done|].
      destruct (formats u p mid); [|done]. destruct Hno. by apply Hacc. }
  split.
  { intros user proj [-> | ->]; [done|]. by destruct user. }
  intros Hshown. split; [|split].
  - intros proj t. unfold active_tab_shown, active_listing, closeTab.
    destruct (match proj with Some _ => _ | None => _ end) as [closed ls].
    cbn [state activeTabId decisionTabs].
    case_bool_decide as Ht; [by left|].
    destruct Hshown as [Hd|Hin]; [by left|]. right.
    apply list_elem_of_fmap in Hin as (tab & Htab & Hin).
    apply list_elem_of_fmap. exists tab. split; [done|].
    apply list_elem_of_filter. split; [congruence|done].
  - intros proj q now. unfold createDecisionTab.
    destruct proj as [[|c proj]|]; [done| |done]. right.
    unfold active_listing. cbn [state activeTabId decisionTabs].
    rewrite fmap_app. set_solver.
  - intros temp id Htemp. unfold active_tab_shown, active_listing,
      updateTabWithAnalysisId. cbn [state activeTabId decisionTabs].
    destruct Hshown as [Hd|Hin].
    { left. rewrite bool_decide_eq_false_2; [done|congruence]. }
    right. apply list_elem_of_fmap in Hin as (tab & Htab & Hin).
    rewrite <- list_fmap_compose. apply list_elem_of_fmap.
    exists tab. split; [|done]. simpl. rewrite <- Htab.
    by case_bool_decide.
Qed.

Lemma active_tab_stays_shown_witness :
  TabsProvider.active_tab_shown
    (TabsContext.loadAnalyses (Some "u1") (Some "p1") Samples.world)
  ∧ TabsContext.activeTabId
      (TabsContext.state
         (TabsContext.reopenTab (Some "u1") (Some "p1") "analysis-a4"
            (TabsContext.closeTab (Some "p1") "analysis-a4"
               Scenario.bare_action_world)))
    = "analysis-a4"
  ∧ TabsContext.active_listing
      (TabsContext.reopenTab (Some "u1") (Some "p1") "analysis-a4"
         (TabsContext.closeTab (Some "p1") "analysis-a4"
            Scenario.bare_action_world))
    = ["analysis-a3"; "analysis-a2"; "analysis-a1"].
Proof.
  split.
  - destruct (active_tab_stays_shown "u1" "p1" Samples.world) as [H _];
      [done|]. apply H. reflexivity.
  - destruct (active_tab_stays_shown "u1" "p1"
                (TabsContext.closeTab (Some "p1") "analysis-a4"
                   Scenario.bare_action_world)) as (_ & _ & H & _); [done|].
    destruct (H "analysis-a4") as [_ Hno]. apply Hno.
    intros Hok.
    specialize (Hok "a4" Scenario.bare_action_job eq_refl eq_refl eq_refl).
    assert (Hopen : "analysis-a4"
              ∉ TabsContext.closedTabs
                  (TabsContext.state
                     (TabsContext.closeTab (Some "p1") "analysis-a4"
                        Scenario.bare_action_world)) ∖ {["analysis-a4"]}).
    { intros [_ Hn]%elem_of_difference. apply Hn. by apply elem_of_singleton. }
    by specialize (Hok Hopen).
Defined.

Lemma loadAnalyses_frame user proj w :
  closedTabs (state (loadAnalyses user proj w)) = closedTabs (state w)
  ∧ localStorage (loadAnalyses user proj w) = localStorage w
  ∧ analyses (loadAnalyses user proj w) = analyses w.
Proof.
  unfold loadAnalyses. destruct user as [u|], proj as [p|]; try done.
  by destruct (formats u p w).
Qed.

Lemma reopenTab_any_user user p t w :
  let w' := reopenTab user (Some p) t w in
  closedTabs (state w') = closedTabs (state w) ∖ {[t]}
  ∧ stored_closed p w' = closedTabs (state w) ∖ {[t]}
  ∧ analyses w' = analyses w.
Proof.
  intros w'. subst w'. unfold reopenTab, stored_closed.
  match goal with |- context [loadAnalyses ?u ?q ?x] =>
    destruct (loadAnalyses_frame u q x) as (-> & -> & ->) end.
  cbn [state closedTabs analyses localStorage].
  unfold saveClosedTabs. by rewrite lookup_insert_eq.
Qed.

Lemma closed_listing_spec u p w t :
  p ≠ "" →
  t ∈ tab_id <$> getClosedTabsForProject (Some u) p w
  ↔ ∃ id a, t = tabId_of id ∧ analyses w !! id = Some a
            ∧ user_id a = u ∧ project_id a = p ∧ t ∈ stored_closed p w.
Proof.
  intros Hp. unfold getClosedTabsForProject.
  rewrite bool_decide_eq_false_2 by done. fold (stored_closed p w).
  rewrite <- list_fmap_compose. rewrite list_elem_of_fmap. split.
  - intros ([id a] & -> & Hin). apply list_elem_of_filter in Hin as [Hc Hin].
    apply select_project_analyses_spec in Hin as (Ha & Hu & Hpr).
    by exists id, a.
  - intros (id & a & -> & Ha & Hu & Hpr & Hc). exists (id, a).
    split; [done|]. apply list_elem_of_filter. split; [done|].
    by apply select_project_analyses_spec.
Qed.

(** X3.  The history lists exactly the rows of the user and the project
    whose tab id is in the stored closed set, and after a reload that
    goes through every row of the user and the project is in one and
    only one of the two lists: the tabs shown, or the history. *)
Theorem shown_or_in_history (u p : string) (w : World) :
  p ≠ "" →
  (∀ t, t ∈ tab_id <$> getClosedTabsForProject (Some u) p w
        ↔ ∃ id a, t = tabId_of id ∧ analyses w !! id = Some a
                  ∧ user_id a = u ∧ project_id a = p
                  ∧ t ∈ stored_closed p w)
  ∧ (formats u p w = true →
     ∀ id a, analyses w !! id = Some a → user_id a = u → project_id a = p →
       (tabId_of id ∈ active_listing (loadAnalyses (Some u) (Some p) w)
        ↔ tabId_of id ∉ tab_id <$> getClosedTabsForProject (Some u) p w)).
Proof.
  intros Hp. split; [intros t; by apply closed_listing_spec|].
  intros Hfmt id a Ha Hu Hpr.
  rewrite loadAnalyses_listing, closed_listing_spec by done. split.
  - intros [_ Hc] (id' & a' & Hid & _ & _ & _ & Hin). done.
  - intros Hc. split; [by exists a|]. intros Hin. apply Hc.
    by exists id, a.
Qed.

Lemma shown_or_in_history_witness :
  "analysis-a1" ∈ TabsContext.tab_id
                  <$> TabsProvider.getClosedTabsForProject (Some "u1") "p1"
                        Scenario.closed_world
  ∧ ("analysis-a1" ∉ TabsContext.active_listing
                       (TabsContext.loadAnalyses (Some "u1") (Some "p1")
                          Scenario.closed_world)).
Proof.
  destruct (shown_or_in_history "u1" "p1" Scenario.closed_world) as [H1 H2];
    [done|].
  assert (Hc : "analysis-a1" ∈ TabsContext.tab_id
                 <$> TabsProvider.getClosedTabsForProject (Some "u1") "p1"
                       Scenario.closed_world).
  { apply H1. exists "a1", Samples.waiting_job.
    split; [done|]. split; [done|]. split; [done|]. split; [done|].
    by apply (bool_decide_unpack _); vm_compute. }
  split; [done|]. intros Hin.
  by apply (H2 eq_refl "a1" Samples.waiting_job eq_refl eq_refl eq_refl) in Hin.
Defined.

(** X4.  Closing a stored analysis and reopening it leaves the closed
    set, in the state and in the store, and the table as they were
    before, when the state and the store agreed and the tab was not
    closed already. *)
Theorem close_then_reopen_restores (user : option string) (p id : string)
    (w : World) :
  closed_in_sync p w → tabId_of id ∉ closedTabs (state w) →
  let w' := reopenTab user (Some p) (tabId_of id)
              (closeTab (Some p) (tabId_of id) w) in
  closedTabs (state w') = closedTabs (state w)
  ∧ stored_closed p w' = stored_closed p w
  ∧ analyses w' = analyses w.
Proof.
  intros Hsync Hnot w'. subst w'.
  destruct (closeTab_fields p id w) as (Hc & _ & Hdb & _).
  destruct (reopenTab_any_user user p (tabId_of id)
              (closeTab (Some p) (tabId_of id) w)) as (-> & -> & ->).
  assert (HX : (closedTabs (state w) ∪ {[tabId_of id]}) ∖ {[tabId_of id]}
               = closedTabs (state w)) by set_solver.
  rewrite Hc, HX, Hdb. by rewrite <- Hsync.
Qed.

Lemma close_then_reopen_restores_witness :
  let w' := TabsContext.reopenTab (Some "u1") (Some "p1") "analysis-a2"
              (TabsContext.closeTab (Some "p1") "analysis-a2" Samples.world) in
  TabsContext.closedTabs (TabsContext.state w') = ∅
  ∧ TabsContext.stored_closed "p1" w' = TabsContext.stored_closed "p1" Samples.world
  ∧ TabsContext.analyses w' = Samples.table.
Proof.
  apply (close_then_reopen_restores (Some "u1") "p1" "a2" Samples.world).
  - reflexivity.
  - apply not_elem_of_empty.
Defined.

Lemma temporary_is_not_analysis t :
  startsWith "decision-" t = true → startsWith "analysis-" t = false.
Proof.
  destruct t as [|c t]; [done|]. simpl.
  case_bool_decide as Hc; [subst c|done]. done.
Qed.

(** X5.  A temporary tab is kept by a reload that goes through exactly
    when the project is the one the callback of the reload closed over
    as last project, or it closed over none; that value is the one of
    the render that built the callback: a reload stores the project in
    the state and leaves the callback as it is.  An abandoned reload
    keeps the tab.  Closing the tab takes it off the header and writes
    nothing to the closed set, in the state or in the store. *)
Theorem temporary_tab_reload_and_close (u p : string) (tab : DecisionTab)
    (w : World) :
  p ≠ "" →
  tab ∈ decisionTabs (state w) → startsWith "decision-" (tab_id tab) = true →
  (formats u p w = true →
     (tab_id tab ∈ active_listing (loadAnalyses (Some u) (Some p) w)
      ↔ cb_lastProjectId (callback w) = None
        ∨ cb_lastProjectId (callback w) = Some p)
     ∧ lastProjectId (state (loadAnalyses (Some u) (Some p) w)) = Some p)
  ∧ (formats u p w = false →
     tab_id tab ∈ active_listing (loadAnalyses (Some u) (Some p) w))
  ∧ callback (loadAnalyses (Some u) (Some p) w) = callback w
  ∧ (∀ proj, closedTabs (state (closeTab proj (tab_id tab) w))
             = closedTabs (state w)
             ∧ localStorage (closeTab proj (tab_id tab) w) = localStorage w
             ∧ tab_id tab ∉ active_listing (closeTab proj (tab_id tab) w)).
Proof.
  intros _ Hin Htemp. split; [|split; [|split]].
  - intros Hfmt. unfold active_listing, loadAnalyses. rewrite Hfmt.
    cbn [state decisionTabs lastProjectId]. split; [|done].
    rewrite dedupe_ids, fmap_app, elem_of_app.
    assert (Hloaded : ∀ l : list (string * Analysis),
              tab_id tab ∉ tab_id <$> (to_tab <$> l)).
    { intros l (t & Ht & (r & -> & _)%list_elem_of_fmap)%list_elem_of_fmap.
      by apply (temporary_is_not_stored _ r.1) in Htemp. }
    split.
    + intros [Hk|Hl]; [|by apply Hloaded in Hl].
      destruct (cb_lastProjectId (callback w)) as [l|]; [|by left].
      right. destruct (bool_decide (l = p)) eqn:Hlp; simpl in Hk.
      * by apply bool_decide_eq_true in Hlp as ->.
      * by apply elem_of_nil in Hk.
    + intros Hsame. left.
      assert (match cb_lastProjectId (callback w) with
              | Some l => negb (bool_decide (l = p)) | None => false end
              = false) as ->.
      { destruct Hsame as [->| ->]; [done|].
        by rewrite bool_decide_eq_true_2. }
      apply list_elem_of_fmap. exists tab. split; [done|].
      apply list_elem_of_filter. split; [|done]. split; [done|].
      destruct (has_id _ _) eqn:Hh; [|done].
      apply has_id_spec in Hh. by apply Hloaded in Hh.
  - intros Hfmt. rewrite loadAnalyses_abandoned by done.
    apply list_elem_of_fmap. by exists tab.
  - unfold loadAnalyses. by destruct (formats u p w).
  - intros proj. unfold active_listing, closeTab.
    rewrite (temporary_is_not_analysis _ Htemp).
    destruct proj; cbn [state closedTabs localStorage decisionTabs];
      (split; [done|]; split; [done|]);
      intros (t & Ht & [Hne _]%list_elem_of_filter)%list_elem_of_fmap;
      congruence.
Qed.

Lemma temporary_tab_reload_and_close_witness :
  "decision-17" ∈ TabsContext.active_listing
                    (TabsContext.loadAnalyses (Some "u1") (Some "p1") Samples.world)
  ∧ ("decision-17" ∉ TabsContext.active_listing
                       (TabsContext.closeTab (Some "p1") "decision-17"
                          Samples.world)).
Proof.
  destruct (temporary_tab_reload_and_close "u1" "p1"
              (TabsContext.mkTab "decision-17" "Et le stock ?") Samples.world)
    as (H1 & _ & _ & H2).
  - done.
  - cbn. set_solver.
  - reflexivity.
  - split; [apply H1; [reflexivity|by right]|].
    by destruct (H2 (Some "p1")) as (_ & _ & H).
Defined.

(** X6.  The closed sets of two projects do not interfere: closing,
    reopening or deleting a tab while one project is active leaves the
    stored closed set of any other project as it was. *)
Theorem closed_sets_are_per_project (user : option string) (p q t : string)
    (w : World) :
  p ≠ q →
  stored_closed q (closeTab (Some p) t w) = stored_closed q w
  ∧ stored_closed q (reopenTab user (Some p) t w) = stored_closed q w
  ∧ stored_closed q (permanentlyDeleteTab user (Some p) t w)
    = stored_closed q w.
Proof.
  intros Hne. split; [|split].
  - unfold closeTab. destruct (startsWith "analysis-" t); [|done].
    by rewrite stored_closed_other.
  - unfold reopenTab, stored_closed.
    match goal with |- context [loadAnalyses ?u ?x ?y] =>
      destruct (loadAnalyses_frame u x y) as (_ & -> & _) end.
    cbn [localStorage]. unfold saveClosedTabs.
    rewrite lookup_insert_ne; [done|]. by intros ?%storageKey_inj.
  - unfold permanentlyDeleteTab. destruct user as [u|]; [|done].
    case_bool_decide; [done|]. by rewrite stored_closed_other.
Qed.

Lemma closed_sets_are_per_project_witness :
  TabsContext.stored_closed "p2"
    (TabsContext.closeTab (Some "p1") "analysis-a2" Samples.world)
  = TabsContext.stored_closed "p2" Samples.world
  ∧ "analysis-a2" ∈ TabsContext.stored_closed "p1"
                      (TabsContext.closeTab (Some "p1") "analysis-a2"
                         Samples.world).
Proof.
  destruct (closed_sets_are_per_project (Some "u1") "p1" "p2" "analysis-a2"
              Samples.world) as (H & _ & _); [done|].
  split; [exact H|]. by apply (bool_decide_unpack _); vm_compute.
Defined.

(** X7.  The state and the store agree on the closed set once the
    project effect has run for a project, and every operation of the
    provider keeps them in agreement; without a project the effect
    empties the closed set of the state. *)
Theorem closed_set_stays_in_sync (user : option string) (p : string)
    (w : World) :
  (p ≠ "" → closed_in_sync p (loadClosedTabs (Some p) w))
  ∧ closedTabs (state (loadClosedTabs None w)) = ∅
  ∧ closedTabs (state (loadClosedTabs (Some "") w)) = ∅
  ∧ (closed_in_sync p w →
     (∀ t, closed_in_sync p (closeTab (Some p) t w))
     ∧ (∀ t, closed_in_sync p (reopenTab user (Some p) t w))
     ∧ (∀ t, closed_in_sync p (permanentlyDeleteTab user (Some p) t w))
     ∧ closed_in_sync p (loadAnalyses user (Some p) w)
     ∧ (∀ proj query now,
          closed_in_sync p (createDecisionTab proj query now w))
     ∧ (∀ temp id, closed_in_sync p (updateTabWithAnalysisId temp id w))).
Proof.
  split; [by destruct p|]. split; [done|]. split; [done|].
  intros Hsync. unfold closed_in_sync in *.
  split; [|split; [|split; [|split; [|split]]]].
  - intros t. unfold closeTab. destruct (startsWith "analysis-" t); [|done].
    cbn [state closedTabs]. by rewrite stored_closed_save.
  - intros t. by destruct (reopenTab_any_user user p t w) as (-> & -> & _).
  - intros t. unfold permanentlyDeleteTab. destruct user as [u|]; [|done].
    case_bool_decide; [done|]. cbn [state closedTabs].
    by rewrite stored_closed_save.
  - unfold stored_closed.
    by destruct (loadAnalyses_frame user (Some p) w) as (-> & -> & _).
  - intros proj query now. unfold createDecisionTab.
    by destruct proj as [[|c proj]|].
  - done.
Qed.

(** X8.  Deleting for good, from the history, a closed analysis of the
    user takes its row out of the table and its tab out of the history,
    and leaves every other entry of the history where it was. *)
Theorem history_delete_removes_one (u p id : string) (a : Analysis)
    (w : World) (closed : list DecisionTab) :
  p ≠ "" → id ≠ "" → analyses w !! id = Some a →
  user_id a = u → closed_in_sync p w →
  let r := HistoryModal.handleDelete (Some u) (Some p) (tabId_of id) w closed in
  analyses r.1 !! id = None
  ∧ (tabId_of id ∉ tab_id <$> r.2)
  ∧ ∀ t, t ≠ tabId_of id →
         (t ∈ tab_id <$> r.2
          ↔ t ∈ tab_id <$> getClosedTabsForProject (Some u) p w).
Proof.
  intros Hp Hid Ha Hu Hsync r. subst r.
  unfold HistoryModal.handleDelete, HistoryModal.loadClosedTabs. cbn [fst snd].
  rewrite bool_decide_eq_false_2 by done.
  destruct (permanentlyDeleteTab_fields u p id a w Hid Ha Hu)
    as (_ & Hs & Hdb).
  split; [rewrite Hdb; apply lookup_delete_eq|]. split.
  - rewrite closed_listing_spec by done.
    intros (id' & a' & _ & _ & _ & _ & Hin). rewrite Hs in Hin. set_solver.
  - intros t Hne. rewrite !closed_listing_spec by done.
    rewrite Hs, Hdb, <- Hsync. split.
    + intros (id' & a' & -> & Ha' & Hu' & Hp' & Hin).
      exists id', a'. rewrite lookup_delete_ne in Ha' by congruence.
      split; [done|]. split; [done|]. split; [done|]. split; [done|].
      set_solver.
    + intros (id' & a' & -> & Ha' & Hu' & Hp' & Hin).
      exists id', a'. rewrite lookup_delete_ne by congruence.
      split; [done|]. split; [done|]. split; [done|]. split; [done|].
      set_solver.
Qed.

Lemma history_delete_removes_one_witness :
  let r := HistoryModal.handleDelete (Some "u1") (Some "p1") "analysis-a1"
             Scenario.closed_world [] in
  TabsContext.analyses r.1 !! "a1" = None
  ∧ ("analysis-a1" ∉ TabsContext.tab_id <$> r.2).
Proof.
  destruct (history_delete_removes_one "u1" "p1" "a1" Samples.waiting_job
              Scenario.closed_world []) as (H1 & H2 & _); try done.
Defined.

(** X9.  A question asked with a project active opens a temporary tab
    and makes it active; once the analysis is stored, the tab carries
    the stored id, stays active, and its temporary id is gone from the
    header.  Without an active project nothing changes. *)
Theorem temporary_tab_takes_stored_id (c : ascii) (p query : string)
    (now : Z) (aid : string) (w : World) :
  let w1 := createDecisionTab (Some (String c p)) query now w in
  let temp := activeTabId (state w1) in
  let w2 := updateTabWithAnalysisId temp aid w1 in
  startsWith "decision-" temp = true
  ∧ active_listing w1 = (active_listing w ++ [temp])%list
  ∧ activeTabId (state w2) = tabId_of aid
  ∧ tabId_of aid ∈ active_listing w2
  ∧ (temp ∉ active_listing w2)
  ∧ length (active_listing w2) = length (active_listing w1)
  ∧ createDecisionTab None query now w = w
  ∧ createDecisionTab (Some "") query now w = w.
Proof.
  intros w1 temp w2. subst w1 temp w2.
  unfold active_listing, updateTabWithAnalysisId, createDecisionTab.
  cbn [state activeTabId decisionTabs].
  split; [done|]. split; [by rewrite fmap_app|].
  split; [by rewrite bool_decide_eq_true_2|].
  rewrite <- list_fmap_compose. split.
  - apply list_elem_of_fmap. exists (mkTab ("decision-" +:+ pretty now) query).
    split; [simpl; by rewrite bool_decide_eq_true_2|set_solver].
  - split; [|split; [by rewrite !length_fmap|done]].
    intros (t & Ht & _)%list_elem_of_fmap. simpl in Ht.
    case_bool_decide as Hc; simpl in Ht; [discriminate|congruence].
Qed.

End tabs_more.

(** ** Polling *)

Section polling.
Import AnalysisProgress.

Lemma terminal_test data :
  bool_decide (rep_status data = "completed")
  || bool_decide (rep_status data = "error") = true ↔ terminal data.
Proof.
  unfold terminal. rewrite orb_true_iff, !bool_decide_eq_true. done.
Qed.

(** X10.  A poll that is sent keeps the interval running exactly when
    the interval was running, the answer is an OK report of a job that
    is neither completed nor in error, and no more than five minutes
    have passed since polling started; every answer that parses is
    stored, and no poll is left marked as in flight. *)
Theorem poll_keeps_running_iff (c : ascii) (id : string) (f : Fetched)
    (now : Z) (h : Hook) :
  isPolling h = false →
  let h' := pollStatus (Some (String c id)) f now h in
  (pollingInterval h' = true
   ↔ pollingInterval h = true
     ∧ ∃ data, f = Ok data ∧ ¬ terminal data
         ∧ ∀ t, startTime h = Some t → t ≠ 0 → now - t ≤ MAX_POLLING_TIME)
  ∧ isPolling h' = false
  ∧ status h' = match f with Ok data => Some data | _ => status h end.
Proof.
  intros Hfree h'. subst h'. unfold pollStatus, pollStatus_begin.
  rewrite Hfree. unfold pollStatus_end. cbn [startTime status].
  destruct f as [m|e|data]; cbn [clear pollingInterval isPolling status].
  - split; [|done]. split; [done|]. by intros (_ & d & [=] & _).
  - split; [|done]. split; [done|]. by intros (_ & d & [=] & _).
  - destruct (_ || _) eqn:Hterm.
    { apply terminal_test in Hterm. cbn. split; [|done].
      split; [done|]. intros (_ & d & [= <-] & Hn & _). done. }
    assert (Hnt : ¬ terminal data).
    { intros Ht%terminal_test. congruence. }
    destruct (startTime h) as [t|] eqn:Hs.
    + destruct (negb (t =? 0) && (MAX_POLLING_TIME <? now - t)) eqn:Hlate.
      * cbn. split; [|done]. split; [done|].
        intros (_ & d & _ & _ & Hle).
        apply andb_true_iff in Hlate as [Ht Hl].
        apply negb_true_iff, Z.eqb_neq in Ht. apply Z.ltb_lt in Hl.
        specialize (Hle t eq_refl Ht). lia.
      * cbn. split; [|done]. split.
        -- intros Hp. split; [done|]. exists data. split; [done|].
           split; [done|]. intros t' [= <-] Ht.
           apply andb_false_iff in Hlate as [Hz|Hl].
           ++ apply negb_false_iff, Z.eqb_eq in Hz. done.
           ++ apply Z.ltb_ge in Hl. done.
        -- by intros [Hp _].
    + cbn. split; [|done]. split.
      * intros Hp. split; [done|]. exists data. by repeat split.
      * by intros [Hp _].
Qed.

Lemma poll_keeps_running_iff_witness :
  AnalysisProgress.pollingInterval
    (AnalysisProgress.pollStatus (Some "a3")
       (AnalysisProgress.Ok (Scenario.report "in_progress")) 3000 Scenario.hook)
  = true.
Proof.
  destruct (poll_keeps_running_iff "a" "3"
              (AnalysisProgress.Ok (Scenario.report "in_progress")) 3000
              Scenario.hook) as [H _]; [reflexivity|].
  apply H. split; [reflexivity|]. exists (Scenario.report "in_progress").
  split; [reflexivity|]. split.
  - by intros [?|?].
  - intros t [= <-] _. by vm_compute.
Defined.

(** X11.  Once more than five minutes have passed since polling
    started, every poll of a job that is neither completed nor in error,
    a job waiting for data included, ends with the timeout message and
    with the interval cleared, and so does every later one: a poll does
    not reset the clock.  Within the five minutes such a poll leaves the
    error and the interval as the request found them. *)
Theorem poll_timeout (c : ascii) (id : string) (data : StatusReport)
    (t now : Z) (h : Hook) :
  isPolling h = false → startTime h = Some t → t ≠ 0 → ¬ terminal data →
  let h' := pollStatus (Some (String c id)) (Ok data) now h in
  startTime h' = Some t
  ∧ (MAX_POLLING_TIME < now - t →
       error h' = Some "Analysis timeout: The analysis is taking longer than expected."
       ∧ pollingInterval h' = false ∧ isLoading h' = false
       ∧ ∀ data' now', ¬ terminal data' → now ≤ now' →
           error (pollStatus (Some (String c id)) (Ok data') now' h')
           = Some "Analysis timeout: The analysis is taking longer than expected.")
  ∧ (now - t ≤ MAX_POLLING_TIME →
       error h' = None ∧ pollingInterval h' = pollingInterval h
       ∧ isLoading h' = true).
Proof.
  intros Hfree Hs Ht Hnt h'. subst h'.
  assert (Hstep : ∀ d n g, isPolling g = false → startTime g = Some t →
            ¬ terminal d → MAX_POLLING_TIME < n - t →
            pollStatus (Some (String c id)) (Ok d) n g
            = clear g false
                (Some "Analysis timeout: The analysis is taking longer than expected.")
                (Some d)).
  { intros d n g Hg Hgs Hd Hn. unfold pollStatus, pollStatus_begin.
    rewrite Hg. unfold pollStatus_end. cbn [startTime]. rewrite Hgs.
    destruct (_ || _) eqn:Hterm; [by apply terminal_test in Hterm|].
    assert ((t =? 0) = false) as -> by by apply Z.eqb_neq.
    assert ((MAX_POLLING_TIME <? n - t) = true) as -> by by apply Z.ltb_lt.
    unfold clear. cbn. by rewrite Hgs. }
  split; [|split].
  - unfold pollStatus, pollStatus_begin. rewrite Hfree.
    unfold pollStatus_end. cbn [startTime]. rewrite Hs.
    destruct (_ || _); [done|]. by destruct (_ && _).
  - intros Hlate. rewrite (Hstep data now h) by done.
    split; [done|]. split; [done|]. split; [done|].
    intros data' now' Hnt' Hle. rewrite Hstep; [done..|lia].
  - intros Hle. unfold pollStatus, pollStatus_begin. rewrite Hfree.
    unfold pollStatus_end. cbn [startTime]. rewrite Hs.
    destruct (_ || _) eqn:Hterm; [by apply terminal_test in Hterm|].
    assert ((MAX_POLLING_TIME <? now - t) = false) as -> by by apply Z.ltb_ge.
    by rewrite andb_false_r.
Qed.

Lemma poll_timeout_witness :
  let h' := AnalysisProgress.pollStatus (Some "a3")
              (AnalysisProgress.Ok (Scenario.report "waiting_for_data")) 400000
              Scenario.hook in
  AnalysisProgress.error h'
  = Some "Analysis timeout: The analysis is taking longer than expected."
  ∧ AnalysisProgress.pollingInterval h' = false.
Proof.
  destruct (poll_timeout "a" "3" (Scenario.report "waiting_for_data") 1000 400000
              Scenario.hook) as (_ & H & _);
    [reflexivity|reflexivity|done|by intros [?|?]|].
  destruct H as (H1 & H2 & _); [by vm_compute|]. by split.
Defined.

End polling.

(** X12.  Polling the status route.  For a job that is not the caller's
    the poll stops the interval with the not-found message and keeps the
    last report; for a job of the caller that is completed or in error
    it stops the interval without an error and stores the report, whose
    result is the stored one for a completed job and null otherwise. *)
Theorem polling_the_status_route (uid : string) (c : ascii) (id : string)
    (tbl : gmap string Analysis) (now : Z) (h : AnalysisProgress.Hook) :
  AnalysisProgress.isPolling h = false →
  ∃ f, AnalysisProgress.fetched (Status.GET (AuthUser uid) (String c id) tbl) = Some f
    ∧ let h' := AnalysisProgress.pollStatus (Some (String c id)) f now h in
      match select_single tbl (String c id) uid with
      | None =>
          AnalysisProgress.pollingInterval h' = false
          ∧ AnalysisProgress.status h' = AnalysisProgress.status h
          ∧ AnalysisProgress.error h' = Some "Analysis not found or access denied"
      | Some a =>
          rep_progress <$> AnalysisProgress.status h' = Some (progress a)
          ∧ rep_missing_data <$> AnalysisProgress.status h' = Some (missing_data a)
          ∧ rep_result <$> AnalysisProgress.status h'
            = Some (if bool_decide (status a = "completed")
                    then result a else JNull)
          ∧ (status a = "completed" ∨ status a = "error" →
             AnalysisProgress.pollingInterval h' = false
             ∧ AnalysisProgress.error h' = None
             ∧ AnalysisProgress.isLoading h' = false)
      end.
Proof.
  intros Hfree. unfold Status.GET. rewrite bool_decide_eq_false_2 by done.
  destruct (select_single tbl (String c id) uid) as [a|].
  - eexists. split; [reflexivity|]. cbv zeta.
    unfold AnalysisProgress.pollStatus, AnalysisProgress.pollStatus_begin.
    rewrite Hfree. unfold AnalysisProgress.pollStatus_end. cbn [rep_status].
    destruct (_ || _) eqn:Hterm.
    + by repeat split.
    + cbn [AnalysisProgress.startTime].
      assert (Hgo : ¬ (status a = "completed" ∨ status a = "error")).
      { intros Hst. apply orb_false_iff in Hterm as [H1 H2].
        apply bool_decide_eq_false in H1, H2.
        case_bool_decide as He; [|tauto].
        destruct Hst as [Hst|Hst]; rewrite Hst in He; discriminate. }
      destruct (AnalysisProgress.startTime h) as [t|]; [destruct (_ && _)|];
        (split; [done|split; [done|split; [reflexivity|intros Hst; by destruct Hgo]]]).
  - eexists. split; [reflexivity|]. cbv zeta.
    unfold AnalysisProgress.pollStatus, AnalysisProgress.pollStatus_begin.
    by rewrite Hfree.
Qed.

Lemma polling_the_status_route_witness :
  ∃ f, AnalysisProgress.fetched (Status.GET (AuthUser "u1") "a2" Samples.table)
       = Some f
    ∧ let h' := AnalysisProgress.pollStatus (Some "a2") f 3000 Scenario.hook in
      AnalysisProgress.pollingInterval h' = false
      ∧ rep_result <$> AnalysisProgress.status h' = Some Scenario.verdict.
Proof.
  destruct (polling_the_status_route "u1" "a" "2" Samples.table 3000
              Scenario.hook eq_refl) as (f & Hf & H).
  exists f. split; [exact Hf|].
  change (select_single Samples.table "a2" "u1")
    with (Some Samples.completed_job) in H.
  destruct H as (_ & _ & Hr & Hs). split.
  - by destruct Hs as [Hs _]; [left|].
  - exact Hr.
Defined.

(** ** The table under every route and task *)

Lemma same_identity_refl a : same_identity a a.
Proof. by repeat split. Qed.

Lemma same_identity_trans a b c :
  same_identity a b → same_identity b c → same_identity a c.
Proof.
  unfold same_identity. intros (?&?&?&?&?&?) (?&?&?&?&?&?).
  repeat split; congruence.
Qed.

Lemma apply_update_identity a u : same_identity a (apply_update a u).
Proof. by repeat split. Qed.

Lemma rows_kept_refl tbl : rows_kept tbl tbl.
Proof. intros id a H. exists a. split; [done|apply same_identity_refl]. Qed.

Lemma rows_kept_trans t1 t2 t3 :
  rows_kept t1 t2 → rows_kept t2 t3 → rows_kept t1 t3.
Proof.
  intros H12 H23 id a H. destruct (H12 id a H) as (b & Hb & Hab).
  destruct (H23 id b Hb) as (c & Hc & Hbc). exists c.
  split; [done|by eapply same_identity_trans].
Qed.

Lemma rows_kept_insert tbl id a a' :
  tbl !! id = Some a → same_identity a a' → rows_kept tbl (<[id := a']> tbl).
Proof.
  intros Ha Hid i b Hb. destruct (decide (i = id)) as [->|Hne].
  - rewrite lookup_insert_eq. exists a'. split; [done|congruence].
  - rewrite lookup_insert_ne by done. exists b.
    split; [done|apply same_identity_refl].
Qed.

Lemma rows_kept_fresh tbl id a :
  tbl !! id = None → rows_kept tbl (<[id := a]> tbl).
Proof.
  intros Hn i b Hb. exists b. split; [|apply same_identity_refl].
  rewrite lookup_insert_ne; [done|congruence].
Qed.

Lemma db_update_cases tbl id owner u tbl' :
  db_update tbl id owner u = Some tbl' →
  tbl' = tbl
  ∨ ∃ a, tbl !! id = Some a ∧ owned_by owner a = true
      ∧ check_row (apply_update a u) = true
      ∧ tbl' = <[id := apply_update a u]> tbl.
Proof.
  unfold db_update. destruct (tbl !! id) as [a|] eqn:Ha; [|by intros [= <-]; left].
  destruct (owned_by owner a) eqn:Ho; [|by intros [= <-]; left]. cbv zeta.
  destruct (check_row (apply_update a u)) eqn:Hc; [|done].
  intros [= <-]. right. by exists a.
Qed.

Lemma db_update_kept tbl id owner u tbl' :
  db_update tbl id owner u = Some tbl' → rows_kept tbl tbl' ∧ dom tbl' = dom tbl.
Proof.
  intros [->|(a & Ha & _ & _ & ->)]%db_update_cases.
  - split; [apply rows_kept_refl|done].
  - split; [by eapply rows_kept_insert, apply_update_identity|].
    by apply dom_insert_lookup_L.
Qed.

Lemma write_kept tbl id u :
  rows_kept tbl (write tbl id u) ∧ dom (write tbl id u) = dom tbl.
Proof.
  unfold write. destruct (db_update tbl id None u) as [tbl'|] eqn:H; simpl.
  - by eapply db_update_kept.
  - split; [apply rows_kept_refl|done].
Qed.

Lemma run_writes_kept id ws : ∀ tbl,
  rows_kept tbl (run_writes id ws tbl) ∧ dom (run_writes id ws tbl) = dom tbl.
Proof.
  unfold run_writes. induction ws as [|u ws IH]; intros tbl; simpl.
  - split; [apply rows_kept_refl|done].
  - destruct (IH (write tbl id u)) as [Hk Hd].
    destruct (write_kept tbl id u) as [Hk' Hd']. split.
    + by eapply rows_kept_trans.
    + congruence.
Qed.

Lemma update_status_table auth id body tbl :
  (UpdateStatus.POST auth id body tbl).2 = tbl
  ∨ ∃ uid b, auth = AuthUser uid ∧ body = Some b
      ∧ db_update tbl id (Some uid) (UpdateStatus.updateData b)
        = Some (UpdateStatus.POST auth id body tbl).2.
Proof.
  unfold UpdateStatus.POST. destruct auth as [uid|r]; [|by left].
  case_bool_decide; [by left|]. destruct body as [b|]; [|by left].
  destruct (db_update _ _ _ _) as [tbl'|] eqn:Hd; [|by left].
  right. by exists uid, b.
Qed.

Lemma continue_table auth id body tbl :
  (Continue.POST auth id body tbl).1.2 = tbl
  ∨ db_update tbl id None Continue.resume_update
    = Some (Continue.POST auth id body tbl).1.2.
Proof.
  unfold Continue.POST. destruct auth as [uid|r]; [|by left].
  case_bool_decide; [by left|]. destruct body as [b|]; [|by left].
  destruct (select_single tbl id uid) as [a|]; [|by left].
  destruct (db_update _ _ _ _) as [tbl'|] eqn:Hd; [by right|by left].
Qed.

Lemma stream_table auth body new_id now projects files tbl :
  (Stream.POST auth body new_id now projects files tbl).1.2 = tbl
  ∨ tbl !! new_id = None
    ∧ ∃ uid p q ids,
        (Stream.POST auth body new_id now projects files tbl).1.2
        = <[new_id := Stream.new_row uid p q ids now]> tbl.
Proof.
  unfold Stream.POST. destruct auth as [uid|r]; [|by left].
  destruct body as [b|]; [|by left].
  destruct (Stream.check_question _) as [| |q]; [by left..|].
  destruct (negb (truthy _)); [by left|].
  destruct (Stream.select_project _ _ _) as [p|]; [|by left].
  destruct (negb (Stream.files_ok _ _ _ _)); [by left|].
  destruct (Stream.file_ids_or_empty _) as [ids|]; [|by left].
  destruct (tbl !! new_id) eqn:Hn; [by left|].
  right. split; [done|]. by exists uid, p, q, ids.
Qed.

Lemma analyze_table auth body new_id now projects files tbl backend :
  (Analyze.POST auth body new_id now projects files tbl backend).1.2 = tbl
  ∨ tbl !! new_id = None
    ∧ ∃ uid p q ids result,
        (Analyze.POST auth body new_id now projects files tbl backend).1.2
        = <[new_id := Analyze.saved_row uid p q ids result now]> tbl.
Proof.
  unfold Analyze.POST. destruct auth as [uid|r]; [|by left].
  destruct body as [b|]; [|by left].
  destruct (Stream.check_question _) as [| |q]; [by left..|].
  destruct (negb (truthy _)); [by left|].
  destruct (Stream.select_project _ _ _) as [p|]; [|by left].
  destruct (negb (Stream.files_ok _ _ _ _)); [by left|]. cbv zeta.
  destruct backend as [|s| |result]; [by left..|].
  destruct (Stream.file_ids_or_empty _) as [ids|]; [|by left].
  destruct (tbl !! new_id) eqn:Hn; [by left|].
  right. split; [done|]. by exists uid, p, q, ids, result.
Qed.

(** X13.  No route and no background task deletes a row or changes the
    owner, the project, the question, the files, the partial result or
    the creation time of one; a new row appears only through the two
    launch routes, and then it is the row of the new id. *)
Theorem rows_are_kept (auth : AuthResult) (id new_id : string) (now : Z)
    (ub : option UpdateStatus.Fields) (cb : option Continue.Fields)
    (sb : option Stream.Fields) (projects : gmap string Stream.Project)
    (files : gmap string Stream.FileRow) (backend : Analyze.Backend)
    (ct : Continue.Task) (st : Stream.Task) (e : Stream.Env)
    (tbl : gmap string Analysis) :
  let updated := (UpdateStatus.POST auth id ub tbl).2 in
  let resumed := (Continue.POST auth id cb tbl).1.2 in
  let launched := (Stream.POST auth sb new_id now projects files tbl).1.2 in
  let analyzed :=
    (Analyze.POST auth sb new_id now projects files tbl backend).1.2 in
  (rows_kept tbl updated ∧ dom updated = dom tbl)
  ∧ (rows_kept tbl resumed ∧ dom resumed = dom tbl)
  ∧ (rows_kept tbl (Stream.run st e tbl) ∧ dom (Stream.run st e tbl) = dom tbl)
  ∧ (rows_kept tbl (Continue.run ct (Stream.answer e) tbl)
     ∧ dom (Continue.run ct (Stream.answer e) tbl) = dom tbl)
  ∧ (rows_kept tbl launched
     ∧ (dom launched = dom tbl ∨ dom launched = {[new_id]} ∪ dom tbl))
  ∧ (rows_kept tbl analyzed
     ∧ (dom analyzed = dom tbl ∨ dom analyzed = {[new_id]} ∪ dom tbl)).
Proof.
  cbv zeta. repeat apply conj.
  - destruct (update_status_table auth id ub tbl) as [->|(?&?&_&_&H)];
      [apply rows_kept_refl|by eapply db_update_kept].
  - destruct (update_status_table auth id ub tbl) as [->|(?&?&_&_&H)];
      [done|by eapply db_update_kept].
  - destruct (continue_table auth id cb tbl) as [->|H];
      [apply rows_kept_refl|by eapply db_update_kept].
  - destruct (continue_table auth id cb tbl) as [->|H];
      [done|by eapply db_update_kept].
  - apply run_writes_kept.
  - apply run_writes_kept.
  - apply run_writes_kept.
  - apply run_writes_kept.
  - destruct (stream_table auth sb new_id now projects files tbl)
      as [->|(Hn & ? & ? & ? & ? & ->)];
      [apply rows_kept_refl|by apply rows_kept_fresh].
  - destruct (stream_table auth sb new_id now projects files tbl)
      as [->|(Hn & ? & ? & ? & ? & ->)]; [by left|].
    right. by rewrite dom_insert_L.
  - destruct (analyze_table auth sb new_id now projects files tbl backend)
      as [->|(Hn & ? & ? & ? & ? & ? & ->)];
      [apply rows_kept_refl|by apply rows_kept_fresh].
  - destruct (analyze_table auth sb new_id now projects files tbl backend)
      as [->|(Hn & ? & ? & ? & ? & ? & ->)]; [by left|].
    right. by rewrite dom_insert_L.
Qed.

(** ** External status updates, continued *)

Lemma apply_update_idem a u :
  apply_update (apply_update a u) u = apply_update a u.
Proof.
  destruct u as [[s|] [c|] [p|] [st|] [m|] [r|]]; reflexivity.
Qed.

Lemma check_row_spec a :
  check_row a = true ↔ status a ∈ status_values ∧ 0 ≤ progress a ≤ 100.
Proof.
  unfold check_row. rewrite !andb_true_iff, bool_decide_eq_true.
  rewrite Z.leb_le, Z.leb_le. tauto.
Qed.

(** X15.  On a job of the caller the update-status route answers 200
    and stores the named columns exactly when the row they give
    satisfies the two CHECK constraints; otherwise it answers 500 and
    writes nothing.  In particular a status outside the five values and
    a progress outside 0..100 are refused. *)
Theorem update_status_checked (uid id : string) (b : UpdateStatus.Fields)
    (a : Analysis) (tbl : gmap string Analysis) :
  id ≠ "" → tbl !! id = Some a → user_id a = uid →
  let r := UpdateStatus.POST (AuthUser uid) id (Some b) tbl in
  let a' := apply_update a (UpdateStatus.updateData b) in
  (check_row a' = true → r = (mkResponse 200 SuccessBody, <[id := a']> tbl))
  ∧ (check_row a' = false → r = (UpdateStatus.failed, tbl))
  ∧ (∀ s, UpdateStatus.f_status b = Some s → s ∉ status_values →
       r = (UpdateStatus.failed, tbl))
  ∧ (∀ p, UpdateStatus.f_progress b = Some p → p < 0 ∨ 100 < p →
       r = (UpdateStatus.failed, tbl)).
Proof.
  intros Hid Ha Hu r a'.
  assert (Hr : r = if check_row a'
                   then (mkResponse 200 SuccessBody, <[id := a']> tbl)
                   else (UpdateStatus.failed, tbl)).
  { subst r a'. unfold UpdateStatus.POST, db_update.
    rewrite bool_decide_eq_false_2 by done. rewrite Ha. cbn [owned_by].
    rewrite bool_decide_eq_true_2 by done. cbv zeta.
    by destruct (check_row _). }
  split; [by intros Hc; rewrite Hr, Hc|].
  split; [by intros Hc; rewrite Hr, Hc|].
  split.
  - intros s Hs Hout. rewrite Hr.
    destruct (check_row a') eqn:Hc; [exfalso|done].
    apply check_row_spec in Hc as [Hin _]. subst a'. simpl in Hin.
    rewrite Hs in Hin. done.
  - intros p Hp Hout. rewrite Hr.
    destruct (check_row a') eqn:Hc; [exfalso|done].
    apply check_row_spec in Hc as [_ Hin]. subst a'. simpl in Hin.
    rewrite Hp in Hin. simpl in Hin. lia.
Qed.

Lemma update_status_checked_witness :
  UpdateStatus.POST (AuthUser "u1") "a3"
    (Some (UpdateStatus.mkFields None None (Some 150) None None None))
    Samples.table
  = (UpdateStatus.failed, Samples.table)
  ∧ UpdateStatus.POST (AuthUser "u1") "a3"
      (Some (UpdateStatus.mkFields (Some "done") None None None None None))
      Samples.table
    = (UpdateStatus.failed, Samples.table).
Proof.
  split.
  - destruct (update_status_checked "u1" "a3"
                (UpdateStatus.mkFields None None (Some 150) None None None)
                Samples.running_job Samples.table) as (_ & _ & _ & H);
      [done|reflexivity|reflexivity|].
    apply (H 150); [done|lia].
  - destruct (update_status_checked "u1" "a3"
                (UpdateStatus.mkFields (Some "done") None None None None None)
                Samples.running_job Samples.table) as (_ & _ & H & _);
      [done|reflexivity|reflexivity|].
    apply (H "done"); [done|]. by apply (proj1 (bool_decide_eq_false _)).
Defined.

(** X16.  The update-status route is idempotent: the same request sent
    a second time gets the same answer and leaves the table as the first
    one left it. *)
Theorem update_status_idempotent (auth : AuthResult) (id : string)
    (body : option UpdateStatus.Fields) (tbl : gmap string Analysis) :
  UpdateStatus.POST auth id body (UpdateStatus.POST auth id body tbl).2
  = UpdateStatus.POST auth id body tbl.
Proof.
  unfold UpdateStatus.POST. destruct auth as [uid|r]; [|done].
  case_bool_decide as Hid; [done|]. destruct body as [b|]; [|done].
  unfold db_update. destruct (tbl !! id) as [a|] eqn:Ha; cbn [snd].
  - destruct (owned_by (Some uid) a) eqn:Ho; cbn [snd].
    + cbv zeta.
      destruct (check_row (apply_update a (UpdateStatus.updateData b))) eqn:Hc;
        cbn [snd].
      * rewrite lookup_insert_eq.
        assert (owned_by (Some uid)
                  (apply_update a (UpdateStatus.updateData b)) = true) as ->
          by done.
        rewrite apply_update_idem, Hc. by rewrite insert_insert_eq.
      * by rewrite Ha, Ho, Hc.
    + by rewrite Ha, Ho.
  - by rewrite Ha.
Qed.

(** ** From the launch to the report *)

Lemma stream_started uid body new_id now projects files tbl resp tbl' t :
  Stream.POST (AuthUser uid) body new_id now projects files tbl
  = (resp, tbl', Some t) →
  ∃ b q p ids,
    body = Some b
    ∧ Stream.check_question (Stream.f_question b) = Stream.QuestionOk q
    ∧ Stream.select_project projects (Stream.f_project_id b) uid = Some p
    ∧ Stream.files_ok files uid p (Stream.f_file_ids b) = true
    ∧ Stream.file_ids_or_empty (Stream.f_file_ids b) = Some ids
    ∧ tbl !! new_id = None
    ∧ tbl' = <[new_id := Stream.new_row uid p q ids now]> tbl
    ∧ t = Stream.mkTask new_id q ids.
Proof.
  unfold Stream.POST. destruct body as [b|]; [|done].
  destruct (Stream.check_question _) as [| |q] eqn:Hq; [done..|].
  destruct (negb (truthy _)); [done|].
  destruct (Stream.select_project _ _ _) as [p|] eqn:Hp; [|done].
  destruct (Stream.files_ok _ _ _ _) eqn:Hf; [|done]. cbn [negb].
  destruct (Stream.file_ids_or_empty _) as [ids|] eqn:Hi; [|done].
  destruct (tbl !! new_id) eqn:Hn; [done|].
  intros [= <- <- <-]. by exists b, q, p, ids.
Qed.

(** X17.  From the launch to the report.  Right after a launch that
    started a task, the status route shows the caller a pending job at
    progress 0 with the six initial steps and no result; once the task
    has run with an answer of the AI service that parses, it shows the
    job completed at progress 100, every step completed, and the answer
    of the service as the result.  Another user gets the not-found
    answer at both moments. *)
Theorem launch_then_poll (uid : string) (body : option Stream.Fields)
    (new_id : string) (now : Z) (projects : gmap string Stream.Project)
    (files : gmap string Stream.FileRow) (tbl tbl' : gmap string Analysis)
    (resp : Response) (t : Stream.Task) (e : Stream.Env) (report : Json) :
  Stream.POST (AuthUser uid) body new_id now projects files tbl
  = (resp, tbl', Some t) →
  new_id ≠ "" →
  Stream.answer e = FetchOk report →
  (∃ r, Status.GET (AuthUser uid) new_id tbl' = mkResponse 200 (StatusBody r)
     ∧ rep_status r = "pending" ∧ rep_progress r = 0
     ∧ rep_steps r = Stream.initialSteps ∧ rep_result r = JNull
     ∧ rep_question r = Stream.task_question t)
  ∧ (∃ r, Status.GET (AuthUser uid) new_id (Stream.run t e tbl')
          = mkResponse 200 (StatusBody r)
     ∧ rep_status r = "completed" ∧ rep_progress r = 100
     ∧ rep_current_step r = Some "creating_recommendations"
     ∧ rep_steps r = Stream.steps_completed ∧ rep_result r = report
     ∧ rep_missing_data r = []
     ∧ rep_question r = Stream.task_question t)
  ∧ (∀ other, other ≠ uid →
       Status.GET (AuthUser other) new_id tbl' = Status.not_found
       ∧ Status.GET (AuthUser other) new_id (Stream.run t e tbl')
         = Status.not_found).
Proof.
  intros (b & q & p & ids & -> & Hq & Hp & Hf & Hi & Hn & -> & ->)%stream_started
    Hid Ho.
  set (a := Stream.new_row uid p q ids now).
  assert (Ha : <[new_id := a]> tbl !! new_id = Some a) by apply lookup_insert_eq.
  assert (Hrun : Stream.run (Stream.mkTask new_id q ids) e (<[new_id := a]> tbl)
                 !! new_id
                 = Some (row_after a
                           (Stream.background (Stream.mkTask new_id q ids) e))).
  { by apply run_writes_lookup. }
  unfold Stream.background in Hrun.
  cbn [Stream.launchAnalysisAsync snd] in Hrun. rewrite Ho in Hrun.
  cbn [rejects app] in Hrun.
  unfold Status.GET. rewrite bool_decide_eq_false_2 by done.
  unfold select_single. rewrite Ha, Hrun. split; [|split].
  - cbn [user_id a Stream.new_row]. rewrite bool_decide_eq_true_2 by done.
    eexists. split; [reflexivity|]. by repeat split.
  - assert (user_id (row_after a
              [Stream.started; Stream.checking_files; Stream.analyzing_structure;
               Stream.completed; Stream.save_result report]) = uid) as Hu
      by by vm_compute.
    rewrite Hu, bool_decide_eq_true_2 by done.
    eexists. split; [reflexivity|]. by vm_compute.
  - intros other Hne.
    assert (user_id (row_after a
              [Stream.started; Stream.checking_files; Stream.analyzing_structure;
               Stream.completed; Stream.save_result report]) = uid) as ->
      by by vm_compute.
    cbn [user_id a Stream.new_row]. by rewrite bool_decide_eq_false_2.
Qed.

Lemma launch_then_poll_witness :
  let r := Stream.POST (AuthUser "u1") (Some Scenario.launch_body) "a9" 7
             Samples.projects Samples.files Samples.table in
  let e := Samples.env (FetchOk Scenario.verdict) in
  (∃ rep, Status.GET (AuthUser "u1") "a9" r.1.2 = mkResponse 200 (StatusBody rep)
     ∧ rep_status rep = "pending" ∧ rep_result rep = JNull)
  ∧ (∃ rep, Status.GET (AuthUser "u1") "a9"
              (Stream.run (Samples.launch_task "a9") e r.1.2)
            = mkResponse 200 (StatusBody rep)
     ∧ rep_status rep = "completed" ∧ rep_result rep = Scenario.verdict).
Proof.
  destruct (launch_then_poll "u1" (Some Scenario.launch_body) "a9" 7
              Samples.projects Samples.files Samples.table _ _ _
              (Samples.env (FetchOk Scenario.verdict)) Scenario.verdict eq_refl)
    as ((r0 & H0 & Hs0 & _ & _ & Hr0 & _)
        & (r1 & H1 & Hs1 & _ & _ & _ & Hr1 & _) & _); [done|reflexivity|].
  split; [by exists r0|by exists r1].
Defined.

Lemma continue_started uid id body tbl resp tbl' t :
  Continue.POST (AuthUser uid) id body tbl = (resp, tbl', Some t) →
  ∃ b a,
    body = Some b ∧ id ≠ "" ∧ tbl !! id = Some a ∧ user_id a = uid
    ∧ tbl' = <[id := apply_update a Continue.resume_update]> tbl
    ∧ t = Continue.mkTask id (question a) (file_ids a)
            (Continue.f_missing_data b).
Proof.
  unfold Continue.POST. case_bool_decide as Hid; [done|].
  destruct body as [b|]; [|done].
  destruct (select_single tbl id uid) as [a|] eqn:Hs; [|done].
  apply select_single_Some in Hs as [Ha Hu].
  unfold db_update. rewrite Ha. cbn [owned_by]. cbv zeta.
  rewrite check_row_resume. intros [= <- <- <-]. by exists b, a.
Qed.

(** X18.  From a resume to the report.  Once the task of a resume has
    run with an answer of the AI service that parses, the status route
    shows the job completed at progress 100 with that answer as the
    result and nothing missing; the step list is still the one the row
    had before the resume, which neither the route nor its task
    rewrites. *)
Theorem resume_then_poll (uid id : string) (body : option Continue.Fields)
    (tbl tbl' : gmap string Analysis) (resp : Response) (t : Continue.Task)
    (report : Json) :
  Continue.POST (AuthUser uid) id body tbl = (resp, tbl', Some t) →
  ∃ a r,
    tbl !! id = Some a
    ∧ Status.GET (AuthUser uid) id (Continue.run t (FetchOk report) tbl')
      = mkResponse 200 (StatusBody r)
    ∧ rep_status r = "completed" ∧ rep_progress r = 100
    ∧ rep_current_step r = Some "creating_recommendations"
    ∧ rep_result r = report ∧ rep_missing_data r = []
    ∧ rep_steps r = steps a ∧ rep_question r = question a.
Proof.
  intros (b & a & -> & Hid & Ha & Hu & -> & ->)%continue_started.
  exists a. unfold Status.GET. rewrite bool_decide_eq_false_2 by done.
  unfold select_single, Continue.run.
  erewrite run_writes_lookup by apply lookup_insert_eq.
  cbn [Continue.task_analysisId].
  assert (user_id (row_after (apply_update a Continue.resume_update)
            (Continue.background
               (Continue.mkTask id (question a) (file_ids a)
                  (Continue.f_missing_data b)) (FetchOk report))) = uid) as ->
    by by vm_compute.
  rewrite bool_decide_eq_true_2 by done.
  eexists. split; [exact Ha|]. split; [reflexivity|]. by vm_compute.
Qed.

Lemma resume_then_poll_witness :
  let r := Continue.POST (AuthUser "u1") "a1"
             (Some (Continue.mkFields (Some (JObj [("salary", JNum 60000)]))))
             Samples.table in
  ∃ rep, Status.GET (AuthUser "u1") "a1"
           (Continue.run (Samples.resume_task "a1") (FetchOk Scenario.verdict)
              r.1.2)
         = mkResponse 200 (StatusBody rep)
    ∧ rep_status rep = "completed" ∧ rep_result rep = Scenario.verdict
    ∧ rep_steps rep = Stream.initialSteps.
Proof.
  destruct (resume_then_poll "u1" "a1"
              (Some (Continue.mkFields (Some (JObj [("salary", JNum 60000)]))))
              Samples.table _ _ _ Scenario.verdict eq_refl)
    as (a & rep & Ha & H & Hs & _ & _ & Hr & _ & Hst & _).
  assert (a = Samples.waiting_job) as -> by (by injection Ha).
  exists rep. split; [|by repeat split].
  rewrite <- H. reflexivity.
Defined.

(** X19.  Every step list the launch task writes has the six steps of
    the list the route created the row with, same names and same labels
    in the same order, and so has the list [steps_at] makes for any
    position and message. *)
Theorem task_steps_keep_names (t : Stream.Task) (e : Stream.Env)
    (u : Update) (written : list AnalysisStep) (k : nat) (msg : string) :
  (u ∈ Stream.background t e → upd_steps u = Some written →
     step_name <$> written = step_name <$> Stream.initialSteps
     ∧ step_label <$> written = step_label <$> Stream.initialSteps)
  ∧ step_name <$> Stream.steps_at k msg = step_name <$> Stream.initialSteps
  ∧ step_label <$> Stream.steps_at k msg = step_label <$> Stream.initialSteps.
Proof.
  split; [|split].
  - intros Hin Hs. destruct e as [url fd o].
    assert (Hall : Forall (λ u, ∀ w, upd_steps u = Some w →
                      step_name <$> w = step_name <$> Stream.initialSteps
                      ∧ step_label <$> w = step_label <$> Stream.initialSteps)
                     (Stream.background t (Stream.mkEnv url fd o))).
    { unfold Stream.background.
      destruct o; cbn [Stream.launchAnalysisAsync snd Stream.answer rejects app];
        repeat (first [apply List.Forall_nil | apply List.Forall_cons]);
        intros w Hw; first [discriminate Hw | injection Hw as <-; by vm_compute]. }
    rewrite Forall_forall in Hall. by apply (Hall u).
  - unfold Stream.steps_at. rewrite fmap_imap. unfold compose. simpl.
    done.
  - unfold Stream.steps_at. rewrite fmap_imap. unfold compose. simpl.
    done.
Qed.

(** ** The listing route *)

Section listing.
Import TabsContext.

#[local] Instance newer_total : Total newer.
Proof. intros x y. unfold newer. lia. Qed.

#[local] Instance newer_trans : Transitive newer.
Proof. intros x y z. unfold newer. lia. Qed.

Lemma select_project_analyses_NoDup tbl u p :
  NoDup (select_project_analyses tbl u p).*1.
Proof.
  unfold select_project_analyses. rewrite merge_sort_Permutation.
  apply NoDup_fmap_fst.
  - intros i a b [_ Ha]%list_elem_of_filter [_ Hb]%list_elem_of_filter.
    apply elem_of_map_to_list in Ha, Hb. congruence.
  - apply NoDup_filter, NoDup_map_to_list.
Qed.

(** X20.  The listing route answers with rows only for a project of the
    caller, and then the rows are exactly the caller's jobs of that
    project, each once, newest first; they include every stored
    analysis the header shows after a reload that goes through. *)
Theorem listing_is_the_callers_project (uid : string)
    (projectId : option string) (projects : gmap string Stream.Project)
    (tbl : gmap string Analysis) (rows : list (string * Analysis)) :
  Analyses.GET (AuthUser uid) projectId projects tbl = inr rows →
  ∃ p pr,
    projectId = Some p ∧ projects !! p = Some pr
    ∧ Stream.proj_user_id pr = uid
    ∧ (∀ id a, (id, a) ∈ rows
         ↔ tbl !! id = Some a ∧ user_id a = uid ∧ project_id a = p)
    ∧ NoDup rows.*1
    ∧ StronglySorted newer rows
    ∧ (∀ w id, analyses w = tbl → formats uid p w = true →
         tabId_of id ∈ active_listing (loadAnalyses (Some uid) (Some p) w) →
         id ∈ rows.*1).
Proof.
  unfold Analyses.GET. destruct projectId as [[|c p]|]; [done| |done].
  unfold Stream.select_project.
  destruct (projects !! String c p) as [pr|] eqn:Hpr; [|done].
  case_bool_decide as Hu; [|done]. intros [= <-].
  exists (String c p), pr. split; [done|]. split; [done|]. split; [done|].
  split; [apply select_project_analyses_spec|].
  split; [apply select_project_analyses_NoDup|].
  split; [apply StronglySorted_merge_sort; apply _|].
  intros w id <- Hfmt [(a & Ha) _]%loadAnalyses_listing; [|done].
  apply list_elem_of_fmap. exists (id, a).
  split; [done|by apply select_project_analyses_spec].
Qed.

Lemma listing_is_the_callers_project_witness :
  ∃ rows, Analyses.GET (AuthUser "u1") (Some "p1") Samples.projects Samples.table
          = inr rows
    ∧ ("a2", Samples.completed_job) ∈ rows
    ∧ NoDup rows.*1.
Proof.
  destruct (Analyses.GET (AuthUser "u1") (Some "p1") Samples.projects
              Samples.table) as [resp|rows] eqn:E; [discriminate|].
  exists rows. split; [done|].
  destruct (listing_is_the_callers_project "u1" (Some "p1") Samples.projects
              Samples.table rows E) as (p & pr & Hp & _ & _ & Hrows & Hnd & _).
  injection Hp as <-. split; [by apply Hrows|done].
Defined.

End listing.

(** ** The files sent to the AI service *)

(** X21.  The files sent to the AI service by the task of a launch are
    files the launch checked: each one is named by the request, exists,
    belongs to the caller and to the project of the new job, and comes
    with the object stored at its path; none is sent twice, and a named
    file is left out only when the bucket has no object for it. *)
Theorem service_receives_checked_files (uid : string)
    (body : option Stream.Fields) (new_id : string) (now : Z)
    (projects : gmap string Stream.Project)
    (files : gmap string Download.StoredFile) (bucket : gmap string string)
    (tbl tbl' : gmap string Analysis) (resp : Response) (t : Stream.Task)
    (url : string) (o : FetchOutcome) :
  Stream.POST (AuthUser uid) body new_id now projects
    (Download.sf_row <$> files) tbl = (resp, tbl', Some t) →
  let sent :=
    Download.downloadFilesForBackend (Stream.task_fileIds t) files bucket in
  req_files_data
    (Stream.launchAnalysisAsync t (Download.env url t files bucket o)).1
  = nonempty_or_undefined sent
  ∧ NoDup (fd_file_id <$> sent)
  ∧ (∀ fd, fd ∈ sent →
       ∃ f a, files !! fd_file_id fd = Some f
         ∧ fd_file_id fd ∈ Stream.task_fileIds t
         ∧ bucket !! Download.sf_storage_path f = Some (fd_content_base64 fd)
         ∧ Stream.file_user_id (Download.sf_row f) = uid
         ∧ tbl' !! new_id = Some a
         ∧ Stream.file_project_id (Download.sf_row f) = project_id a)
  ∧ (∀ id, id ∈ Stream.task_fileIds t →
       id ∈ fd_file_id <$> sent
       ↔ ∃ f, files !! id = Some f
            ∧ is_Some (bucket !! Download.sf_storage_path f)).
Proof.
  intros (b & q & p & ids & -> & Hq & Hp & Hf & Hi & Hn & -> & ->)%stream_started
    sent.
  destruct (files_ok_ids _ _ _ _ _ Hf Hi) as [Hnd Hall].
  cbn [Stream.task_fileIds] in sent.
  assert (Hsent : ∀ fd, fd ∈ sent ↔
            fd_file_id fd ∈ ids
            ∧ ∃ f, files !! fd_file_id fd = Some f
                ∧ bucket !! Download.sf_storage_path f
                  = Some (fd_content_base64 fd)).
  { intros fd. subst sent. unfold Download.downloadFilesForBackend.
    destruct ids as [|i0 ids'].
    { split; [by intros ?%elem_of_nil|by intros [?%elem_of_nil _]]. }
    rewrite list_elem_of_omap. split.
    - intros ([i f] & [Hin Hmap]%list_elem_of_filter & Hfd).
      apply elem_of_map_to_list in Hmap. simpl in *.
      destruct (bucket !! Download.sf_storage_path f) as [c|] eqn:Hb; [|done].
      injection Hfd as <-. simpl. split; [done|]. by exists f.
    - intros [Hin (f & Hfile & Hb)]. exists (fd_file_id fd, f). split.
      + apply list_elem_of_filter. split; [done|].
        by apply elem_of_map_to_list.
      + simpl. rewrite Hb. by destruct fd. }
  split; [done|]. split; [|split].
  - subst sent. unfold Download.downloadFilesForBackend.
    destruct ids as [|i0 ids']; [constructor|].
    set (l := filter _ (map_to_list files)).
    assert (Hl : NoDup l.*1).
    { apply NoDup_fmap_fst.
      - intros i x y [_ Hx]%list_elem_of_filter [_ Hy]%list_elem_of_filter.
        apply elem_of_map_to_list in Hx, Hy. congruence.
      - apply NoDup_filter, NoDup_map_to_list. }
    clearbody l. induction l as [|[i f] l IH]; [constructor|].
    simpl in *. apply NoDup_cons in Hl as [Hi0 Hl].
    destruct (bucket !! Download.sf_storage_path f) as [c|]; simpl; [|by apply IH].
    apply NoDup_cons. split; [|by apply IH].
    intros (fd & Hfd & ([i' f'] & Hin' & Hsome)%list_elem_of_omap)%list_elem_of_fmap.
    simpl in Hsome.
    destruct (bucket !! Download.sf_storage_path f') as [c'|]; [|done].
    injection Hsome as <-. simpl in Hfd. subst i'.
    apply Hi0, list_elem_of_fmap. by exists (i, f').
  - intros fd [Hin (f & Hfile & Hb)]%Hsent.
    exists f, (Stream.new_row uid p q ids now).
    specialize (Hall _ Hin). unfold Stream.file_matches in Hall.
    rewrite lookup_fmap, Hfile in Hall. simpl in Hall.
    apply andb_true_iff in Hall as [Hu%bool_decide_eq_true Hpj%bool_decide_eq_true].
    split; [done|]. split; [done|]. split; [done|]. split; [done|].
    split; [apply lookup_insert_eq|done].
  - intros id Hin. rewrite list_elem_of_fmap. split.
    + intros (fd & -> & [_ (f & Hfile & Hb)]%Hsent). exists f. by rewrite Hb.
    + intros (f & Hfile & [c Hb]). exists (mkFileData id c).
      split; [done|]. apply Hsent. simpl. split; [done|]. by exists f.
Qed.

Lemma service_receives_checked_files_witness :
  let sent := Download.downloadFilesForBackend ["f1"; "f2"]
                Scenario.stored_files Scenario.bucket in
  NoDup (fd_file_id <$> sent)
  ∧ "f1" ∈ fd_file_id <$> sent
  ∧ ("f2" ∉ fd_file_id <$> sent).
Proof.
  destruct (service_receives_checked_files "u1" (Some Scenario.launch_body)
              "a9" 7 Samples.projects Scenario.stored_files Scenario.bucket
              Samples.table _ _ _ "http://localhost:3000" FetchThrows eq_refl)
    as (_ & Hnd & _ & Hiff).
  assert (H1 : "f1" ∈ ["f1"; "f2"]) by left.
  assert (H2 : "f2" ∈ ["f1"; "f2"]) by (right; left).
  split; [exact Hnd|]. split.
  - apply (Hiff "f1" H1). eexists. split; [reflexivity|]. by eexists.
  - intros Hin. apply (Hiff "f2" H2) in Hin as (f & Hf & Hb).
    injection Hf as <-. by destruct Hb.
Defined.

(** ** The synchronous route *)

(** X22.  The synchronous route checks a request as the stream route
    does: it leaves the AI service uncalled exactly when the stream
    route answers 400 or 403 or fails on the question, it then writes
    nothing, and its answer is the one of the stream route, but for the
    message of the 500 answer. *)
Theorem sync_route_checks_like_stream (uid : string)
    (body : option Stream.Fields) (new_id : string) (now : Z)
    (projects : gmap string Stream.Project)
    (files : gmap string Stream.FileRow) (tbl : gmap string Analysis)
    (backend : Analyze.Backend) :
  let s := Stream.POST (AuthUser uid) body new_id now projects files tbl in
  let a := Analyze.POST (AuthUser uid) body new_id now projects files tbl
             backend in
  (a.2 = None
   ↔ http_status s.1.1 = 400 ∨ http_status s.1.1 = 403
     ∨ s.1.1 = Stream.failed_to_start)
  ∧ (a.2 = None →
       a.1.2 = tbl
       ∧ (a.1.1 = Analyze.Plain s.1.1
          ∨ s.1.1 = Stream.failed_to_start ∧ a.1.1 = Analyze.failed))
  ∧ (∀ req, a.2 = Some req →
       ∃ b, body = Some b
         ∧ Stream.check_question (Stream.f_question b)
           = Stream.QuestionOk (Analyze.req_question req)
         ∧ (http_status s.1.1 = 200 ∨ http_status s.1.1 = 500)).
Proof.
  cbv zeta. unfold Stream.POST, Analyze.POST.
  assert (Hno : ∀ (sr : Response) (ar : Analyze.Answer),
    (http_status sr = 400 ∨ http_status sr = 403 ∨ sr = Stream.failed_to_start) →
    (ar = Analyze.Plain sr ∨ sr = Stream.failed_to_start ∧ ar = Analyze.failed) →
    ((ar, tbl, @None Analyze.Request).2 = None
     ↔ http_status (sr, tbl, @None Stream.Task).1.1 = 400
       ∨ http_status (sr, tbl, @None Stream.Task).1.1 = 403
       ∨ (sr, tbl, @None Stream.Task).1.1 = Stream.failed_to_start)
    ∧ ((ar, tbl, @None Analyze.Request).2 = None →
       (ar, tbl, @None Analyze.Request).1.2 = tbl
       ∧ ((ar, tbl, @None Analyze.Request).1.1
          = Analyze.Plain (sr, tbl, @None Stream.Task).1.1
          ∨ (sr, tbl, @None Stream.Task).1.1 = Stream.failed_to_start
            ∧ (ar, tbl, @None Analyze.Request).1.1 = Analyze.failed))
    ∧ (∀ req, (ar, tbl, @None Analyze.Request).2 = Some req →
         ∃ b, body = Some b
           ∧ Stream.check_question (Stream.f_question b)
             = Stream.QuestionOk (Analyze.req_question req)
           ∧ (http_status (sr, tbl, @None Stream.Task).1.1 = 200
              ∨ http_status (sr, tbl, @None Stream.Task).1.1 = 500))).
  { intros sr ar H1 H2. cbn [fst snd]. split; [done|]. split; [done|].
    by intros req [=]. }
  destruct body as [b|]; [|apply Hno; auto].
  destruct (Stream.check_question _) as [| |q] eqn:Hq; [apply Hno; auto..|].
  destruct (negb (truthy _)); [apply Hno; auto|].
  destruct (Stream.select_project _ _ _) as [p|]; [|apply Hno; auto].
  destruct (negb (Stream.files_ok _ _ _ _)); [apply Hno; auto|].
  clear Hno. cbv zeta.
  destruct backend as [|st| |result];
    destruct (Stream.file_ids_or_empty _) as [ids|];
    destruct (tbl !! new_id); cbn [fst snd http_status];
    (split; [split; [done|intros [?|[?|?]]; done]|]);
    (split; [done|]); intros req [= <-]; exists b; auto.
Qed.

(** X23.  A job saved by the synchronous route has its result stored,
    but the row has the default status: the status route reports it to
    its owner as pending at progress 0, with no steps and a null
    result, while the listing route returns the row with the result. *)
Theorem sync_saved_job_is_reported_pending (uid : string)
    (body : option Stream.Fields) (new_id id : string) (now : Z)
    (projects : gmap string Stream.Project)
    (files : gmap string Stream.FileRow) (tbl tbl' : gmap string Analysis)
    (backend : Analyze.Backend) (result0 : Json)
    (req : option Analyze.Request) :
  Analyze.POST (AuthUser uid) body new_id now projects files tbl backend
  = (Analyze.Result result0 (Some id), tbl', req) →
  id ≠ "" →
  ∃ a r,
    tbl !! id = None ∧ tbl' !! id = Some a
    ∧ result a = result0 ∧ backend = Analyze.Parsed result0
    ∧ user_id a = uid ∧ status a = "pending"
    ∧ Status.GET (AuthUser uid) id tbl' = mkResponse 200 (StatusBody r)
    ∧ rep_status r = "pending" ∧ rep_progress r = 0 ∧ rep_steps r = []
    ∧ rep_current_step r = None ∧ rep_result r = JNull
    ∧ ∃ rows, Analyses.GET (AuthUser uid) (Some (project_id a)) projects tbl'
              = inr rows
        ∧ (id, a) ∈ rows.
Proof.
  unfold Analyze.POST. destruct body as [b|]; [|done].
  destruct (Stream.check_question _) as [| |q] eqn:Hq; [done..|].
  destruct (truthy (Stream.f_project_id b)) eqn:Ht; [|done]. cbn [negb].
  destruct (Stream.select_project _ _ _) as [p|] eqn:Hp; [|done].
  destruct (negb (Stream.files_ok _ _ _ _)); [done|]. cbv zeta.
  destruct backend as [|st| |result]; [done..|].
  destruct (Stream.file_ids_or_empty _) as [ids|]; [|done].
  destruct (tbl !! new_id) eqn:Hn; [done|].
  intros [= <- <- <- _] Hid.
  exists (Analyze.saved_row uid p q ids result now). eexists.
  split; [done|]. split; [apply lookup_insert_eq|].
  split; [done|]. split; [done|]. split; [done|]. split; [done|].
  unfold Status.GET. rewrite bool_decide_eq_false_2 by done.
  unfold select_single. rewrite lookup_insert_eq.
  cbn [user_id Analyze.saved_row]. rewrite bool_decide_eq_true_2 by done.
  split; [reflexivity|]. do 5 (split; [done|]).
  unfold Stream.select_project in Hp.
  destruct (Stream.f_project_id b) as [[| | |p'| |]|]; try done.
  destruct (projects !! p') as [pr|] eqn:Hpr; [|done].
  case_bool_decide as Hu; [|done]. injection Hp as <-.
  unfold Analyses.GET. cbn [project_id Analyze.saved_row].
  destruct p' as [|c p']; [done|].
  unfold Stream.select_project. rewrite Hpr.
  rewrite bool_decide_eq_true_2 by done. eexists. split; [done|].
  apply select_project_analyses_spec. by rewrite lookup_insert_eq.
Qed.

Lemma sync_saved_job_is_reported_pending_witness :
  let r := Analyze.POST (AuthUser "u1") (Some Scenario.launch_body) "a9" 7
             Samples.projects Samples.files Samples.table
             (Analyze.Parsed Scenario.verdict) in
  ∃ a rep, r.1.2 !! "a9" = Some a ∧ result a = Scenario.verdict
    ∧ Status.GET (AuthUser "u1") "a9" r.1.2 = mkResponse 200 (StatusBody rep)
    ∧ rep_status rep = "pending" ∧ rep_result rep = JNull.
Proof.
  destruct (sync_saved_job_is_reported_pending "u1" (Some Scenario.launch_body)
              "a9" "a9" 7 Samples.projects Samples.files Samples.table _
              (Analyze.Parsed Scenario.verdict) Scenario.verdict _ eq_refl)
    as (a & rep & _ & Ha & Hr & _ & _ & _ & Hg & Hs & _ & _ & _ & Hn & _);
    [done|].
  by exists a, rep.
Defined.

(** ** The chat route *)

Lemma or_else_truthy v d : truthy (Some d) = true → truthy (Some (Chat.or_else v d)) = true.
Proof.
  intros Hd. unfold Chat.or_else. destruct v as [j|]; [|done].
  by destruct (truthy (Some j)) eqn:Hj.
Qed.

(** X24.  The chat route calls the AI service only about a job of the
    caller: the request it sends carries that job's id and question and
    the caller's message, a non-empty string, and a result that is never
    missing; any other request is answered 400, 404 or 500 without a
    call.  A reply is given only after a call, and its text is never
    empty or missing. *)
Theorem chat_reaches_own_jobs_only (uid : string) (body : option Chat.Fields)
    (tbl : gmap string Analysis) (backend : Chat.Backend) :
  let r := Chat.POST (AuthUser uid) body tbl backend in
  (∀ req, r.2 = Some req →
     ∃ b a, body = Some b
       ∧ Chat.f_analysis_id b = Some (JStr (Chat.req_analysis_id req))
       ∧ Chat.f_message b = Some (JStr (Chat.req_message req))
       ∧ Chat.req_message req ≠ ""
       ∧ tbl !! Chat.req_analysis_id req = Some a ∧ user_id a = uid
       ∧ Chat.req_question req = question a
       ∧ truthy (Some (Chat.req_analysis_result req)) = true)
  ∧ (r.2 = None →
     ∃ resp, r.1 = Chat.Plain resp
       ∧ (http_status resp = 400 ∨ http_status resp = 404
          ∨ http_status resp = 500))
  ∧ (∀ reply, r.1 = Chat.Replied reply →
       is_Some r.2 ∧ truthy (Some (Chat.response reply)) = true
       ∧ ∃ chatResponse, backend = Chat.Parsed chatResponse
           ∧ chatResponse ≠ JNull).
Proof.
  cbv zeta. unfold Chat.POST.
  assert (Hno : ∀ resp,
    http_status resp = 400 ∨ http_status resp = 404 ∨ http_status resp = 500 →
    (∀ req, (Chat.Plain resp, @None Chat.Request).2 = Some req →
       ∃ b a, body = Some b
         ∧ Chat.f_analysis_id b = Some (JStr (Chat.req_analysis_id req))
         ∧ Chat.f_message b = Some (JStr (Chat.req_message req))
         ∧ Chat.req_message req ≠ ""
         ∧ tbl !! Chat.req_analysis_id req = Some a ∧ user_id a = uid
         ∧ Chat.req_question req = question a
         ∧ truthy (Some (Chat.req_analysis_result req)) = true)
    ∧ ((Chat.Plain resp, @None Chat.Request).2 = None →
       ∃ resp', (Chat.Plain resp, @None Chat.Request).1 = Chat.Plain resp'
         ∧ (http_status resp' = 400 ∨ http_status resp' = 404
            ∨ http_status resp' = 500))
    ∧ (∀ reply, (Chat.Plain resp, @None Chat.Request).1 = Chat.Replied reply →
         is_Some (Chat.Plain resp, @None Chat.Request).2
         ∧ truthy (Some (Chat.response reply)) = true
         ∧ ∃ chatResponse, backend = Chat.Parsed chatResponse
             ∧ chatResponse ≠ JNull)).
  { intros resp Hst. cbn [fst snd]. split; [by intros req [=]|].
    split; [|by intros reply [=]]. intros _. by exists resp. }
  destruct body as [b|]; [|apply Hno; auto].
  destruct (Chat.f_message b) as [[| | |msg| |]|] eqn:Hm;
    cbn [Stream.check_question]; try (apply Hno; by auto);
    try (destruct (Chat.f_analysis_id b) as [[| | |[|c0 id0]| |]|];
         apply Hno; by auto).
  case_bool_decide as Hmsg.
  { destruct (Chat.f_analysis_id b) as [[| | |[|c0 id0]| |]|];
      apply Hno; by auto. }
  destruct (Chat.f_analysis_id b) as [[| | |[|c id]| |]|] eqn:Hid;
    try (apply Hno; by auto).
  destruct (select_single tbl (String c id) uid) as [a|] eqn:Hs;
    [|apply Hno; by auto].
  clear Hno. apply select_single_Some in Hs as [Ha Hu]. cbn [fst snd].
  split; [|split; [done|]].
  - intros req [= <-]. exists b, a.
    cbn [Chat.req_analysis_id Chat.req_question Chat.req_message
         Chat.req_analysis_result].
    split; [done|]. split; [done|]. split; [done|]. split; [done|].
    split; [done|]. split; [done|]. split; [done|].
    by apply (or_else_truthy (Some (result a)) (JObj [])).
  - intros reply Hr. split; [done|].
    destruct backend as [| | |cr]; try discriminate.
    assert (cr ≠ JNull
            ∧ Chat.response reply
              = Chat.or_else (Chat.get "response" cr)
                  (JStr "Je n'ai pas pu générer de réponse.")) as [Hcr ->].
    { destruct cr; try discriminate; by injection Hr as <-. }
    split; [by apply or_else_truthy|]. by exists cr.
Qed.

(** ** Hypothesis chips *)

Section chips.
Import CFOAssistant.

Lemma hypothesesData_foldl hyps k : ∀ m : gmap string Value,
  foldl (λ m hyp, <[hyp_id hyp := hyp_value hyp]> m) m hyps !! k
  = match last (filter (λ hyp, hyp_id hyp = k) hyps) with
    | Some hyp => Some (hyp_value hyp)
    | None => m !! k
    end.
Proof.
  induction hyps as [|h hyps IH]; intros m; [done|].
  simpl. rewrite IH. rewrite filter_cons. case_decide as Hk.
  - rewrite last_cons. destruct (last (filter _ hyps)); [done|].
    by rewrite <- Hk, lookup_insert_eq.
  - destruct (last (filter _ hyps)); [done|]. by rewrite lookup_insert_ne.
Qed.

Lemma hypothesesData_lookup hyps k :
  hypothesesData hyps !! k
  = hyp_value <$> last (filter (λ hyp, hyp_id hyp = k) hyps).
Proof.
  unfold hypothesesData. rewrite hypothesesData_foldl.
  by destruct (last _).
Qed.

(** X25.  In the mapping sent to the continue route, an id has the
    value of the last chip that carries it, and no value when no chip
    does. *)
Theorem hypothesesData_last_wins (hyps : list HypothesisChip) (k : string) :
  (∀ l1 h l2, hyps = (l1 ++ h :: l2)%list → hyp_id h = k →
     k ∉ hyp_id <$> l2 → hypothesesData hyps !! k = Some (hyp_value h))
  ∧ (k ∉ hyp_id <$> hyps → hypothesesData hyps !! k = None).
Proof.
  assert (Hnone : ∀ l, k ∉ hyp_id <$> l →
            filter (λ hyp, hyp_id hyp = k) l = []).
  { intros l Hl. destruct (filter _ l) as [|x l'] eqn:E; [done|].
    assert (Hx : x ∈ filter (λ hyp, hyp_id hyp = k) l) by (rewrite E; left).
    apply list_elem_of_filter in Hx as [Hk Hx]. destruct Hl.
    apply list_elem_of_fmap. by exists x. }
  split.
  - intros l1 h l2 -> Hk Hl2. rewrite hypothesesData_lookup.
    rewrite filter_app, filter_cons, decide_True by done.
    rewrite (Hnone l2 Hl2). by rewrite last_snoc.
  - intros Hl. rewrite hypothesesData_lookup. by rewrite (Hnone hyps Hl).
Qed.

(** X26.  Editing a chip in the hypothesis bar of a stored analysis
    always relaunches the analysis, the new value being the old one or
    not: the tab takes the edited list, which has the same ids in the
    same order, and the continue route is sent the mapping of that list,
    in which the edited id has the new value and every other id the
    value it had.  In a tab that is not the tab of a stored analysis the
    list is updated and nothing is sent. *)
Theorem chip_edit_always_relaunches (id tabId : string)
    (hypothesis : list HypothesisChip) (chipId : string) (newValue : Value) :
  id ≠ "" →
  let edited := HypothesisBar.updated hypothesis chipId newValue in
  HypothesisBar.handleUpdate (TabsContext.tabId_of id) hypothesis chipId newValue
  = [UpdateTabHypothesis (TabsContext.tabId_of id) edited;
     FetchContinue id (hypothesesData edited)]
  ∧ hyp_id <$> edited = hyp_id <$> hypothesis
  ∧ (chipId ∈ hyp_id <$> hypothesis →
     hypothesesData edited !! chipId = Some newValue)
  ∧ (∀ k, k ≠ chipId →
       hypothesesData edited !! k = hypothesesData hypothesis !! k)
  ∧ (startsWith "analysis-" tabId = false →
     HypothesisBar.handleUpdate tabId hypothesis chipId newValue
     = [UpdateTabHypothesis tabId edited]).
Proof.
  intros Hid edited.
  assert (Hids : hyp_id <$> edited = hyp_id <$> hypothesis).
  { subst edited. unfold HypothesisBar.updated. rewrite <- list_fmap_compose.
    apply list_fmap_ext. intros i x _. simpl. by case_bool_decide. }
  assert (Hfilter : ∀ k,
    filter (λ hyp, hyp_id hyp = k) edited
    = (λ chip, if bool_decide (hyp_id chip = chipId)
               then mkChip (hyp_id chip) (hyp_label chip) newValue (hyp_type chip)
               else chip) <$> filter (λ hyp, hyp_id hyp = k) hypothesis).
  { intros k. subst edited. unfold HypothesisBar.updated. clear Hids.
    induction hypothesis as [|h l IH]; [done|].
    rewrite fmap_cons, !filter_cons, IH.
    assert (hyp_id (if bool_decide (hyp_id h = chipId)
                    then mkChip (hyp_id h) (hyp_label h) newValue (hyp_type h)
                    else h) = hyp_id h) as -> by by case_bool_decide.
    by case_decide. }
  split; [|split; [done|split; [|split]]].
  - unfold HypothesisBar.handleUpdate, analysisId. cbn [tab_id].
    rewrite startsWith_tabId, remove_first_tabId.
    by destruct id.
  - intros Hin. rewrite hypothesesData_lookup, Hfilter.
    rewrite fmap_last.
    destruct (last (filter (λ hyp, hyp_id hyp = chipId) hypothesis))
      as [h|] eqn:Hl.
    + assert (Hh : h ∈ filter (λ hyp, hyp_id hyp = chipId) hypothesis).
      { apply last_Some in Hl as [l' ->]. set_solver. }
      apply list_elem_of_filter in Hh as [Hh _]. simpl.
      by rewrite bool_decide_eq_true_2.
    + apply last_None in Hl. apply list_elem_of_fmap in Hin as (h & -> & Hin).
      assert (h ∈ filter (λ hyp, hyp_id hyp = hyp_id h) hypothesis)
        by by apply list_elem_of_filter.
      rewrite Hl in H. by apply elem_of_nil in H.
  - intros k Hk. rewrite !hypothesesData_lookup, Hfilter, fmap_last.
    destruct (last (filter (λ hyp, hyp_id hyp = k) hypothesis))
      as [h|] eqn:Hl; [|done].
    assert (Hh : h ∈ filter (λ hyp, hyp_id hyp = k) hypothesis).
    { apply last_Some in Hl as [l' ->]. set_solver. }
    apply list_elem_of_filter in Hh as [Hh _]. simpl.
    rewrite bool_decide_eq_false_2; [done|congruence].
  - intros Hs. unfold HypothesisBar.handleUpdate, analysisId. cbn [tab_id].
    by rewrite Hs.
Qed.

Lemma chip_edit_always_relaunches_witness :
  HypothesisBar.handleUpdate "analysis-a2" Samples.hypotheses "salary"
    (CFOAssistant.VNumber 60000)
  = [CFOAssistant.UpdateTabHypothesis "analysis-a2"
       (HypothesisBar.updated Samples.hypotheses "salary"
          (CFOAssistant.VNumber 60000));
     CFOAssistant.FetchContinue "a2"
       (CFOAssistant.hypothesesData
          (HypothesisBar.updated Samples.hypotheses "salary"
             (CFOAssistant.VNumber 60000)))]
  ∧ HypothesisBar.updated Samples.hypotheses "salary" (CFOAssistant.VNumber 60000)
    = Samples.hypotheses.
Proof.
  destruct (chip_edit_always_relaunches "a2" "decision-17" Samples.hypotheses
              "salary" (CFOAssistant.VNumber 60000)) as (H & _); [done|].
  split; [exact H|reflexivity].
Defined.

(** X27.  The chat needs a stored analysis.  From a temporary tab, as
    [createDecisionTab] names it, a message gets the not-available
    answer and no request leaves; from the tab of the stored analysis
    [id] the chat route is asked about [id] with the trimmed message and
    the hypotheses of the tab.  A blank message, or one typed while a
    request is running, does nothing. *)
Theorem chat_needs_a_stored_analysis (input : string) (now : Z) (id : string)
    (hyps : option (list HypothesisChip)) (chat : ChatOutcome) (ok : bool) :
  trim input ≠ "" → id ≠ "" →
  handleSubmit input false (mkTab ("decision-" +:+ pretty now) hyps) chat ok
  = [AddChatMessage ("decision-" +:+ pretty now) "assistant"
       "❌ Cette analyse n'est pas encore disponible pour le chat. Veuillez attendre que l'analyse soit terminée."]
  ∧ (∃ rest,
       handleSubmit input false (mkTab (TabsContext.tabId_of id) hyps) chat ok
       = [AddChatMessage (TabsContext.tabId_of id) "user" (trim input);
          AddChatMessage (TabsContext.tabId_of id) "assistant"
            "💭 Réflexion en cours...";
          FetchChat id (trim input) (default [] hyps)] ++ rest)%list
  ∧ (∀ tab, handleSubmit input true tab chat ok = [])
  ∧ (∀ blank loading tab,
       trim blank = "" → handleSubmit blank loading tab chat ok = []).
Proof.
  intros Hin Hid. split; [|split; [|split]].
  - unfold handleSubmit. rewrite bool_decide_eq_false_2 by done. by cbn.
  - unfold handleSubmit. rewrite bool_decide_eq_false_2 by done.
    cbn [orb]. unfold analysisId. cbn [tab_id tab_hypothesis].
    rewrite startsWith_tabId, remove_first_tabId.
    destruct id as [|c id]; [done|]. by eexists.
  - intros tab. unfold handleSubmit. by rewrite orb_true_r.
  - intros blank loading tab Hb. unfold handleSubmit.
    by rewrite bool_decide_eq_true_2.
Qed.

Lemma chat_needs_a_stored_analysis_witness :
  CFOAssistant.handleSubmit " et si ? " false
    (CFOAssistant.mkTab ("decision-" +:+ pretty 17) None)
    (CFOAssistant.ChatFails "offline") true
  = [CFOAssistant.AddChatMessage ("decision-" +:+ pretty 17) "assistant"
       "❌ Cette analyse n'est pas encore disponible pour le chat. Veuillez attendre que l'analyse soit terminée."].
Proof.
  destruct (chat_needs_a_stored_analysis " et si ? " 17 "a2" None
              (CFOAssistant.ChatFails "offline") true) as (H & _);
    [by vm_compute|done|exact H].
Defined.

(** A message made of no-break spaces is blank. *)
Example no_break_space_is_blank :
  let nbsp := String (ascii_of_nat 194) (String (ascii_of_nat 160) "") in
  trim (nbsp +:+ nbsp) = ""
  ∧ trim (nbsp +:+ "et si ?" +:+ nbsp) = "et si ?"
  ∧ ∀ loading tab chat ok,
      handleSubmit (nbsp +:+ nbsp) loading tab chat ok = [].
Proof. done. Qed.

End chips.

(** ** Starting and stopping the polling *)

Section polling_start.
Import AnalysisProgress.

(** X28.  [startPolling] restarts the clock and installs the interval,
    and sends the first request unless a poll is in flight.  Whatever
    the clock showed before, the answer to that first request, when it
    reports a job that is neither completed nor in error, keeps the
    interval running if it comes within five minutes and ends the
    polling with the timeout message if it comes later.  Without an id
    nothing happens, and [stopPolling] clears the interval and the
    loading flag and keeps the last report and error. *)
Theorem start_polling_restarts_clock (c : ascii) (id : string)
    (now now' : Z) (data : StatusReport) (h : Hook) :
  now ≠ 0 → ¬ terminal data →
  let s := startPolling (Some (String c id)) now h in
  let h' := pollStatus_end (Ok data) now' s.1 in
  s.2 = negb (isPolling h)
  ∧ pollingInterval s.1 = true ∧ startTime s.1 = Some now
  ∧ (isPolling h = false →
     status h' = Some data ∧ isPolling h' = false
     ∧ (now' - now ≤ MAX_POLLING_TIME →
        pollingInterval h' = true ∧ error h' = None)
     ∧ (MAX_POLLING_TIME < now' - now →
        pollingInterval h' = false ∧ isLoading h' = false
        ∧ error h'
          = Some "Analysis timeout: The analysis is taking longer than expected."))
  ∧ startPolling None now h = (h, false)
  ∧ startPolling (Some "") now h = (h, false)
  ∧ pollingInterval (stopPolling h) = false
  ∧ isLoading (stopPolling h) = false
  ∧ status (stopPolling h) = status h ∧ error (stopPolling h) = error h.
Proof.
  intros Hnow Hnt s h'. subst h' s. unfold startPolling, pollStatus_begin.
  cbn [isPolling]. destruct (isPolling h) eqn:Hp; cbn [fst snd negb].
  - by repeat split.
  - split; [done|]. split; [done|]. split; [done|].
    split; [|by repeat split]. intros _. unfold pollStatus_end.
    destruct (_ || _) eqn:Hterm; [by apply terminal_test in Hterm|].
    cbn [startTime].
    assert ((now =? 0) = false) as -> by by apply Z.eqb_neq.
    cbn [negb andb].
    destruct (MAX_POLLING_TIME <? now' - now) eqn:Hlate.
    + apply Z.ltb_lt in Hlate. split; [done|]. split; [done|].
      split; [lia|done].
    + apply Z.ltb_ge in Hlate. split; [done|]. split; [done|].
      split; [done|lia].
Qed.

Lemma start_polling_restarts_clock_witness :
  let s := AnalysisProgress.startPolling (Some "a3") 500000 Scenario.hook in
  AnalysisProgress.startTime s.1 = Some 500000
  ∧ AnalysisProgress.pollingInterval
      (AnalysisProgress.pollStatus_end
         (AnalysisProgress.Ok (Scenario.report "in_progress")) 502000 s.1)
    = true.
Proof.
  destruct (start_polling_restarts_clock "a" "3" 500000 502000
              (Scenario.report "in_progress") Scenario.hook)
    as (_ & _ & H1 & H2 & _).
  - done.
  - by intros [?|?].
  - split; [exact H1|]. destruct H2 as (_ & _ & H & _); [reflexivity|].
    by destruct H as [H _]; [by vm_compute|].
Defined.

End polling_start.

(** ** The hypotheses route *)

(** X29.  The hypotheses route calls the AI service whenever the
    question is a non-empty string, and forwards a stored result only
    when the named job is the caller's: for a job of somebody else, or
    an id that names no job, the service is still called, with a null
    result. *)
Theorem hypotheses_route_forwards_own_result_only (uid : string)
    (body : option GenerateHypotheses.Fields) (tbl : gmap string Analysis)
    (backend : GenerateHypotheses.Backend) :
  let r := GenerateHypotheses.POST (AuthUser uid) body tbl backend in
  (∀ req, r.2 = Some req →
     GenerateHypotheses.req_analysis_result req = JNull
     ∨ ∃ b id a,
         body = Some b
         ∧ GenerateHypotheses.f_analysis_id b = Some (JStr id)
         ∧ tbl !! id = Some a ∧ user_id a = uid
         ∧ GenerateHypotheses.req_analysis_result req
           = Chat.or_else (Some (result a)) (JObj []))
  ∧ (∀ b q, body = Some b →
       Stream.check_question (GenerateHypotheses.f_question b)
       = Stream.QuestionOk q →
       ∃ req, r.2 = Some req ∧ GenerateHypotheses.req_question req = q)
  ∧ (∀ b id req, body = Some b →
       GenerateHypotheses.f_analysis_id b = Some (JStr id) →
       select_single tbl id uid = None → r.2 = Some req →
       GenerateHypotheses.req_analysis_result req = JNull).
Proof.
  cbv zeta. unfold GenerateHypotheses.POST. destruct body as [b|].
  2:{ split; [by intros req [=]|]. split; [by intros b q [=]|].
      by intros b id req [=]. }
  destruct (Stream.check_question _) as [| |q] eqn:Hq.
  1,2: (split; [by intros req [=]|]; split;
        [by intros b' q' [= <-]; rewrite Hq|by intros b' id req _ _ _ [=]]).
  cbn [snd]. split; [|split].
  - intros req [= <-]. cbn [GenerateHypotheses.req_analysis_result].
    unfold GenerateHypotheses.analysisResult.
    destruct (truthy _); [|by left].
    destruct (GenerateHypotheses.f_analysis_id b) as [[| | |id| |]|] eqn:Hid;
      try by left.
    destruct (select_single tbl id uid) as [a|] eqn:Hs; [|by left].
    apply select_single_Some in Hs as [Ha Hu]. right. by exists b, id, a.
  - intros b' q' [= <-]. rewrite Hq. intros [= <-]. by eexists.
  - intros b' id req [= <-] Hid Hs [= <-].
    cbn [GenerateHypotheses.req_analysis_result].
    unfold GenerateHypotheses.analysisResult. rewrite Hid, Hs.
    by destruct (truthy _).
Qed.

(** ** Waiting for data *)

(** X30.  The round trip of a job that waits for data.  When an
    update-status request of the owner sets a job to
    [waiting_for_data] with a list of missing items, the status route
    reports that status and that list, on which the hook goes on
    polling; a resume request of the owner is then applied, after which
    the status route reports the job in progress with nothing missing,
    and the task started carries the data of the request. *)
Theorem waiting_for_data_round_trip (uid id : string) (a : Analysis)
    (md : list MissingData) (form : Continue.Fields)
    (tbl : gmap string Analysis) :
  id ≠ "" → tbl !! id = Some a → user_id a = uid → check_row a = true →
  let asked :=
    UpdateStatus.POST (AuthUser uid) id
      (Some (UpdateStatus.mkFields (Some "waiting_for_data") None None None
               None (Some md))) tbl in
  let resumed := Continue.POST (AuthUser uid) id (Some form) asked.2 in
  http_status asked.1 = 200 ∧ http_status resumed.1.1 = 200
  ∧ (∃ rep, Status.GET (AuthUser uid) id asked.2
            = mkResponse 200 (StatusBody rep)
       ∧ rep_status rep = "waiting_for_data"
       ∧ rep_missing_data rep = md ∧ rep_progress rep = progress a
       ∧ ¬ AnalysisProgress.terminal rep)
  ∧ (∃ rep, Status.GET (AuthUser uid) id resumed.1.2
            = mkResponse 200 (StatusBody rep)
       ∧ rep_status rep = "in_progress" ∧ rep_missing_data rep = []
       ∧ rep_progress rep = 20)
  ∧ Continue.task_providedData <$> resumed.2
    = Some (Continue.f_missing_data form).
Proof.
  intros Hid Ha Hu Hc asked resumed. subst resumed.
  apply check_row_spec in Hc as [_ Hp].
  set (b := UpdateStatus.mkFields (Some "waiting_for_data") None None None
              None (Some md)).
  set (a1 := apply_update a (UpdateStatus.updateData b)).
  assert (Hc1 : check_row a1 = true).
  { apply check_row_spec. split; [|exact Hp].
    subst a1 b. cbn. unfold status_values. set_solver. }
  assert (Hasked : asked = (mkResponse 200 SuccessBody, <[id := a1]> tbl)).
  { subst asked. unfold UpdateStatus.POST, db_update.
    rewrite bool_decide_eq_false_2 by done. rewrite Ha. cbn [owned_by].
    rewrite bool_decide_eq_true_2 by done. cbv zeta. fold b. fold a1.
    by rewrite Hc1. }
  rewrite Hasked. cbn [fst snd].
  destruct id as [|c id]; [done|].
  rewrite (continue_owned uid (String c id) _ (<[String c id := a1]> tbl) a1)
    by (try apply lookup_insert_eq; done).
  cbn [fst snd http_status]. split; [done|]. split; [done|].
  unfold Status.GET. rewrite bool_decide_eq_false_2 by done.
  unfold select_single. rewrite insert_insert_eq, !lookup_insert_eq.
  cbn [user_id apply_update a1]. rewrite !bool_decide_eq_true_2 by done.
  split; [|split; [|done]].
  - eexists. split; [reflexivity|]. cbn. split; [done|]. split; [done|].
    split; [done|]. by intros [?|?].
  - eexists. split; [reflexivity|]. by cbn.
Qed.

Lemma waiting_for_data_round_trip_witness :
  let asked :=
    UpdateStatus.POST (AuthUser "u1") "a3"
      (Some (UpdateStatus.mkFields (Some "waiting_for_data") None None None
               None (Some [Samples.salary]))) Samples.table in
  (∃ rep, Status.GET (AuthUser "u1") "a3" asked.2
          = mkResponse 200 (StatusBody rep)
     ∧ rep_status rep = "waiting_for_data"
     ∧ rep_missing_data rep = [Samples.salary])
  ∧ Continue.task_providedData
    <$> (Continue.POST (AuthUser "u1") "a3"
           (Some (Continue.mkFields (Some (JObj [("salary", JNum 60000)]))))
           asked.2).2
    = Some (Some (JObj [("salary", JNum 60000)])).
Proof.
  destruct (waiting_for_data_round_trip "u1" "a3" Samples.running_job
              [Samples.salary]
              (Continue.mkFields (Some (JObj [("salary", JNum 60000)])))
              Samples.table)
    as (_ & _ & (rep & Hg & Hs & Hm & _) & _ & Ht);
    [done|reflexivity|reflexivity|reflexivity|].
  split; [by exists rep|exact Ht].
Defined.
